(** * YT-Downloader 3.0: a shallow embedding of [main.py]

    The program is a PyQt front end that provisions two external tools
    (yt-dlp and ffmpeg/ffprobe) and runs yt-dlp as a child process.  This
    file embeds the two worker threads ([SetupWorker], [DownloadWorker]),
    the helper [find_executable] and the slots of the window that start
    the workers and receive their outcome, and proves the properties its
    specification states about them, and further properties of the code.

    Conventions of the embedding.
    - A Python [str] is a [string]; a character is a code point below 256.
    - A Python [int] is a [Z].
    - A Python [float] is an IEEE binary64 value, kept as sign, integer
      significand and binary exponent; conversions round to nearest, ties to
      even, and are computed exactly over [Z].
    - Exceptions are values of [exn]; code that can raise lives in the monad
      [M], which threads the filesystem and the list of emitted Qt signals.
    - What the interpreter cannot decide from the source (the network, the
      content of archives, the child process) is a field of [env].

    Limits of the embedding.
    - The output of the child is taken as already decoded lines.
    - The interpreter's optional limit on the length of integer literals
      is off.
    - Filesystem calls fail for the reasons the filesystem itself shows (a
      missing entry, a file where a directory is expected, ...), not for
      permissions; the process owns what it creates, with umask 022.
    - Archive members stay inside the directory they are extracted to, and
      the archive libraries report a malformed archive with their own
      exception ([zipfile.BadZipFile], [tarfile.ReadError]).
    - Signals are delivered to the window in the order of emission.
    - The message of the [ValueError] of [int] and [float] is kept without
      the literal it quotes; statements leave that message open. *)

From Stdlib Require Import ZArith String Ascii List Lia DecimalString.
From stdpp Require Import base option strings gmap.

Local Open Scope string_scope.
Local Open Scope Z_scope.

(** ** Exceptions *)

(** The exception classes the program raises, catches, or can receive from
    the libraries it calls.  [OtherError] stands for any further subclass of
    [Exception]. *)
Inductive exc_type : Type :=
  | ValueError
  | OverflowError
  | FileNotFoundError
  | FileExistsError
  | NotADirectoryError
  | IsADirectoryError
  | ShutilError
  | RequestException
  | BadZipFile
  | ReadError
  | PlainException
  | OtherError.

Record exn : Type := MkExn { exc_class : exc_type; exc_msg : string }.

Global Instance exc_type_eq_dec : EqDecision exc_type.
Proof. solve_decision. Defined.

Inductive result (A : Type) : Type :=
  | Ok (a : A)
  | Raise (e : exn).
Arguments Ok {A} a.
Arguments Raise {A} e.

Definition result_bind {A B} (r : result A) (k : A -> result B) : result B :=
  match r with
  | Ok a => k a
  | Raise e => Raise e
  end.

(** ** Python built-ins used by the program *)

Module Py.

Definition ord (c : ascii) : Z := Z.of_N (N_of_ascii c).

Definition in_range (lo hi : Z) (c : ascii) : bool :=
  (lo <=? ord c) && (ord c <=? hi).

(** [str.isspace] on one character, for code points below 256: the ASCII
    controls 0x09-0x0D and 0x1C-0x1F, the space, NEL and the no-break
    space. *)
Definition isspace (c : ascii) : bool :=
  in_range 9 13 c || in_range 28 32 c || (ord c =? 133) || (ord c =? 160).

(** The blanks [int()] and [float()] skip around a literal: C's white
    space, and the non-ASCII spaces, which the interpreter first rewrites
    to a plain space. *)
Definition isblank (c : ascii) : bool :=
  in_range 9 13 c || (ord c =? 32) || (ord c =? 133) || (ord c =? 160).

Definition isdigit (c : ascii) : bool := in_range 48 57 c.

Definition digit_value (c : ascii) : Z := ord c - 48.

(** [c in s] for a one-character [c]. *)
Fixpoint contains (c : ascii) (s : string) : bool :=
  match s with
  | EmptyString => false
  | String d s' => if Ascii.eqb c d then true else contains c s'
  end.

(** [s.replace(c, empty)] for a one-character [c]: every occurrence of [c]
    is removed. *)
Fixpoint remove_all (c : ascii) (s : string) : string :=
  match s with
  | EmptyString => EmptyString
  | String d s' =>
      if Ascii.eqb c d then remove_all c s' else String d (remove_all c s')
  end.

(** [s.startswith(prefix)] and [s.endswith(suffix)]. *)
Definition startswith (s prefix : string) : bool := String.prefix prefix s.

Fixpoint endswith (s suffix : string) : bool :=
  if String.eqb s suffix then true
  else match s with
       | EmptyString => false
       | String _ s' => endswith s' suffix
       end.

(** [needle in s] for strings. *)
Fixpoint has_substring (needle s : string) : bool :=
  if String.prefix needle s then true
  else match s with
       | EmptyString => false
       | String _ s' => has_substring needle s'
       end.

Definition lower_char (c : ascii) : ascii :=
  if in_range 65 90 c then ascii_of_N (N_of_ascii c + 32) else c.

(** [s.lower()], on ASCII letters. *)
Fixpoint lower (s : string) : string :=
  match s with
  | EmptyString => EmptyString
  | String c s' => String (lower_char c) (lower s')
  end.

(** [s.split()]: the maximal runs of characters that are not white space.
    [cur] is the run being read. *)
Fixpoint split_from (cur : string) (s : string) : list string :=
  match s with
  | EmptyString => if String.eqb cur EmptyString then [] else [cur]
  | String c s' =>
      if isspace c then
        (if String.eqb cur EmptyString then split_from EmptyString s'
         else cur :: split_from EmptyString s')
      else split_from (cur +:+ String c EmptyString) s'
  end.

Definition split (s : string) : list string := split_from EmptyString s.

Fixpoint lstrip_with (sp : ascii -> bool) (s : string) : string :=
  match s with
  | EmptyString => EmptyString
  | String c s' => if sp c then lstrip_with sp s' else s
  end.

Fixpoint rstrip_with (sp : ascii -> bool) (s : string) : string :=
  match s with
  | EmptyString => EmptyString
  | String c s' =>
      let r := rstrip_with sp s' in
      if String.eqb r EmptyString && sp c then EmptyString else String c r
  end.

(** [s.strip()]. *)
Definition strip (s : string) : string :=
  rstrip_with isspace (lstrip_with isspace s).

(** [str(n)] for an integer. *)
Definition str_of_int (n : Z) : string := NilZero.string_of_int (Z.to_int n).

(** *** [int(s)] *)

(** The digits of a base-10 literal after its first digit: single
    underscores may separate digits. *)
Fixpoint int_digits (after_underscore : bool) (acc : Z) (s : string)
  : option Z :=
  match s with
  | EmptyString => if after_underscore then None else Some acc
  | String c s' =>
      if isdigit c then int_digits false (10 * acc + digit_value c) s'
      else if Ascii.eqb c "_" then
        (if after_underscore then None else int_digits true acc s')
      else None
  end.

Definition int_magnitude (s : string) : option Z :=
  match s with
  | EmptyString => None
  | String c s' => if isdigit c then int_digits false (digit_value c) s' else None
  end.

Definition split_sign (s : string) : bool * string :=
  match s with
  | String "-" s' => (true, s')
  | String "+" s' => (false, s')
  | _ => (false, s)
  end.

Definition int_error : exn :=
  MkExn ValueError "invalid literal for int() with base 10".

(** [int(s)] for a string: blanks, an optional sign, decimal digits with
    optional single underscores, blanks.  Anything else is a
    [ValueError]. *)
Definition int_of_string (s : string) : result Z :=
  let t := rstrip_with isblank (lstrip_with isblank s) in
  let '(neg, body) := split_sign t in
  match int_magnitude body with
  | Some n => Ok (if neg then - n else n)
  | None => Raise int_error
  end.

(** *** Floats *)

Inductive float : Type :=
  | FNan
  | FInf (neg : bool)
  | FFinite (neg : bool) (m e : Z).  (* (-1)^neg * m * 2^e, with 0 <= m *)

Definition round_half_even (n d : Z) : Z :=
  let q := n / d in
  match 2 * (n mod d) ?= d with
  | Lt => q
  | Gt => q + 1
  | Eq => if Z.even q then q else q + 1
  end.

(** The binary64 value nearest to [num / den] (for [0 <= num], [0 < den]),
    ties to even; a quotient that rounds to 2^1024 or more is infinite.
    [fl] is the floor of the binary logarithm of the quotient, [e] the
    exponent of the last place of the result (at least -1074, where
    subnormals live). *)
Definition binary64_of_ratio (neg : bool) (num den : Z) : float :=
  if num =? 0 then FFinite neg 0 0
  else
    let l := Z.log2 num - Z.log2 den in
    let above :=
      if 0 <=? l then den * 2 ^ l <=? num else den <=? num * 2 ^ (- l) in
    let fl := if above then l else l - 1 in
    let e := Z.max (fl - 52) (-1074) in
    let m :=
      if 0 <=? e then round_half_even num (den * 2 ^ e)
      else round_half_even (num * 2 ^ (- e)) den in
    if (971 <? e) || ((e =? 971) && (2 ^ 53 <=? m)) then FInf neg
    else FFinite neg m e.

(** [int(x)] for a float: truncation toward zero. *)
Definition int_of_float (x : float) : result Z :=
  match x with
  | FNan => Raise (MkExn ValueError "cannot convert float NaN to integer")
  | FInf _ =>
      Raise (MkExn OverflowError "cannot convert float infinity to integer")
  | FFinite neg m e =>
      let a := if 0 <=? e then m * 2 ^ e else m / 2 ^ (- e) in
      Ok (if neg then - a else a)
  end.

(** [a / b] on integers with [0 <= a] and [0 < b], as the program uses it:
    the correctly rounded quotient. *)
Definition true_divide (a b : Z) : result float :=
  match binary64_of_ratio false a b with
  | FInf _ =>
      Raise (MkExn OverflowError "integer division result too large for a float")
  | x => Ok x
  end.

(** The leading decimal digits of a string, most significant first. *)
Fixpoint span_digits (s : string) : list Z * string :=
  match s with
  | EmptyString => ([], EmptyString)
  | String c s' =>
      if isdigit c then
        let '(ds, rest) := span_digits s' in (digit_value c :: ds, rest)
      else ([], s)
  end.

Definition digits_value (ds : list Z) : Z :=
  fold_left (fun acc d => 10 * acc + d) ds 0.

(** Underscores in a float literal: allowed only between two digits.
    [prev] is the character before [s]. *)
Fixpoint drop_underscores (prev : ascii) (s : string) : option string :=
  match s with
  | EmptyString => if Ascii.eqb prev "_" then None else Some EmptyString
  | String c s' =>
      if Ascii.eqb c "_" then
        (if isdigit prev then drop_underscores c s' else None)
      else if Ascii.eqb prev "_" && negb (isdigit c) then None
      else option_map (String c) (drop_underscores c s')
  end.

(** The exponent part of a literal: [e] or [E], an optional sign, at least
    one digit.  When it is not well formed nothing is consumed. *)
Definition float_exponent (s : string) : Z * string :=
  match s with
  | String c r =>
      if Ascii.eqb (lower_char c) "e" then
        let '(eneg, r1) := split_sign r in
        let '(ds, r2) := span_digits r1 in
        match ds with
        | [] => (0, s)
        | _ => (if eneg then - digits_value ds else digits_value ds, r2)
        end
      else (0, s)
  | EmptyString => (0, s)
  end.

Definition float_error : exn :=
  MkExn ValueError "could not convert string to float".

(** [float(s)] for a string: blanks, an optional sign, then [inf],
    [infinity] or [nan] in any case, or decimal digits with an optional
    point and an optional exponent (at least one digit before the
    exponent); blanks.  The value is correctly rounded; too large a literal
    gives an infinity, not an exception. *)
Definition float_of_string (s : string) : result float :=
  match drop_underscores "000" (rstrip_with isblank (lstrip_with isblank s)) with
  | None => Raise float_error
  | Some t =>
      let '(neg, body) := split_sign t in
      let lb := lower body in
      if String.eqb lb "inf" || String.eqb lb "infinity" then Ok (FInf neg)
      else if String.eqb lb "nan" then Ok FNan
      else
        let '(ip, r1) := span_digits body in
        let '(fp, r2) :=
          match r1 with
          | String "." r => span_digits r
          | _ => ([], r1)
          end in
        match (ip ++ fp)%list with
        | [] => Raise float_error
        | ds =>
            let '(ex, r3) := float_exponent r2 in
            if String.eqb r3 EmptyString then
              let scale := ex - Z.of_nat (length fp) in
              let mant := digits_value ds in
              Ok (if 0 <=? scale
                  then binary64_of_ratio neg (mant * 10 ^ scale) 1
                  else binary64_of_ratio neg mant (10 ^ (- scale)))
            else Raise float_error
        end
  end.

(** *** [repr] *)

Definition hex_digit (n : Z) : ascii :=
  if n <? 10 then ascii_of_N (Z.to_N (48 + n)) else ascii_of_N (Z.to_N (87 + n)).

(** Characters [repr] writes as they are: printable ASCII, and the
    printable code points from 0xA1 to 0xFF (all but the soft hyphen). *)
Definition isprintable (c : ascii) : bool :=
  in_range 32 126 c || (in_range 161 255 c && negb (ord c =? 173)).

Definition repr_char (quote c : ascii) : string :=
  if Ascii.eqb c quote || Ascii.eqb c "\" then String "\" (String c EmptyString)
  else if ord c =? 9 then "\t"
  else if ord c =? 10 then "\n"
  else if ord c =? 13 then "\r"
  else if isprintable c then String c EmptyString
  else String "\" (String "x" (String (hex_digit (ord c / 16))
                                (String (hex_digit (ord c mod 16)) EmptyString))).

Fixpoint repr_body (quote : ascii) (s : string) : string :=
  match s with
  | EmptyString => EmptyString
  | String c s' => repr_char quote c +:+ repr_body quote s'
  end.

(** [repr(s)] for a string: single quotes, unless the string has a single
    quote and no double quote. *)
Definition repr (s : string) : string :=
  let quote : ascii :=
    if contains "'" s && negb (contains "034" s) then "034"%char else "'"%char in
  String quote (repr_body quote s) +:+ String quote EmptyString.

Fixpoint repr_items (l : list string) : string :=
  match l with
  | [] => EmptyString
  | [x] => repr x
  | x :: rest => repr x +:+ ", " +:+ repr_items rest
  end.

(** [repr(l)], which is also [str(l)], for a list of strings. *)
Definition repr_list (l : list string) : string :=
  "[" +:+ repr_items l +:+ "]".

End Py.

(** ** The world the program runs in *)

(** A filesystem entry: a regular file with its content and permission
    bits, or a directory. *)
Inductive node : Type :=
  | File (data : string) (mode : Z)
  | Dir.

(** What the program does that can be observed from outside: the Qt
    signals the workers emit (named as in the source; both workers have an
    [update_progress_bar] signal), the HTTP requests, and the handling of
    the child process. *)
Inductive event : Type :=
  | update_status (s : string)
  | update_progress_bar (value : Z) (text : string)
  | setup_finished (success : bool) (message : string)
  | update_progress (s : string)
  | download_finished (success : bool) (message : string)
  | requests_get (url : string)
  | subprocess_Popen (command : list string)
  | process_wait.

(** The filesystem maps a path, as the string the program passes to the
    operating system, to its entry. *)
Record world : Type := MkWorld {
  fs : gmap string node;
  trace : list event
}.

(** The answer to [requests.get(url, stream=True)] followed by
    [raise_for_status()]: either a [RequestException], or a response with
    its [content-length] header (if any) and the chunks [iter_content]
    yields, after which the stream may break with a [RequestException]. *)
Inductive http_response : Type :=
  | HttpError (msg : string)
  | HttpBody (content_length : option string) (chunks : list string)
             (broken : option string).

(** What unpacking an archive puts on disk: entries, each a path relative
    to the extraction directory (as a list of names) with its node, and
    after them possibly an exception.  [Corrupt] is the archive library's
    own report of a malformed archive ([zipfile.BadZipFile], or
    [tarfile.ReadError]). *)
Inductive unpacked : Type :=
  | Unpacked (entries : list (list string * node))
  | Corrupt (entries : list (list string * node)) (msg : string)
  | UnpackFails (entries : list (list string * node)) (e : exn).

(** A child process: the lines of its merged output, its exit code, and
    what it writes to the filesystem. *)
Record process : Type := MkProcess {
  stdout : list string;
  returncode : Z;
  writes : gmap string node -> gmap string node
}.

Inductive launch : Type :=
  | Launched (p : process)
  | LaunchError (e : exn).

(** Everything outside the interpreter. *)
Record env : Type := MkEnv {
  sys_platform : string;
  http : string -> http_response;
  zip_content : string -> unpacked;
  tar_xz_content : string -> unpacked;
  spawn : list string -> launch
}.

(** ** The monad of the workers: state and exceptions *)

Definition M (A : Type) : Type := world -> world * result A.

Definition ret {A} (a : A) : M A := fun w => (w, Ok a).

Definition bind {A B} (c : M A) (k : A -> M B) : M B :=
  fun w =>
    match c w with
    | (w1, Ok a) => k a w1
    | (w1, Raise e) => (w1, Raise e)
    end.

Definition raise {A} (e : exn) : M A := fun w => (w, Raise e).

(** [try: body except Exception as e: handler e]; a handler re-raises what
    no clause of the source catches. *)
Definition catch {A} (body : M A) (handler : exn -> M A) : M A :=
  fun w =>
    match body w with
    | (w1, Ok a) => (w1, Ok a)
    | (w1, Raise e) => handler e w1
    end.

Definition lift {A} (r : result A) : M A := fun w => (w, r).

Definition emit (e : event) : M unit :=
  fun w => (MkWorld (fs w) (trace w ++ [e])%list, Ok tt).

Definition get_fs : M (gmap string node) := fun w => (w, Ok (fs w)).

Definition put_fs (f : gmap string node) : M unit :=
  fun w => (MkWorld f (trace w), Ok tt).

Declare Scope monad_scope.
Delimit Scope monad_scope with monad.
Notation "x <- c ;; k" := (bind c (fun x => k))
  (at level 100, c at next level, right associativity) : monad_scope.
Notation "c ;; k" := (bind c (fun _ => k))
  (at level 100, right associativity) : monad_scope.
Local Open Scope monad_scope.

(** The new line character, and concatenation for messages. *)
Definition nl : string := String "010" EmptyString.

(** ** [os.path] *)

Module OsPath.

Definition win32 (platform : string) : bool := String.eqb platform "win32".

Definition is_sep (platform : string) (c : ascii) : bool :=
  if win32 platform then Ascii.eqb c "\" || Ascii.eqb c "/"
  else Ascii.eqb c "/".

Definition sep (platform : string) : string :=
  if win32 platform then "\" else "/".

Fixpoint last_char (s : string) : option ascii :=
  match s with
  | EmptyString => None
  | String c EmptyString => Some c
  | String _ s' => last_char s'
  end.

Definition ends_with_sep (platform : string) (s : string) : bool :=
  match last_char s with
  | Some c => is_sep platform c
  | None => false
  end.

Definition starts_with_sep (platform : string) (s : string) : bool :=
  match s with
  | String c _ => is_sep platform c
  | EmptyString => false
  end.

(** [ntpath.splitdrive] for drive letters: the drive [X:] and the rest. *)
Definition splitdrive (platform : string) (p : string) : string * string :=
  if win32 platform then
    match p with
    | String c (String ":" rest) => (String c (String ":" EmptyString), rest)
    | _ => (EmptyString, p)
    end
  else (EmptyString, p).

(** [os.path.join(a, b)].  On POSIX an absolute [b] replaces [a];
    otherwise [b] is appended, after a separator unless [a] is empty or
    ends in one.  On win32 the same with the backslash, on the part of [a]
    after its drive letter; there [b] is taken to carry no drive of its
    own, as every second argument of the program does. *)
Definition join (platform : string) (a b : string) : string :=
  let '(drive, path) := splitdrive platform a in
  if starts_with_sep platform b then drive +:+ b
  else if String.eqb path EmptyString || ends_with_sep platform path then a +:+ b
  else a +:+ sep platform +:+ b.

(** The part of a string after its last separator. *)
Fixpoint after_last_sep (platform : string) (s : string) : string :=
  match s with
  | EmptyString => EmptyString
  | String c s' =>
      if Py.contains "/" s' || (win32 platform && Py.contains "\" s')
      then after_last_sep platform s'
      else if is_sep platform c then s' else s
  end.

(** [os.path.basename(p)]. *)
Definition basename (platform : string) (p : string) : string :=
  after_last_sep platform (snd (splitdrive platform p)).

End OsPath.

(** ** The filesystem *)

(** Paths are the strings the program builds with [os.path.join]; a
    directory holds the paths that extend it by a separator and a name.
    Intermediate directories are not tracked: an entry exists when its own
    path is bound. *)

Section Filesystem.

Variable E : env.

Local Abbreviation platform := (sys_platform E).
Local Abbreviation join := (OsPath.join (sys_platform E)).

(** [os.path.exists], [os.path.isfile], [os.path.isdir]. *)
Definition path_exists (f : gmap string node) (p : string) : bool :=
  match f !! p with
  | Some _ => true
  | None => false
  end.

Definition isfile (f : gmap string node) (p : string) : bool :=
  match f !! p with
  | Some (File _ _) => true
  | _ => false
  end.

Definition isdir (f : gmap string node) (p : string) : bool :=
  match f !! p with
  | Some Dir => true
  | _ => false
  end.

Definition S_IXUSR : Z := 64.
Definition S_IXGRP : Z := 8.
Definition S_IXOTH : Z := 1.

(** [os.access(p, os.X_OK)]: on win32 every existing entry passes; elsewhere
    the owner's execute bit decides (the process owns the tools
    directory). *)
Definition access_X_OK (f : gmap string node) (p : string) : bool :=
  match f !! p with
  | None => false
  | Some Dir => true
  | Some (File _ mode) =>
      if OsPath.win32 platform then true
      else negb (Z.land mode S_IXUSR =? 0)
  end.

Definition no_such_file (p : string) : exn :=
  MkExn FileNotFoundError
        ("[Errno 2] No such file or directory: " +:+ Py.repr p).

(** [os.makedirs(p)]. *)
Definition makedirs (p : string) : M unit :=
  f <- get_fs ;;
  match f !! p with
  | Some _ =>
      raise (MkExn FileExistsError ("[Errno 17] File exists: " +:+ Py.repr p))
  | None => put_fs (<[p := Dir]> f)
  end.

(** [open(p, 'wb')]: the file is created, or emptied when it exists; a new
    file gets mode 0o644. *)
Definition open_wb (p : string) : M unit :=
  f <- get_fs ;;
  match f !! p with
  | Some Dir =>
      raise (MkExn IsADirectoryError
                   ("[Errno 21] Is a directory: " +:+ Py.repr p))
  | Some (File _ mode) => put_fs (<[p := File EmptyString mode]> f)
  | None => put_fs (<[p := File EmptyString 420]> f)
  end.

(** [f.write(chunk)] on the file opened at [p]. *)
Definition write_chunk (p chunk : string) : M unit :=
  f <- get_fs ;;
  match f !! p with
  | Some (File data mode) => put_fs (<[p := File (data +:+ chunk) mode]> f)
  | _ => ret tt
  end.

(** [os.chmod(p, os.stat(p).st_mode | stat.S_IXUSR | stat.S_IXGRP |
    stat.S_IXOTH)]. *)
Definition chmod_executable (p : string) : M unit :=
  f <- get_fs ;;
  match f !! p with
  | None => raise (no_such_file p)
  | Some Dir => ret tt
  | Some (File data mode) =>
      put_fs (<[p := File data
                  (Z.lor (Z.lor (Z.lor mode S_IXUSR) S_IXGRP) S_IXOTH)]> f)
  end.

(** A path lies below directory [d] when it extends [join d empty], the
    path of [d] with its separator. *)
Definition below (d p : string) : bool :=
  let prefix := join d EmptyString in
  String.prefix prefix p && negb (String.eqb p prefix).

Fixpoint drop (n : nat) (s : string) : string :=
  match n, s with
  | O, _ => s
  | S n', String _ s' => drop n' s'
  | S _, EmptyString => EmptyString
  end.

Fixpoint has_sep (s : string) : bool :=
  match s with
  | EmptyString => false
  | String c s' => OsPath.is_sep platform c || has_sep s'
  end.

(** The name under which [p] is listed in directory [d], if it is an
    entry of [d]. *)
Definition child_name (d p : string) : option string :=
  if below d p then
    let name := drop (String.length (join d EmptyString)) p in
    if has_sep name then None else Some name
  else None.

(** The names of the entries of directory [d]. *)
Definition dir_entries (f : gmap string node) (d : string) : list string :=
  omap (child_name d) (map fst (map_to_list f)).

(** [os.listdir(d)]. *)
Definition listdir (d : string) : M (list string) :=
  f <- get_fs ;;
  match f !! d with
  | None => raise (no_such_file d)
  | Some (File _ _) =>
      raise (MkExn NotADirectoryError
                   ("[Errno 20] Not a directory: " +:+ Py.repr d))
  | Some Dir => ret (dir_entries f d)
  end.

(** The filesystem without directory [d] and all that lies below it. *)
Definition without_tree (d : string) (f : gmap string node)
  : gmap string node :=
  filter (fun kv => negb (String.eqb (fst kv) d) && negb (below d (fst kv))) f.

(** [shutil.rmtree(d)]. *)
Definition rmtree (d : string) : M unit :=
  f <- get_fs ;;
  match f !! d with
  | None => raise (no_such_file d)
  | Some (File _ _) =>
      raise (MkExn NotADirectoryError
                   ("[Errno 20] Not a directory: " +:+ Py.repr d))
  | Some Dir => put_fs (without_tree d f)
  end.

(** [os.remove(p)]. *)
Definition remove (p : string) : M unit :=
  f <- get_fs ;;
  match f !! p with
  | None => raise (no_such_file p)
  | Some Dir =>
      raise (MkExn IsADirectoryError
                   ("[Errno 21] Is a directory: " +:+ Py.repr p))
  | Some (File _ _) => put_fs (delete p f)
  end.

(** [shutil.move(src, dst)] for a file [src]: into [dst] when that is a
    directory, else onto [dst], replacing it. *)
Definition move (src dst : string) : M unit :=
  f <- get_fs ;;
  let real_dst :=
    if isdir f dst then join dst (OsPath.basename platform src) else dst in
  if isdir f dst && path_exists f real_dst then
    raise (MkExn ShutilError
                 ("Destination path " +:+ Py.repr real_dst +:+ " already exists"))
  else
    match f !! src with
    | None => raise (no_such_file src)
    | Some n => put_fs (<[real_dst := n]> (delete src f))
    end.

(** One archive member written below [dir]; the directories on the way
    are created. *)
Fixpoint place (f : gmap string node) (dir : string) (names : list string)
    (n : node) : gmap string node :=
  match names with
  | [] => f
  | x :: rest =>
      match rest with
      | [] => <[join dir x := n]> f
      | _ => place (<[join dir x := Dir]> f) (join dir x) rest n
      end
  end.

Definition place_all (dir : string) (entries : list (list string * node))
    (f : gmap string node) : gmap string node :=
  fold_left (fun g en => place g dir (fst en) (snd en)) entries f.

(** [extractall(dir)] of an archive whose library reports corruption with
    the exception class [corrupt]. *)
Definition extractall (corrupt : exc_type) (content : string -> unpacked)
    (archive_path dir : string) : M unit :=
  f <- get_fs ;;
  match f !! archive_path with
  | None => raise (no_such_file archive_path)
  | Some Dir =>
      raise (MkExn IsADirectoryError
                   ("[Errno 21] Is a directory: " +:+ Py.repr archive_path))
  | Some (File data _) =>
      match content data with
      | Unpacked entries => put_fs (place_all dir entries f)
      | Corrupt entries msg =>
          put_fs (place_all dir entries f) ;; raise (MkExn corrupt msg)
      | UnpackFails entries e =>
          put_fs (place_all dir entries f) ;; raise e
      end
  end.

End Filesystem.

(** ** [find_executable] *)

Section FindExecutable.

Variable E : env.

(** Searches for an executable with the given name in the given list of
    directories; on win32 the name with [.exe] is tried too. *)
Fixpoint find_executable (f : gmap string node) (name : string)
    (path_list : list string) : option string :=
  match path_list with
  | [] => None
  | path :: rest =>
      let full_path := OsPath.join (sys_platform E) path name in
      if isfile f full_path && access_X_OK E f full_path then Some full_path
      else
        let full_path_exe :=
          OsPath.join (sys_platform E) path (name +:+ ".exe") in
        if String.eqb (sys_platform E) "win32"
           && isfile f full_path_exe && access_X_OK E f full_path_exe
        then Some full_path_exe
        else find_executable f name rest
  end.

(** The truth value of an optional string: [None] and the empty string
    are false. *)
Definition truthy (o : option string) : bool :=
  match o with
  | Some s => negb (String.eqb s EmptyString)
  | None => false
  end.

End FindExecutable.

(** ** [SetupWorker]: the tool provisioner *)

Module SetupWorker.

Record t : Type := Make { tools_dir : string }.

Section Run.

Variable E : env.

Local Abbreviation join := (OsPath.join (sys_platform E)).
Local Abbreviation is_win32 := (String.eqb (sys_platform E) "win32").
Local Abbreviation is_darwin := (String.eqb (sys_platform E) "darwin").

(** The body of the [for chunk in response.iter_content(...)] loop. *)
Fixpoint download_chunks (destination tool_name : string) (total_size : Z)
    (chunks : list string) (downloaded_size : Z) : M unit :=
  match chunks with
  | [] => ret tt
  | chunk :: rest =>
      if String.eqb chunk EmptyString then
        download_chunks destination tool_name total_size rest downloaded_size
      else
        write_chunk destination chunk ;;
        let downloaded_size :=
          downloaded_size + Z.of_nat (String.length chunk) in
        (if 0 <? total_size then
           progress <- lift (result_bind
                               (Py.true_divide (downloaded_size * 100) total_size)
                               Py.int_of_float) ;;
           emit (update_progress_bar progress
                   ("Downloading " +:+ tool_name +:+ ": "
                    +:+ Py.str_of_int progress +:+ "%"))
         else ret tt) ;;
        download_chunks destination tool_name total_size rest downloaded_size
  end.

(** Downloads a file with progress updates. *)
Definition _download_file (url destination tool_name : string) : M unit :=
  catch
    (emit (requests_get url) ;;
     match http E url with
     | HttpError msg => raise (MkExn RequestException msg)
     | HttpBody content_length chunks broken =>
         total_size <- lift (match content_length with
                             | Some header => Py.int_of_string header
                             | None => Ok 0
                             end) ;;
         open_wb destination ;;
         download_chunks destination tool_name total_size chunks 0 ;;
         match broken with
         | Some msg => raise (MkExn RequestException msg)
         | None => ret tt
         end ;;
         emit (update_progress_bar 100
                 ("Downloading " +:+ tool_name +:+ ": 100%"))
     end)
    (fun e =>
       if decide (exc_class e = RequestException) then
         raise (MkExn RequestException
                      ("Failed to download " +:+ tool_name +:+ " from " +:+ url
                       +:+ ": " +:+ exc_msg e))
       else raise e).

(** The root of the extracted content: the single top-level folder when
    extraction made exactly one entry and it is a directory, else the
    extraction directory. *)
Definition extracted_root (f : gmap string node) (temp_extract_path : string)
    (extracted_contents : list string) : string :=
  if Nat.eqb (length extracted_contents) 1
     && isdir f (join temp_extract_path (hd EmptyString extracted_contents))
  then join temp_extract_path (hd EmptyString extracted_contents)
  else temp_extract_path.

(** [_extract_to_temp_dir], first part: the scratch directory is cleared
    and made anew, and the archive is unpacked into it by the library its
    suffix selects. *)
Definition unpack_archive (archive_path temp_extract_path : string) : M unit :=
  f <- get_fs ;;
  (if path_exists f temp_extract_path then rmtree E temp_extract_path
   else ret tt) ;;
  makedirs temp_extract_path ;;
  if Py.endswith archive_path ".zip" then
    extractall E BadZipFile (zip_content E) archive_path temp_extract_path
  else if Py.endswith archive_path ".tar.xz" then
    extractall E ReadError (tar_xz_content E) archive_path temp_extract_path
  else
    raise (MkExn ValueError
             "Unsupported archive format. Only .zip and .tar.xz are supported.").

(** Extracts a zip or tar.xz archive to a temporary directory.  Returns
    the path to the actual root directory of the extracted content. *)
Definition _extract_to_temp_dir (archive_path temp_extract_path : string)
  : M string :=
  unpack_archive archive_path temp_extract_path ;;
  extracted_contents <- listdir E temp_extract_path ;;
  f <- get_fs ;;
  ret (extracted_root f temp_extract_path extracted_contents).

(** The platform-keyed constants of [run]. *)
Definition yt_dlp_url : string :=
  if is_win32
  then "https://github.com/yt-dlp/yt-dlp/releases/latest/download/yt-dlp.exe"
  else "https://github.com/yt-dlp/yt-dlp/releases/latest/download/yt-dlp".

Definition yt_dlp_filename : string :=
  if is_win32 then "yt-dlp.exe" else "yt-dlp".

Definition ffmpeg_archive_url : string :=
  if is_win32 then "https://www.gyan.dev/ffmpeg/builds/ffmpeg-release-full.zip"
  else if is_darwin then "https://evermeet.cx/ffmpeg/ffmpeg-latest.zip"
  else "https://johnvansickle.com/ffmpeg/releases/ffmpeg-release-amd64-static.tar.xz".

Definition ffmpeg_archive_filename : string :=
  if is_win32 then "ffmpeg-release-full.zip"
  else if is_darwin then "ffmpeg-latest.zip"
  else "ffmpeg-release-amd64-static.tar.xz".

Definition ffmpeg_name : string := "ffmpeg".
Definition ffprobe_name : string := "ffprobe".

Definition ffmpeg_path_in_tools (self : t) : string :=
  join (tools_dir self) ffmpeg_name.
Definition ffprobe_path_in_tools (self : t) : string :=
  join (tools_dir self) ffprobe_name.
Definition yt_dlp_path (self : t) : string :=
  join (tools_dir self) yt_dlp_filename.
Definition temp_archive_path (self : t) : string :=
  join (tools_dir self) ffmpeg_archive_filename.
Definition temp_extract_dir (self : t) : string :=
  join (tools_dir self) "ffmpeg_temp_extract".

Definition not_found_message (search_paths_for_exec : list string) : string :=
  "FFmpeg or FFprobe executables not found after extraction in "
  +:+ Py.repr_list search_paths_for_exec
  +:+ ". Please check the archive content.".

(** [run], first block: the tools directory. *)
Definition ensure_tools_dir (self : t) : M unit :=
  f <- get_fs ;;
  if negb (path_exists f (tools_dir self)) then
    makedirs (tools_dir self) ;;
    emit (update_status ("Created tools directory: " +:+ tools_dir self))
  else ret tt.

(** [run], second block: [# --- Download yt-dlp ---]. *)
Definition provide_yt_dlp (self : t) : M unit :=
  f <- get_fs ;;
  if negb (path_exists f (yt_dlp_path self)) then
    emit (update_status ("Downloading " +:+ yt_dlp_filename +:+ "...")) ;;
    _download_file yt_dlp_url (yt_dlp_path self) "yt-dlp" ;;
    (if negb is_win32 then chmod_executable (yt_dlp_path self) else ret tt) ;;
    emit (update_status (yt_dlp_filename +:+ " downloaded."))
  else emit (update_status (yt_dlp_filename +:+ " already exists.")).

(** [run], inside the FFmpeg block: the download of the archive. *)
Definition fetch_archive (self : t) : M unit :=
  emit (update_status ("Downloading " +:+ ffmpeg_archive_filename +:+ "...")) ;;
  _download_file ffmpeg_archive_url (temp_archive_path self) "FFmpeg" ;;
  emit (update_status ("Extracting " +:+ ffmpeg_archive_filename +:+ "...")).

(** [run], inside the FFmpeg block: the two executables are searched in
    the extracted root and its [bin] folder, moved to the tools directory
    and made executable.  The last branch of the [match] is never taken:
    a path that was not found is not [truthy]. *)
Definition locate_and_move (self : t) (extracted_root_dir : string) : M unit :=
  let search_paths_for_exec :=
    [extracted_root_dir; join extracted_root_dir "bin"] in
  f <- get_fs ;;
  let extracted_ffmpeg_path :=
    find_executable E f ffmpeg_name search_paths_for_exec in
  let extracted_ffprobe_path :=
    find_executable E f ffprobe_name search_paths_for_exec in
  if negb (truthy extracted_ffmpeg_path) || negb (truthy extracted_ffprobe_path)
  then raise (MkExn PlainException (not_found_message search_paths_for_exec))
  else
    match extracted_ffmpeg_path, extracted_ffprobe_path with
    | Some ffmpeg_found, Some ffprobe_found =>
        move E ffmpeg_found (ffmpeg_path_in_tools self) ;;
        move E ffprobe_found (ffprobe_path_in_tools self) ;;
        (if negb is_win32 then
           chmod_executable (ffmpeg_path_in_tools self) ;;
           chmod_executable (ffprobe_path_in_tools self)
         else ret tt) ;;
        emit (update_status (ffmpeg_name +:+ " and " +:+ ffprobe_name
                             +:+ " extracted and moved."))
    | _, _ => ret tt
    end.

(** [run], inside the FFmpeg block:
    [# Clean up temporary extraction directory and archive]. *)
Definition clean_up (self : t) : M unit :=
  f <- get_fs ;;
  (if path_exists f (temp_extract_dir self) then
     rmtree E (temp_extract_dir self) ;;
     emit (update_status
             ("Cleaned up temporary extraction directory: "
              +:+ OsPath.basename (sys_platform E) (temp_extract_dir self)
              +:+ "."))
   else ret tt) ;;
  remove (temp_archive_path self) ;;
  emit (update_status ("Cleaned up " +:+ ffmpeg_archive_filename +:+ ".")).

(** [run], inside the FFmpeg block: what follows the download. *)
Definition install_ffmpeg (self : t) : M unit :=
  extracted_root_dir <-
    _extract_to_temp_dir (temp_archive_path self) (temp_extract_dir self) ;;
  locate_and_move self extracted_root_dir ;;
  clean_up self.

(** [run], third block: [# --- Download FFmpeg ---]. *)
Definition provide_ffmpeg (self : t) : M unit :=
  f <- get_fs ;;
  if negb (path_exists f (ffmpeg_path_in_tools self))
     || negb (path_exists f (ffprobe_path_in_tools self))
  then
    fetch_archive self ;;
    install_ffmpeg self
  else
    emit (update_status (ffmpeg_name +:+ " and " +:+ ffprobe_name
                         +:+ " already exist.")).

(** The [try] block of [run]. *)
Definition run_body (self : t) : M unit :=
  ensure_tools_dir self ;;
  provide_yt_dlp self ;;
  provide_ffmpeg self ;;
  emit (setup_finished true "Tool setup completed successfully!").

(** The [except] clauses of [run], in the order of the source. *)
Definition run_handler (e : exn) : M unit :=
  if decide (exc_class e = RequestException) then
    emit (setup_finished false
            ("Network error during tool download: " +:+ exc_msg e))
  else if decide (exc_class e = BadZipFile \/ exc_class e = ReadError) then
    emit (setup_finished false
            ("Archive extraction error: " +:+ exc_msg e
             +:+ ". The downloaded file might be corrupted."))
  else
    emit (setup_finished false
            ("An error occurred during tool setup: " +:+ exc_msg e)).

Definition run (self : t) : M unit :=
  catch (run_body self) run_handler.

End Run.

End SetupWorker.

(** ** [DownloadWorker]: the download runner *)

Module DownloadWorker.

Record t : Type := Make {
  url : string;
  output_path : string;
  format_choice : string;
  yt_dlp_exec : string;
  ffmpeg_exec : string
}.

Section Run.

Variable E : env.

Definition best_selector : string :=
  "bestvideo[ext=mp4]+bestaudio[ext=m4a]/best[ext=mp4]/best".

(** The list [command] as [run] has built it when it calls [Popen]. *)
Definition command (self : t) : list string :=
  let command :=
    [ yt_dlp_exec self;
      "--external-downloader"; "aria2c";
      "--external-downloader-args"; "-x 16 -s 16 -k 1M";
      "--ffmpeg-location"; ffmpeg_exec self;
      "-o"; OsPath.join (sys_platform E) (output_path self) "%(title)s.%(ext)s" ] in
  let command :=
    if String.eqb (format_choice self) "mp3" then
      (command ++ ["-x"; "--audio-format"; "mp3"; "--audio-quality"; "0"])%list
    else if String.eqb (format_choice self) "best" then
      ((command ++ ["-f"]) ++ [best_selector])%list
    else
      ((command ++ ["-f"]) ++ [format_choice self])%list in
  (command ++ [url self])%list.

(** [subprocess.Popen(command, ...)]: the child is started, or the call
    raises. *)
Definition Popen (command : list string) : M process :=
  emit (subprocess_Popen command) ;;
  match spawn E command with
  | LaunchError e => raise e
  | Launched p => f <- get_fs ;; put_fs (writes p f) ;; ret p
  end.

(** The progress value of one token ending in a percent sign. *)
Definition progress_of_part (part : string) : result Z :=
  let progress_str := Py.remove_all "%" part in
  if Py.contains "." progress_str then
    result_bind (Py.float_of_string progress_str) Py.int_of_float
  else Py.int_of_string progress_str.

(** [for part in parts: if part.endswith("%"): ...; break]. *)
Fixpoint scan_parts (parts : list string) : M unit :=
  match parts with
  | [] => ret tt
  | part :: rest =>
      if Py.endswith part "%" then
        progress_value <- lift (progress_of_part part) ;;
        emit (update_progress_bar progress_value
                ("Downloading: " +:+ Py.str_of_int progress_value +:+ "%"))
      else scan_parts rest
  end.

(** The part of the loop body that updates the progress bar, with its
    [try ... except ValueError: pass]. *)
Definition extract_progress (line : string) : M unit :=
  if Py.contains "%" line then
    catch (scan_parts (Py.split line))
          (fun e => if decide (exc_class e = ValueError) then ret tt
                    else raise e)
  else ret tt.

(** [for line in process.stdout: ...]. *)
Fixpoint stream_output (lines : list string) : M unit :=
  match lines with
  | [] => ret tt
  | line :: rest =>
      emit (update_progress line) ;;
      extract_progress line ;;
      stream_output rest
  end.

(** The [try] block of [run]. *)
Definition run_body (self : t) : M unit :=
  process <- Popen (command self) ;;
  stream_output (stdout process) ;;
  emit process_wait ;;
  if returncode process =? 0 then
    emit (download_finished true "Download completed successfully!")
  else
    emit (download_finished false
            ("Download failed with error code: "
             +:+ Py.str_of_int (returncode process))).

Definition not_found_message : string :=
  "Error: yt-dlp or ffmpeg executable not found. Ensure paths are correct and executables exist.".

(** The [except] clauses of [run]. *)
Definition run_handler (e : exn) : M unit :=
  if decide (exc_class e = FileNotFoundError) then
    emit (download_finished false not_found_message)
  else
    emit (download_finished false
            ("An unexpected error occurred: " +:+ exc_msg e)).

(** The download logic that will be executed in a separate thread. *)
Definition run (self : t) : M unit :=
  emit (update_progress ("Starting download from: " +:+ url self +:+ nl)) ;;
  emit (update_progress ("Saving to: " +:+ output_path self +:+ nl)) ;;
  emit (update_progress_bar 0 "Downloading...") ;;
  catch (run_body self) run_handler.

End Run.

End DownloadWorker.

(** ** The main window, as far as the download reports to it *)

Module YouTubeDownloaderApp.

(** The widgets the slots read and write.  [yt_dlp_exec] and
    [ffmpeg_exec] are the paths [on_tool_setup_finished] has stored before
    it enables the download button. *)
Record t : Type := Make {
  url_input_text : string;
  format_combo_text : string;
  yt_dlp_exec : string;
  ffmpeg_exec : string;
  download_button_enabled : bool;
  url_input_enabled : bool;
  format_combo_enabled : bool;
  output_log : list string;
  status_bar : string;
  progress_bar_value : Z;
  progress_bar_format : string;
  message_boxes : list (string * string)
}.

Definition set_enabled (b : bool) (g : t) : t :=
  Make (url_input_text g) (format_combo_text g) (yt_dlp_exec g) (ffmpeg_exec g)
       b b b (output_log g) (status_bar g) (progress_bar_value g)
       (progress_bar_format g) (message_boxes g).

Definition set_output_log (l : list string) (g : t) : t :=
  Make (url_input_text g) (format_combo_text g) (yt_dlp_exec g) (ffmpeg_exec g)
       (download_button_enabled g) (url_input_enabled g)
       (format_combo_enabled g) l (status_bar g) (progress_bar_value g)
       (progress_bar_format g) (message_boxes g).

Definition output_log_append (s : string) (g : t) : t :=
  set_output_log (output_log g ++ [s])%list g.

Definition show_message (s : string) (g : t) : t :=
  Make (url_input_text g) (format_combo_text g) (yt_dlp_exec g) (ffmpeg_exec g)
       (download_button_enabled g) (url_input_enabled g)
       (format_combo_enabled g) (output_log g) s (progress_bar_value g)
       (progress_bar_format g) (message_boxes g).

(** [QProgressBar.setValue] with the default range 0..100: a value outside
    the range is ignored. *)
Definition progress_bar_setValue (v : Z) (g : t) : t :=
  if (v <? 0) || (100 <? v) then g
  else
    Make (url_input_text g) (format_combo_text g) (yt_dlp_exec g)
         (ffmpeg_exec g) (download_button_enabled g) (url_input_enabled g)
         (format_combo_enabled g) (output_log g) (status_bar g) v
         (progress_bar_format g) (message_boxes g).

Definition progress_bar_setFormat (s : string) (g : t) : t :=
  Make (url_input_text g) (format_combo_text g) (yt_dlp_exec g) (ffmpeg_exec g)
       (download_button_enabled g) (url_input_enabled g)
       (format_combo_enabled g) (output_log g) (status_bar g)
       (progress_bar_value g) s (message_boxes g).

Definition message_box (title text : string) (g : t) : t :=
  Make (url_input_text g) (format_combo_text g) (yt_dlp_exec g) (ffmpeg_exec g)
       (download_button_enabled g) (url_input_enabled g)
       (format_combo_enabled g) (output_log g) (status_bar g)
       (progress_bar_value g) (progress_bar_format g)
       (message_boxes g ++ [(title, text)])%list.

(** Handles the completion of the video download process. *)
Definition on_download_finished (success : bool) (message : string) (g : t)
  : t :=
  let g := set_enabled true g in
  let g := output_log_append (nl +:+ message) g in
  let g := show_message message g in
  let g := progress_bar_setValue (if success then 100 else 0) g in
  let g := progress_bar_setFormat (if success then "Done!" else "Failed!") g in
  if negb success then message_box "Download Failed" message g
  else message_box "Download Complete" message g.

(** The connections [start_download] makes for the signals of the
    download worker; other events do not reach the window. *)
Definition deliver (g : t) (e : event) : t :=
  match e with
  | update_progress line => output_log_append line g
  | update_progress_bar val text =>
      progress_bar_setFormat text (progress_bar_setValue val g)
  | download_finished success message =>
      on_download_finished success message g
  | _ => g
  end.

Definition deliver_all (g : t) (events : list event) : t :=
  fold_left deliver events g.

(** Starts the video download process: the slot up to the creation of the
    worker, which it returns ([None] when the URL is empty). *)
Definition start_download (g : t) : M (t * option DownloadWorker.t) :=
  let url := Py.strip (url_input_text g) in
  if String.eqb url EmptyString then
    ret (message_box "Empty Input" "Please enter a YouTube video URL." g, None)
  else
    let selected_format_text := format_combo_text g in
    let format_choice :=
      if Py.has_substring "mp3" (Py.lower selected_format_text)
      then "mp3" else "best" in
    let output_folder := "downloads" in
    f <- get_fs ;;
    g <- (if negb (path_exists f output_folder) then
            makedirs output_folder ;;
            ret (output_log_append
                   ("Directory '" +:+ output_folder +:+ "' created." +:+ nl) g)
          else ret g) ;;
    let g := set_output_log [] g in
    let g := output_log_append "Starting video download process..." g in
    let g := set_enabled false g in
    let g := progress_bar_setFormat "Downloading video..." g in
    let g := progress_bar_setValue 0 g in
    ret (g, Some (DownloadWorker.Make url output_folder format_choice
                    (yt_dlp_exec g) (ffmpeg_exec g))).

(** *** The slots of the tool setup *)

(** The attributes [self.yt_dlp_exec] and [self.ffmpeg_exec] as the slots
    of the setup leave them: [None] until [on_tool_setup_finished] has
    looked the tools up.  The record keeps the two paths as strings once
    both are found. *)
Definition tool_attrs : Type := (option string * option string)%type.

Definition set_tools (yt ffmpeg : string) (g : t) : t :=
  Make (url_input_text g) (format_combo_text g) yt ffmpeg
       (download_button_enabled g) (url_input_enabled g)
       (format_combo_enabled g) (output_log g) (status_bar g)
       (progress_bar_value g) (progress_bar_format g) (message_boxes g).

(** Initiates the automatic download and setup of yt-dlp and ffmpeg: the
    slot up to the creation of the worker, which it returns. *)
Definition start_tool_setup (tools_dir : string) (g : t) : t * SetupWorker.t :=
  let g := set_output_log [] g in
  let g := output_log_append "Checking for required tools (yt-dlp, ffmpeg)..." g in
  let g := set_enabled false g in
  let g := progress_bar_setFormat "Setting up tools..." g in
  let g := progress_bar_setValue 0 g in
  (g, SetupWorker.Make tools_dir).

(** Handles the completion of the tool setup process.  [f] is the
    filesystem the slot finds. *)
Definition on_tool_setup_finished (E : env) (tools_dir : string)
    (f : gmap string node) (success : bool) (message : string)
    (state : t * tool_attrs) : t * tool_attrs :=
  let '(g, attrs) := state in
  let g := output_log_append (nl +:+ message) g in
  let g := show_message message g in
  if success then
    let yt_dlp_exec := find_executable E f "yt-dlp" [tools_dir] in
    let ffmpeg_exec := find_executable E f "ffmpeg" [tools_dir] in
    if truthy yt_dlp_exec && truthy ffmpeg_exec then
      let g := set_tools (default EmptyString yt_dlp_exec)
                         (default EmptyString ffmpeg_exec) g in
      let g := set_enabled true g in
      let g := progress_bar_setValue 100 g in
      let g := progress_bar_setFormat "Tools ready. Enter URL." g in
      let g := show_message "Application ready for download." g in
      (g, (yt_dlp_exec, ffmpeg_exec))
    else
      let g := message_box "Setup Error"
                 "Required tools not found after setup. Please check logs." g in
      let g := progress_bar_setValue 0 g in
      let g := progress_bar_setFormat "Setup Failed!" g in
      let g := show_message "Error: Tools not found after setup." g in
      (g, (yt_dlp_exec, ffmpeg_exec))
  else
    let g := message_box "Tool Setup Failed" message g in
    let g := progress_bar_setValue 0 g in
    let g := progress_bar_setFormat "Setup Failed!" g in
    let g := show_message "Error: Tool setup failed." g in
    (g, attrs).

(** The connections [start_tool_setup] makes for the signals of the setup
    worker. *)
Definition deliver_setup (E : env) (tools_dir : string) (f : gmap string node)
    (state : t * tool_attrs) (e : event) : t * tool_attrs :=
  match e with
  | update_status s => (output_log_append s (fst state), snd state)
  | update_progress_bar val text =>
      (progress_bar_setFormat text (progress_bar_setValue val (fst state)),
       snd state)
  | setup_finished success message =>
      on_tool_setup_finished E tools_dir f success message state
  | _ => state
  end.

Definition deliver_setup_all (E : env) (tools_dir : string)
    (f : gmap string node) (state : t * tool_attrs) (events : list event)
  : t * tool_attrs :=
  fold_left (deliver_setup E tools_dir f) events state.

End YouTubeDownloaderApp.

(** ** Sample inputs *)

Module Sample.

Definition no_network (u : string) : http_response := HttpError "unreachable".

Definition no_archive (data : string) : unpacked :=
  Corrupt [] "not an archive".

Definition start : world := MkWorld ∅ [].

Definition job : DownloadWorker.t :=
  DownloadWorker.Make "https://youtu.be/dQw4w9WgXcQ" "downloads" "best"
                      "/app/tools/yt-dlp" "/app/tools/ffmpeg".

Definition custom_job : DownloadWorker.t :=
  DownloadWorker.Make "https://youtu.be/dQw4w9WgXcQ" "downloads" "137+140"
                      "/app/tools/yt-dlp" "/app/tools/ffmpeg".

(** A line of output whose percentage is too large for a float. *)
Definition overflow_line : string :=
  "[download] 1.0e400% of 10MiB" +:+ nl.

Definition quiet (f : gmap string node) : gmap string node := f.

(** A child that prints the overflowing line, then a last progress line,
    and exits with code 0. *)
Definition overflow_process : process :=
  MkProcess [overflow_line; "[download] 100% of 10MiB" +:+ nl] 0 quiet.

Definition overflow_env : env :=
  MkEnv "linux" no_network no_archive no_archive
        (fun _ => Launched overflow_process).

(** A child that prints nothing, writes nothing and exits with code 0. *)
Definition silent_env : env :=
  MkEnv "linux" no_network no_archive no_archive
        (fun _ => Launched (MkProcess [] 0 quiet)).

(** The window as the user has filled it in. *)
Definition window : YouTubeDownloaderApp.t :=
  YouTubeDownloaderApp.Make " https://youtu.be/dQw4w9WgXcQ "
    "Best (Video & Audio MP4)" "/app/tools/yt-dlp" "/app/tools/ffmpeg"
    true true true [] "Application ready for download." 100
    "Tools ready. Enter URL." [].

(** The tools directory of an installation, on POSIX and on Windows. *)
Definition tools : SetupWorker.t := SetupWorker.Make "/app/tools".

Definition win_tools : SetupWorker.t := SetupWorker.Make "C:\app\tools".

Definition no_child (command : list string) : launch :=
  LaunchError (MkExn FileNotFoundError "[Errno 2] No such file or directory").

(** A machine of the given platform without network. *)
Definition offline (platform : string) : env :=
  MkEnv platform no_network no_archive no_archive no_child.

(** A tools directory in which the three tools are installed. *)
Definition provisioned : world :=
  MkWorld (<["/app/tools" := Dir]>
           (<["/app/tools/yt-dlp" := File "yt-dlp" 493]>
            (<["/app/tools/ffmpeg" := File "ffmpeg" 493]>
             (<["/app/tools/ffprobe" := File "ffprobe" 493]> ∅))))
          [].

(** A server that answers every request with the same four bytes. *)
Definition four_bytes (u : string) : http_response :=
  HttpBody (Some "4") ["ab"; "cd"] None.

(** The layout of the static Linux build: one top-level folder that holds
    the two executables. *)
Definition nested_build (data : string) : unpacked :=
  Unpacked [ (["ffmpeg-7.0-amd64-static"; "ffmpeg"], File "ffmpeg" 493);
             (["ffmpeg-7.0-amd64-static"; "ffprobe"], File "ffprobe" 493) ].

(** A flat archive: the two executables at the top level. *)
Definition flat_build (data : string) : unpacked :=
  Unpacked [ (["ffmpeg"], File "ffmpeg" 493);
             (["ffprobe"], File "ffprobe" 493) ].


Definition linux_with (archive : string -> unpacked) : env :=
  MkEnv "linux" four_bytes no_archive archive no_child.

(** The tools directory after the archive of the Linux build has been
    downloaded. *)
Definition downloaded : world :=
  MkWorld (<["/app/tools" := Dir]>
           (<["/app/tools/ffmpeg-release-amd64-static.tar.xz"
              := File "abcd" 420]> ∅))
          [].

(** The same, with the scratch directory of an earlier run left behind. *)
Definition downloaded_stale : world :=
  MkWorld (<["/app/tools/ffmpeg_temp_extract" := Dir]>
           (<["/app/tools/ffmpeg_temp_extract/old" := File "stale" 420]>
            (fs downloaded)))
          [].

(** A tools directory that holds the downloader only. *)
Definition with_downloader : world :=
  MkWorld (<["/app/tools" := Dir]>
           (<["/app/tools/yt-dlp" := File "yt-dlp" 493]> ∅))
          [].



(** A server whose content-length header is not a number. *)
Definition bad_length (u : string) : http_response :=
  HttpBody (Some "4 bytes") ["ab"; "cd"] None.

(** A Linux machine whose requests are answered by [server]. *)
Definition served_by (server : string -> http_response) : env :=
  MkEnv "linux" server no_archive no_archive no_child.

(** The window with nothing but white space in the URL field. *)
Definition blank_window : YouTubeDownloaderApp.t :=
  YouTubeDownloaderApp.Make "   " "Best (Video & Audio MP4)"
    "/app/tools/yt-dlp" "/app/tools/ffmpeg"
    true true true [] "Application ready for download." 100
    "Tools ready. Enter URL." [].

(** A tools directory whose yt-dlp has lost its execute bits. *)
Definition unusable : world :=
  MkWorld (<["/app/tools" := Dir]>
           (<["/app/tools/yt-dlp" := File "yt-dlp" 420]>
            (<["/app/tools/ffmpeg" := File "ffmpeg" 493]>
             (<["/app/tools/ffprobe" := File "ffprobe" 493]> ∅))))
          [].

End Sample.

(** ** Vocabulary of the statements *)

(** A computation that leaves the filesystem as it found it, whatever
    its result. *)
Definition keeps_fs {A} (c : M A) : Prop :=
  forall w, fs (fst (c w)) = fs w.

(** A token of a line that ends in a percent sign. *)
Definition percent_token (part : string) : bool := Py.endswith part "%".

(** The event [DownloadWorker.run] emits for a progress value. *)
Definition progress_event (v : Z) : event :=
  update_progress_bar v ("Downloading: " +:+ Py.str_of_int v +:+ "%").

(** A computation that does not remove the entry at [p], whatever its
    result. *)
Definition keeps_path {A} (p : string) (c : M A) : Prop :=
  forall w w' r, c w = (w', r) ->
    path_exists (fs w) p = true -> path_exists (fs w') p = true.

(** The filesystem once the scratch directory [t] has been cleared and
    made anew: an existing [t] is removed with all below it, then [t] is
    an empty directory. *)
Definition fresh_scratch (E : env) (t : string) (f : gmap string node)
  : gmap string node :=
  if path_exists f t then <[t := Dir]> (without_tree E t f)
  else <[t := Dir]> f.

(** The message of the failure outcome for an exception that leaves the
    [try] block of [SetupWorker.run]. *)
Definition setup_failure_message (e : exn) : string :=
  match exc_class e with
  | RequestException => "Network error during tool download: " +:+ exc_msg e
  | BadZipFile | ReadError =>
      "Archive extraction error: " +:+ exc_msg e
      +:+ ". The downloaded file might be corrupted."
  | _ => "An error occurred during tool setup: " +:+ exc_msg e
  end.

(** The world after one more event. *)
Definition after_event (w : world) (e : event) : world :=
  MkWorld (fs w) (trace w ++ [e])%list.

(** The lines of output among the events of a run, in order. *)
Definition forwarded_lines (events : list event) : list string :=
  omap (fun e => match e with update_progress s => Some s | _ => None end)
       events.

(** A computation whose new events all satisfy [P], whatever its
    result. *)
Definition emits_only {A} (P : event -> Prop) (c : M A) : Prop :=
  forall w w' r, c w = (w', r) ->
    exists events, trace w' = (trace w ++ events)%list /\ Forall P events.


(** The events of the download runner before its outcome. *)
Definition download_step_event (e : event) : Prop :=
  match e with
  | update_progress _ | update_progress_bar _ _
  | subprocess_Popen _ | process_wait => True
  | _ => False
  end.

(** The bytes of a list of chunks. *)
Definition concat_chunks (chunks : list string) : string :=
  fold_right String.append EmptyString chunks.

(** A candidate of [find_executable]: a regular file the process may
    execute. *)
Definition executable_file (E : env) (f : gmap string node) (p : string)
  : bool :=
  isfile f p && access_X_OK E f p.

(** A string of white space only. *)
Fixpoint all_space (s : string) : bool :=
  match s with
  | EmptyString => true
  | String c s' => Py.isspace c && all_space s'
  end.

(** A tool of the given name is an executable file of the directory, under
    its name or, on win32, under its name with [.exe]. *)
Definition tool_found (E : env) (f : gmap string node) (dir name : string)
  : bool :=
  executable_file E f (OsPath.join (sys_platform E) dir name)
  || (String.eqb (sys_platform E) "win32"
      && executable_file E f
           (OsPath.join (sys_platform E) dir (name +:+ ".exe"))).

(** The URLs requested among the events of a run, in order. *)
Definition requests (events : list event) : list string :=
  omap (fun e => match e with requests_get u => Some u | _ => None end)
       events.


(** * Properties *)

(** ** Computations that leave the filesystem alone *)

Create HintDb keeps_fs.

Lemma keeps_fs_ret {A} (a : A) : keeps_fs (ret a).
Proof. intros w. reflexivity. Qed.

Lemma keeps_fs_raise {A} (e : exn) : keeps_fs (@raise A e).
Proof. intros w. reflexivity. Qed.

Lemma keeps_fs_lift {A} (r : result A) : keeps_fs (lift r).
Proof. intros w. reflexivity. Qed.

Lemma keeps_fs_emit (e : event) : keeps_fs (emit e).
Proof. intros w. reflexivity. Qed.

Lemma keeps_fs_bind {A B} (c : M A) (k : A -> M B) :
  keeps_fs c -> (forall a, keeps_fs (k a)) -> keeps_fs (bind c k).
Proof.
  intros Hc Hk w. unfold bind. specialize (Hc w).
  destruct (c w) as [w1 [a | e]]; simpl in *.
  - rewrite Hk. exact Hc.
  - exact Hc.
Qed.

Lemma keeps_fs_catch {A} (c : M A) (h : exn -> M A) :
  keeps_fs c -> (forall e, keeps_fs (h e)) -> keeps_fs (catch c h).
Proof.
  intros Hc Hh w. unfold catch. specialize (Hc w).
  destruct (c w) as [w1 [a | e]]; simpl in *.
  - exact Hc.
  - rewrite Hh. exact Hc.
Qed.

#[export] Hint Resolve keeps_fs_ret keeps_fs_raise keeps_fs_lift keeps_fs_emit
  : keeps_fs.

Ltac keeps_fs_step :=
  first [ apply keeps_fs_bind; [ | intros ? ]
        | apply keeps_fs_catch; [ | intros ? ]
        | solve [ auto with keeps_fs ] ].

(** ** The progress extractor *)

Lemma scan_parts_find (parts : list string) (w : world) :
  DownloadWorker.scan_parts parts w =
  match find percent_token parts with
  | None => (w, Ok tt)
  | Some part =>
      match DownloadWorker.progress_of_part part with
      | Ok v => (MkWorld (fs w) (trace w ++ [progress_event v]), Ok tt)
      | Raise e => (w, Raise e)
      end
  end.
Proof.
  induction parts as [| part rest IH]; simpl.
  - reflexivity.
  - unfold percent_token at 1.
    destruct (Py.endswith part "%"); [ | exact IH ].
    unfold bind, lift.
    destruct (DownloadWorker.progress_of_part part); reflexivity.
Qed.

(** What the extractor does with one line, case by case. *)
Lemma extract_progress_cases (line : string) (w : world) :
  DownloadWorker.extract_progress line w =
  if Py.contains "%" line then
    match find percent_token (Py.split line) with
    | None => (w, Ok tt)
    | Some part =>
        match DownloadWorker.progress_of_part part with
        | Ok v => (MkWorld (fs w) (trace w ++ [progress_event v]), Ok tt)
        | Raise e =>
            if decide (exc_class e = ValueError) then (w, Ok tt)
            else (w, Raise e)
        end
    end
  else (w, Ok tt).
Proof.
  unfold DownloadWorker.extract_progress.
  destruct (Py.contains "%" line); [ | reflexivity ].
  unfold catch. rewrite scan_parts_find.
  destruct (find percent_token (Py.split line)) as [part |]; [ | reflexivity ].
  destruct (DownloadWorker.progress_of_part part) as [v | e]; [ reflexivity | ].
  destruct (decide (exc_class e = ValueError)); reflexivity.
Qed.

Lemma contains_app (c : ascii) (s t : string) :
  Py.contains c (s +:+ t) = Py.contains c s || Py.contains c t.
Proof.
  induction s as [| d s IH]; simpl; [ reflexivity | ].
  destruct (Ascii.eqb c d); [ reflexivity | exact IH ].
Qed.

Lemma endswith_cons (d : ascii) (s suffix : string) :
  Py.endswith (String d s) suffix =
  if String.eqb (String d s) suffix then true else Py.endswith s suffix.
Proof. reflexivity. Qed.

Lemma endswith_contains (c : ascii) (s : string) :
  Py.endswith s (String c EmptyString) = true -> Py.contains c s = true.
Proof.
  induction s as [| d s IH].
  - discriminate.
  - rewrite endswith_cons.
    destruct (String.eqb_spec (String d s) (String c EmptyString)) as [Heq | Hne].
    + intros _. injection Heq as -> ->. simpl. rewrite Ascii.eqb_refl.
      reflexivity.
    + intros H. simpl. rewrite (IH H).
      destruct (Ascii.eqb c d); reflexivity.
Qed.

(** Every character of a token of [split] is a character of the line. *)
Lemma split_from_contains (c : ascii) (s cur part : string) :
  In part (Py.split_from cur s) -> Py.contains c part = true ->
  Py.contains c cur || Py.contains c s = true.
Proof.
  revert cur. induction s as [| d s IH]; intros cur Hin Hc; simpl in *.
  - destruct (String.eqb cur EmptyString); simpl in Hin; [ contradiction | ].
    destruct Hin as [<- | []]. rewrite Hc. reflexivity.
  - destruct (Py.isspace d).
    + destruct (String.eqb cur EmptyString).
      * specialize (IH _ Hin Hc). simpl in IH. rewrite IH.
        destruct (Py.contains c cur), (Ascii.eqb c d); reflexivity.
      * destruct Hin as [<- | Hin].
        -- rewrite Hc. reflexivity.
        -- specialize (IH _ Hin Hc). simpl in IH. rewrite IH.
           destruct (Py.contains c cur), (Ascii.eqb c d); reflexivity.
    + specialize (IH _ Hin Hc). rewrite contains_app in IH. simpl in IH.
      destruct (Py.contains c cur), (Ascii.eqb c d), (Py.contains c s);
        simpl in *; congruence.
Qed.

Lemma percent_token_in_line (line part : string) :
  find percent_token (Py.split line) = Some part ->
  Py.contains "%" line = true.
Proof.
  intros Hfind. apply find_some in Hfind as [Hin Hend].
  pose proof (split_from_contains "%" line EmptyString part Hin
                (endswith_contains _ _ Hend)) as H.
  exact H.
Qed.

Lemma keeps_fs_extract_progress (line : string) :
  keeps_fs (DownloadWorker.extract_progress line).
Proof.
  intros w. rewrite extract_progress_cases.
  destruct (Py.contains "%" line); [ | reflexivity ].
  destruct (find percent_token (Py.split line)) as [part |]; [ | reflexivity ].
  destruct (DownloadWorker.progress_of_part part) as [v | e]; [ reflexivity | ].
  destruct (decide (exc_class e = ValueError)); reflexivity.
Qed.

Lemma keeps_fs_stream_output (lines : list string) :
  keeps_fs (DownloadWorker.stream_output lines).
Proof.
  induction lines as [| line rest IH]; simpl.
  - auto with keeps_fs.
  - repeat keeps_fs_step. apply keeps_fs_extract_progress.
Qed.



Lemma extract_progress_no_percent (line : string) (w : world) :
  Py.contains "%" line = false ->
  DownloadWorker.extract_progress line w = (w, Ok tt).
Proof. intros H. rewrite extract_progress_cases, H. reflexivity. Qed.

Lemma extract_progress_no_token (line : string) (w : world) :
  find percent_token (Py.split line) = None ->
  DownloadWorker.extract_progress line w = (w, Ok tt).
Proof.
  intros H. rewrite extract_progress_cases, H.
  destruct (Py.contains "%" line); reflexivity.
Qed.

Lemma extract_progress_value (line part : string) (v : Z) (w : world) :
  find percent_token (Py.split line) = Some part ->
  DownloadWorker.progress_of_part part = Ok v ->
  DownloadWorker.extract_progress line w = (after_event w (progress_event v), Ok tt).
Proof.
  intros Hfind Hv. rewrite extract_progress_cases.
  rewrite (percent_token_in_line _ _ Hfind), Hfind, Hv. reflexivity.
Qed.

Lemma extract_progress_value_error (line part : string) (e : exn) (w : world) :
  find percent_token (Py.split line) = Some part ->
  DownloadWorker.progress_of_part part = Raise e ->
  exc_class e = ValueError ->
  DownloadWorker.extract_progress line w = (w, Ok tt).
Proof.
  intros Hfind He Hc. rewrite extract_progress_cases.
  rewrite (percent_token_in_line _ _ Hfind), Hfind, He.
  destruct (decide (exc_class e = ValueError)); [ reflexivity | contradiction ].
Qed.

Lemma extract_progress_other_error (line part : string) (e : exn) (w : world) :
  find percent_token (Py.split line) = Some part ->
  DownloadWorker.progress_of_part part = Raise e ->
  exc_class e <> ValueError ->
  DownloadWorker.extract_progress line w = (w, Raise e).
Proof.
  intros Hfind He Hc. rewrite extract_progress_cases.
  rewrite (percent_token_in_line _ _ Hfind), Hfind, He.
  destruct (decide (exc_class e = ValueError)); [ contradiction | reflexivity ].
Qed.

(** The line of the specification's example yields 12. *)
Lemma extract_progress_example (w : world) :
  DownloadWorker.extract_progress "  12.5% of 10MiB" w =
  (after_event w (update_progress_bar 12 "Downloading: 12%"), Ok tt).
Proof.
  apply (extract_progress_value _ "12.5%" 12); reflexivity.
Qed.

(** The only exceptions the conversion of a token raises. *)
Lemma progress_of_part_raises (part : string) (e : exn) :
  DownloadWorker.progress_of_part part = Raise e ->
  exc_class e = ValueError \/
  e = MkExn OverflowError "cannot convert float infinity to integer".
Proof.
  unfold DownloadWorker.progress_of_part.
  destruct (Py.contains "." (Py.remove_all "%" part)).
  - destruct (Py.float_of_string (Py.remove_all "%" part)) as [x | e'] eqn:Hf;
      simpl.
    + destruct x; simpl; intros [= <-]; auto.
    + intros [= <-]. left.
      unfold Py.float_of_string in Hf.
      repeat match type of Hf with
             | context [match ?x with _ => _ end] => destruct x
             end; try discriminate; injection Hf as <-; reflexivity.
  - unfold Py.int_of_string.
    destruct (Py.split_sign _) as [neg body].
    destruct (Py.int_magnitude body); intros [= <-]. left. reflexivity.
Qed.

(** C1 (the code departs from the claim).  A token ending in a percent
    sign whose number is too large for a float is neither emitted nor
    silently dropped: [float] gives an infinity, [int] then raises
    [OverflowError], which [except ValueError] does not catch.  On the line
    [Sample.overflow_line] the conversion raises, the extractor lets the
    exception through, and streaming stops at that line: the lines after it
    are not forwarded. *)
Theorem overflowing_percentage_interrupts_streaming :
  DownloadWorker.progress_of_part "1.0e400%"
  = Raise (MkExn OverflowError "cannot convert float infinity to integer")
  /\ (forall w,
        DownloadWorker.extract_progress Sample.overflow_line w
        = (w, Raise (MkExn OverflowError
                           "cannot convert float infinity to integer")))
  /\ (forall w,
        DownloadWorker.stream_output (stdout Sample.overflow_process) w
        = (after_event w (update_progress Sample.overflow_line),
           Raise (MkExn OverflowError
                        "cannot convert float infinity to integer"))).
Proof.
  assert (Hpart : DownloadWorker.progress_of_part "1.0e400%"
                  = Raise (MkExn OverflowError
                                 "cannot convert float infinity to integer"))
    by (vm_compute; reflexivity).
  assert (Hline : forall w,
             DownloadWorker.extract_progress Sample.overflow_line w
             = (w, Raise (MkExn OverflowError
                                "cannot convert float infinity to integer"))).
  { intros w.
    apply (extract_progress_other_error _ "1.0e400%");
      [ vm_compute; reflexivity | exact Hpart | discriminate ]. }
  split; [ exact Hpart | split; [ exact Hline | ] ].
  intros w. simpl. unfold bind at 1. simpl. unfold bind at 1.
  rewrite Hline. reflexivity.
Qed.



(** ** The command line *)

(** C2.  The argument list the runner passes to [Popen]: after the fixed
    options, the audio preset adds the audio-extraction flag [-x] with the
    target codec mp3 and audio quality 0; the best-quality preset adds [-f]
    and the fallback selector; any other format string is passed as it is
    after [-f].  The URL comes last. *)
Theorem command_format_arguments (E : env) (self : DownloadWorker.t) :
  let base :=
    [ DownloadWorker.yt_dlp_exec self;
      "--external-downloader"; "aria2c";
      "--external-downloader-args"; "-x 16 -s 16 -k 1M";
      "--ffmpeg-location"; DownloadWorker.ffmpeg_exec self;
      "-o";
      OsPath.join (sys_platform E) (DownloadWorker.output_path self)
                  "%(title)s.%(ext)s" ] in
  (DownloadWorker.format_choice self = "mp3" ->
   DownloadWorker.command E self
   = (base ++ ["-x"; "--audio-format"; "mp3"; "--audio-quality"; "0";
               DownloadWorker.url self])%list)
  /\ (DownloadWorker.format_choice self = "best" ->
      DownloadWorker.command E self
      = (base ++ ["-f";
                  "bestvideo[ext=mp4]+bestaudio[ext=m4a]/best[ext=mp4]/best";
                  DownloadWorker.url self])%list)
  /\ (DownloadWorker.format_choice self <> "mp3" ->
      DownloadWorker.format_choice self <> "best" ->
      DownloadWorker.command E self
      = (base ++ ["-f"; DownloadWorker.format_choice self;
                  DownloadWorker.url self])%list).
Proof.
  unfold DownloadWorker.command. repeat split.
  - intros ->. reflexivity.
  - intros ->. reflexivity.
  - intros Hmp3 Hbest.
    destruct (String.eqb_spec (DownloadWorker.format_choice self) "mp3");
      [ contradiction | ].
    destruct (String.eqb_spec (DownloadWorker.format_choice self) "best");
      [ contradiction | ].
    reflexivity.
Qed.

Lemma command_format_arguments_witness :
  DownloadWorker.command Sample.silent_env Sample.custom_job
  = [ "/app/tools/yt-dlp"; "--external-downloader"; "aria2c";
      "--external-downloader-args"; "-x 16 -s 16 -k 1M";
      "--ffmpeg-location"; "/app/tools/ffmpeg"; "-o";
      "downloads/%(title)s.%(ext)s"; "-f"; "137+140";
      "https://youtu.be/dQw4w9WgXcQ" ]
  /\ DownloadWorker.command Sample.silent_env Sample.job
     = [ "/app/tools/yt-dlp"; "--external-downloader"; "aria2c";
         "--external-downloader-args"; "-x 16 -s 16 -k 1M";
         "--ffmpeg-location"; "/app/tools/ffmpeg"; "-o";
         "downloads/%(title)s.%(ext)s"; "-f";
         "bestvideo[ext=mp4]+bestaudio[ext=m4a]/best[ext=mp4]/best";
         "https://youtu.be/dQw4w9WgXcQ" ].
Proof.
  split.
  - apply (proj2 (proj2 (command_format_arguments Sample.silent_env
                                                   Sample.custom_job)));
      vm_compute; discriminate.
  - apply (proj1 (proj2 (command_format_arguments Sample.silent_env
                                                   Sample.job))).
    reflexivity.
Defined.

(** ** The outcome of a download *)

(** The events every run starts with, up to the call of [Popen]. *)
Lemma run_unfold (E : env) (self : DownloadWorker.t) (w : world) :
  DownloadWorker.run E self w =
  catch (DownloadWorker.run_body E self) DownloadWorker.run_handler
    (MkWorld (fs w)
       (trace w ++
        [ update_progress ("Starting download from: "
                           +:+ DownloadWorker.url self +:+ nl);
          update_progress ("Saving to: "
                           +:+ DownloadWorker.output_path self +:+ nl);
          update_progress_bar 0 "Downloading..." ])).
Proof.
  unfold DownloadWorker.run, bind, emit. simpl.
  rewrite <- !app_assoc. reflexivity.
Qed.

(** No exception leaves [run]. *)
Lemma run_never_raises (E : env) (self : DownloadWorker.t) (w : world) :
  snd (DownloadWorker.run E self w) = Ok tt.
Proof.
  rewrite run_unfold. unfold catch.
  destruct (DownloadWorker.run_body E self _) as [w1 [[] | e]];
    [ reflexivity | ].
  unfold DownloadWorker.run_handler.
  destruct (decide (exc_class e = FileNotFoundError)); reflexivity.
Qed.

(** When the output is read to its end, the runner waits for the child
    and reports its exit code. *)
Lemma run_reports_exit_code (E : env) (self : DownloadWorker.t)
    (p : process) (w w1 : world) :
  spawn E (DownloadWorker.command E self) = Launched p ->
  DownloadWorker.stream_output (stdout p)
    (MkWorld (writes p (fs w))
       (trace w ++
        [ update_progress ("Starting download from: "
                           +:+ DownloadWorker.url self +:+ nl);
          update_progress ("Saving to: "
                           +:+ DownloadWorker.output_path self +:+ nl);
          update_progress_bar 0 "Downloading...";
          subprocess_Popen (DownloadWorker.command E self) ]))
  = (w1, Ok tt) ->
  DownloadWorker.run E self w =
  (MkWorld (fs w1)
     (trace w1 ++
      [ process_wait;
        if returncode p =? 0
        then download_finished true "Download completed successfully!"
        else download_finished false
               ("Download failed with error code: "
                +:+ Py.str_of_int (returncode p)) ]),
   Ok tt).
Proof.
  intros Hspawn Hstream. rewrite run_unfold.
  unfold catch, DownloadWorker.run_body, DownloadWorker.Popen.
  unfold bind at 1. unfold bind at 1. unfold emit at 1. simpl.
  rewrite Hspawn. unfold bind at 1. unfold get_fs. unfold bind at 1.
  unfold put_fs, ret. simpl. rewrite <- app_assoc. simpl.
  unfold bind at 1. rewrite Hstream.
  unfold bind, emit. simpl.
  destruct (returncode p =? 0); simpl; rewrite <- app_assoc; reflexivity.
Qed.

(** When the executable is not found, the runner reports that and
    nothing else. *)
Lemma run_executable_not_found (E : env) (self : DownloadWorker.t)
    (e : exn) (w : world) :
  spawn E (DownloadWorker.command E self) = LaunchError e ->
  exc_class e = FileNotFoundError ->
  DownloadWorker.run E self w =
  (MkWorld (fs w)
     (trace w ++
      [ update_progress ("Starting download from: "
                         +:+ DownloadWorker.url self +:+ nl);
        update_progress ("Saving to: "
                         +:+ DownloadWorker.output_path self +:+ nl);
        update_progress_bar 0 "Downloading...";
        subprocess_Popen (DownloadWorker.command E self);
        download_finished false
          "Error: yt-dlp or ffmpeg executable not found. Ensure paths are correct and executables exist." ]),
   Ok tt).
Proof.
  intros Hspawn Hclass. rewrite run_unfold.
  unfold catch, DownloadWorker.run_body, DownloadWorker.Popen.
  unfold bind at 1. unfold bind at 1. unfold emit at 1. simpl.
  rewrite Hspawn. unfold raise, DownloadWorker.run_handler.
  destruct (decide (exc_class e = FileNotFoundError)); [ | contradiction ].
  unfold emit. simpl. rewrite <- !app_assoc. reflexivity.
Qed.


(** The window after [on_download_finished]: the bar is at 100 after a
    success and at 0 after a failure. *)
Lemma on_download_finished_progress (success : bool) (message : string)
    (g : YouTubeDownloaderApp.t) :
  YouTubeDownloaderApp.progress_bar_value
    (YouTubeDownloaderApp.on_download_finished success message g)
  = if success then 100 else 0.
Proof. destruct success; reflexivity. Qed.

Lemma deliver_all_finished (g : YouTubeDownloaderApp.t)
    (events : list event) (success : bool) (message : string) :
  YouTubeDownloaderApp.progress_bar_value
    (YouTubeDownloaderApp.deliver_all g
       (events ++ [download_finished success message]))
  = if success then 100 else 0.
Proof.
  unfold YouTubeDownloaderApp.deliver_all. rewrite fold_left_app. simpl.
  apply on_download_finished_progress.
Qed.

(** C3 (the code departs from the claim).  The child of
    [Sample.overflow_env] exits with code 0, but its first line of output
    carries a percentage too large for a float.  The [OverflowError] of the
    conversion leaves the reading loop, so the runner never waits for the
    child and reports a failure; the window ends at 0, not at 100. *)
Theorem zero_exit_code_reported_as_failure :
  spawn Sample.overflow_env
        (DownloadWorker.command Sample.overflow_env Sample.job)
  = Launched Sample.overflow_process
  /\ returncode Sample.overflow_process = 0
  /\ DownloadWorker.run Sample.overflow_env Sample.job Sample.start
     = (MkWorld ∅
          [ update_progress
              ("Starting download from: https://youtu.be/dQw4w9WgXcQ" +:+ nl);
            update_progress ("Saving to: downloads" +:+ nl);
            update_progress_bar 0 "Downloading...";
            subprocess_Popen
              (DownloadWorker.command Sample.overflow_env Sample.job);
            update_progress Sample.overflow_line;
            download_finished false
              "An unexpected error occurred: cannot convert float infinity to integer" ],
        Ok tt)
  /\ YouTubeDownloaderApp.progress_bar_value
       (YouTubeDownloaderApp.deliver_all Sample.window
          (trace (fst (DownloadWorker.run Sample.overflow_env Sample.job
                         Sample.start))))
     = 0.
Proof.
  split; [ reflexivity | split; [ reflexivity | ] ].
  assert (Hrun : DownloadWorker.run Sample.overflow_env Sample.job Sample.start
     = (MkWorld ∅
          [ update_progress
              ("Starting download from: https://youtu.be/dQw4w9WgXcQ" +:+ nl);
            update_progress ("Saving to: downloads" +:+ nl);
            update_progress_bar 0 "Downloading...";
            subprocess_Popen
              (DownloadWorker.command Sample.overflow_env Sample.job);
            update_progress Sample.overflow_line;
            download_finished false
              "An unexpected error occurred: cannot convert float infinity to integer" ],
        Ok tt)) by (vm_compute; reflexivity).
  split; [ exact Hrun | ].
  rewrite Hrun. vm_compute. reflexivity.
Qed.

(** ** Who creates the destination directory *)

(** The filesystem after [run]: what the child wrote, and nothing of the
    runner's own. *)
Lemma run_filesystem (E : env) (self : DownloadWorker.t) (w : world) :
  fs (fst (DownloadWorker.run E self w)) =
  match spawn E (DownloadWorker.command E self) with
  | Launched p => writes p (fs w)
  | LaunchError _ => fs w
  end.
Proof.
  assert (Hhandler : forall e, keeps_fs (DownloadWorker.run_handler e)).
  { intros e. unfold DownloadWorker.run_handler.
    destruct (decide (exc_class e = FileNotFoundError)); auto with keeps_fs. }
  rewrite run_unfold.
  unfold catch, DownloadWorker.run_body, DownloadWorker.Popen.
  unfold bind at 1. unfold bind at 1. unfold emit at 1. simpl.
  destruct (spawn E (DownloadWorker.command E self)) as [p | e].
  - unfold bind at 1. unfold get_fs. unfold bind at 1.
    unfold put_fs, ret. simpl.
    unfold bind at 1.
    match goal with
    | |- context [DownloadWorker.stream_output ?ls ?w0] =>
        pose proof (keeps_fs_stream_output ls w0) as Hs;
        destruct (DownloadWorker.stream_output ls w0) as [w1 [[] | e]]
    end; simpl in Hs.
    + unfold bind, emit. simpl.
      destruct (returncode p =? 0); simpl; exact Hs.
    + rewrite Hhandler. exact Hs.
  - unfold raise. rewrite Hhandler. reflexivity.
Qed.

(** C9, against the claim as stated: the runner, given a job whose
    destination directory is absent and a child that writes nothing,
    leaves the directory absent. *)
Lemma runner_leaves_destination_absent :
  path_exists (fs Sample.start) (DownloadWorker.output_path Sample.job) = false
  /\ path_exists
       (fs (fst (DownloadWorker.run Sample.silent_env Sample.job Sample.start)))
       (DownloadWorker.output_path Sample.job)
     = false.
Proof. split; vm_compute; reflexivity. Qed.

(** C9, amended.  The directory is created by the window, not by the
    runner: for a non-empty URL, [start_download] returns a job whose
    destination is [downloads], and that directory exists when the slot
    returns, created there if it was absent.  The runner started next
    changes the filesystem only through its child. *)
Theorem destination_created_by_start_download
    (E : env) (g : YouTubeDownloaderApp.t) (w : world) :
  Py.strip (YouTubeDownloaderApp.url_input_text g) <> EmptyString ->
  exists g' job w',
    YouTubeDownloaderApp.start_download g w = (w', Ok (g', Some job))
    /\ DownloadWorker.output_path job = "downloads"
    /\ path_exists (fs w') "downloads" = true
    /\ fs w' = (if path_exists (fs w) "downloads" then fs w
                else <["downloads" := Dir]> (fs w))
    /\ fs (fst (DownloadWorker.run E job w'))
       = match spawn E (DownloadWorker.command E job) with
         | Launched p => writes p (fs w')
         | LaunchError _ => fs w'
         end.
Proof.
  intros Hurl. unfold YouTubeDownloaderApp.start_download.
  destruct (String.eqb_spec (Py.strip (YouTubeDownloaderApp.url_input_text g))
                            EmptyString) as [Heq | _]; [ contradiction | ].
  unfold bind at 1. unfold get_fs at 1.
  destruct (path_exists (fs w) "downloads") eqn:Hex; simpl.
  - unfold bind, ret. simpl.
    eexists _, _, _. split; [ reflexivity | ].
    split; [ reflexivity | ]. split; [ exact Hex | ].
    split; [ reflexivity | ]. apply run_filesystem.
  - unfold makedirs, bind, get_fs, put_fs, ret. simpl.
    unfold path_exists in Hex.
    destruct (fs w !! "downloads") eqn:Hlook; [ discriminate | ].
    simpl.
    eexists _, _, _. split; [ reflexivity | ].
    split; [ reflexivity | ].
    split; [ unfold path_exists; simpl; rewrite lookup_insert_eq; reflexivity | ].
    split; [ reflexivity | ]. apply run_filesystem.
Qed.

Lemma destination_created_witness :
  exists g' job w',
    YouTubeDownloaderApp.start_download Sample.window Sample.start
    = (w', Ok (g', Some job))
    /\ DownloadWorker.output_path job = "downloads"
    /\ path_exists (fs w') "downloads" = true
    /\ fs w' = (if path_exists (fs Sample.start) "downloads"
                then fs Sample.start
                else <["downloads" := Dir]> (fs Sample.start))
    /\ fs (fst (DownloadWorker.run Sample.silent_env job w'))
       = match spawn Sample.silent_env
                 (DownloadWorker.command Sample.silent_env job) with
         | Launched p => writes p (fs w')
         | LaunchError _ => fs w'
         end.
Proof.
  apply (destination_created_by_start_download Sample.silent_env
           Sample.window Sample.start).
  vm_compute. discriminate.
Defined.

(** ** Strings and paths *)

Lemma append_cons (c : ascii) (s t : string) :
  String c s +:+ t = String c (s +:+ t).
Proof. reflexivity. Qed.

Lemma append_nil_r (s : string) : s +:+ EmptyString = s.
Proof.
  induction s as [| c s IH]; [ reflexivity | ].
  rewrite append_cons, IH. reflexivity.
Qed.

Lemma append_assoc (s t u : string) : (s +:+ t) +:+ u = s +:+ (t +:+ u).
Proof.
  induction s as [| c s IH]; [ reflexivity | ].
  rewrite !append_cons, IH. reflexivity.
Qed.

Lemma length_append (s t : string) :
  String.length (s +:+ t) = (String.length s + String.length t)%nat.
Proof.
  induction s as [| c s IH]; [ reflexivity | ].
  rewrite append_cons. simpl. rewrite IH. reflexivity.
Qed.

Lemma prefix_cons (c d : ascii) (s t : string) :
  String.prefix (String c s) (String d t)
  = if Ascii.eqb c d then String.prefix s t else false.
Proof.
  simpl. destruct (ascii_dec c d) as [-> | Hne].
  - rewrite Ascii.eqb_refl. reflexivity.
  - destruct (Ascii.eqb_spec c d); [ contradiction | reflexivity ].
Qed.

Lemma prefix_nil (t : string) : String.prefix EmptyString t = true.
Proof. destruct t; reflexivity. Qed.

Lemma prefix_refl (s : string) : String.prefix s s = true.
Proof.
  induction s as [| c s IH]; [ reflexivity | ].
  rewrite prefix_cons, Ascii.eqb_refl. exact IH.
Qed.

Lemma prefix_append (s t : string) : String.prefix s (s +:+ t) = true.
Proof.
  induction s as [| c s IH]; [ apply prefix_nil | ].
  rewrite !append_cons, prefix_cons, Ascii.eqb_refl. exact IH.
Qed.

Lemma prefix_append_cancel (r s t : string) :
  String.prefix (r +:+ s) (r +:+ t) = String.prefix s t.
Proof.
  induction r as [| c r IH]; [ reflexivity | ].
  rewrite !append_cons, prefix_cons, Ascii.eqb_refl. exact IH.
Qed.

Lemma prefix_trans (a b c : string) :
  String.prefix a b = true -> String.prefix b c = true ->
  String.prefix a c = true.
Proof.
  revert b c. induction a as [| x a IH]; intros b c Hab Hbc;
    [ apply prefix_nil | ].
  destruct b as [| y b]; [ discriminate | ].
  destruct c as [| z c]; [ discriminate | ].
  rewrite prefix_cons in *.
  destruct (Ascii.eqb_spec x y) as [-> | ]; [ | discriminate ].
  destruct (Ascii.eqb y z); [ | discriminate ].
  exact (IH _ _ Hab Hbc).
Qed.

Lemma prefix_length (a b : string) :
  String.prefix a b = true -> (String.length a <= String.length b)%nat.
Proof.
  revert b. induction a as [| x a IH]; intros b H; simpl; [ lia | ].
  destruct b as [| y b]; [ discriminate | ].
  rewrite prefix_cons in H. destruct (Ascii.eqb x y); [ | discriminate ].
  specialize (IH _ H). simpl. lia.
Qed.

Lemma prefix_antisym (a b : string) :
  String.prefix a b = true -> String.prefix b a = true -> b = a.
Proof.
  revert b. induction a as [| x a IH]; intros b Hab Hba.
  - destruct b; [ reflexivity | discriminate ].
  - destruct b as [| y b]; [ discriminate | ].
    rewrite prefix_cons in Hab, Hba.
    destruct (Ascii.eqb_spec x y) as [-> | ]; [ | discriminate ].
    rewrite Ascii.eqb_refl in Hba. f_equal. exact (IH _ Hab Hba).
Qed.

Lemma endswith_append (suffix x b : string) :
  (String.length suffix <= String.length b)%nat ->
  Py.endswith (x +:+ b) suffix = Py.endswith b suffix.
Proof.
  intros Hlen. induction x as [| c x IH]; [ reflexivity | ].
  rewrite append_cons, endswith_cons.
  destruct (String.eqb_spec (String c (x +:+ b)) suffix) as [Heq | _];
    [ | exact IH ].
  apply (f_equal String.length) in Heq. simpl in Heq.
  rewrite length_append in Heq. lia.
Qed.

Section Paths.

Variable platform : string.

Lemma join_relative (a b : string) :
  OsPath.starts_with_sep platform b = false ->
  OsPath.join platform a b = OsPath.join platform a EmptyString +:+ b.
Proof.
  intros Hb. unfold OsPath.join.
  destruct (OsPath.splitdrive platform a) as [drive path].
  rewrite Hb. simpl OsPath.starts_with_sep.
  destruct (String.eqb path EmptyString || OsPath.ends_with_sep platform path).
  - rewrite append_nil_r. reflexivity.
  - rewrite !append_nil_r. rewrite append_assoc. reflexivity.
Qed.

Lemma prefix_join_empty (a : string) :
  String.prefix a (OsPath.join platform a EmptyString) = true.
Proof.
  unfold OsPath.join.
  destruct (OsPath.splitdrive platform a) as [drive path].
  simpl OsPath.starts_with_sep.
  destruct (String.eqb path EmptyString || OsPath.ends_with_sep platform path);
    apply prefix_append.
Qed.

Lemma prefix_join (a b : string) :
  OsPath.starts_with_sep platform b = false ->
  String.prefix a (OsPath.join platform a b) = true.
Proof.
  intros Hb. rewrite (join_relative a b Hb).
  apply (prefix_trans _ _ _ (prefix_join_empty a)). apply prefix_append.
Qed.

Lemma endswith_join (a b suffix : string) :
  OsPath.starts_with_sep platform b = false ->
  (String.length suffix <= String.length b)%nat ->
  Py.endswith (OsPath.join platform a b) suffix = Py.endswith b suffix.
Proof.
  intros Hb Hlen. rewrite (join_relative a b Hb).
  apply endswith_append. exact Hlen.
Qed.

(** A name that starts with a letter does not start with a separator. *)
Lemma letter_not_sep (c : ascii) (s : string) :
  Py.in_range 97 122 c = true ->
  OsPath.starts_with_sep platform (String c s) = false.
Proof.
  intros Hc. unfold OsPath.starts_with_sep, OsPath.is_sep.
  destruct (Ascii.eqb_spec c "\") as [-> | _]; [ discriminate | ].
  destruct (Ascii.eqb_spec c "/") as [-> | _]; [ discriminate | ].
  destruct (OsPath.win32 platform); reflexivity.
Qed.

End Paths.

(** ** The sources of the tools *)

(** C6.  The provisioner's choice by platform.  On win32 the downloader is
    [yt-dlp.exe] and the transcoder archive a zip; on darwin the downloader
    is [yt-dlp] and the archive a zip; on linux the downloader is [yt-dlp]
    and the archive a tar.xz; each comes from the fixed URL of its platform.
    The archive is stored under a name that ends in the suffix by which
    [_extract_to_temp_dir] selects the zip or the tar reader. *)
Theorem platform_selects_sources (E : env) (self : SetupWorker.t) :
  (sys_platform E = "win32" ->
   SetupWorker.yt_dlp_filename E = "yt-dlp.exe"
   /\ SetupWorker.yt_dlp_url E
      = "https://github.com/yt-dlp/yt-dlp/releases/latest/download/yt-dlp.exe"
   /\ SetupWorker.ffmpeg_archive_url E
      = "https://www.gyan.dev/ffmpeg/builds/ffmpeg-release-full.zip"
   /\ SetupWorker.ffmpeg_archive_filename E = "ffmpeg-release-full.zip"
   /\ Py.endswith (SetupWorker.temp_archive_path E self) ".zip" = true)
  /\ (sys_platform E = "darwin" ->
      SetupWorker.yt_dlp_filename E = "yt-dlp"
      /\ SetupWorker.yt_dlp_url E
         = "https://github.com/yt-dlp/yt-dlp/releases/latest/download/yt-dlp"
      /\ SetupWorker.ffmpeg_archive_url E
         = "https://evermeet.cx/ffmpeg/ffmpeg-latest.zip"
      /\ SetupWorker.ffmpeg_archive_filename E = "ffmpeg-latest.zip"
      /\ Py.endswith (SetupWorker.temp_archive_path E self) ".zip" = true)
  /\ (sys_platform E = "linux" ->
      SetupWorker.yt_dlp_filename E = "yt-dlp"
      /\ SetupWorker.yt_dlp_url E
         = "https://github.com/yt-dlp/yt-dlp/releases/latest/download/yt-dlp"
      /\ SetupWorker.ffmpeg_archive_url E
         = "https://johnvansickle.com/ffmpeg/releases/ffmpeg-release-amd64-static.tar.xz"
      /\ SetupWorker.ffmpeg_archive_filename E
         = "ffmpeg-release-amd64-static.tar.xz"
      /\ Py.endswith (SetupWorker.temp_archive_path E self) ".zip" = false
      /\ Py.endswith (SetupWorker.temp_archive_path E self) ".tar.xz" = true).
Proof.
  unfold SetupWorker.temp_archive_path, SetupWorker.yt_dlp_filename,
    SetupWorker.yt_dlp_url, SetupWorker.ffmpeg_archive_url,
    SetupWorker.ffmpeg_archive_filename.
  split; [ | split ]; intros Hp; rewrite Hp; simpl String.eqb; cbv iota;
    repeat split;
    (rewrite endswith_join;
     [ reflexivity | apply letter_not_sep; reflexivity | simpl; lia ]).
Qed.

Lemma platform_selects_sources_witness :
  (SetupWorker.ffmpeg_archive_filename (Sample.offline "win32")
   = "ffmpeg-release-full.zip"
   /\ Py.endswith (SetupWorker.temp_archive_path (Sample.offline "win32")
                     Sample.win_tools) ".zip" = true)
  /\ (SetupWorker.ffmpeg_archive_filename (Sample.offline "darwin")
      = "ffmpeg-latest.zip"
      /\ Py.endswith (SetupWorker.temp_archive_path (Sample.offline "darwin")
                        Sample.tools) ".zip" = true)
  /\ (SetupWorker.ffmpeg_archive_filename (Sample.offline "linux")
      = "ffmpeg-release-amd64-static.tar.xz"
      /\ Py.endswith (SetupWorker.temp_archive_path (Sample.offline "linux")
                        Sample.tools) ".tar.xz" = true).
Proof.
  split; [ | split ].
  - destruct (proj1 (platform_selects_sources (Sample.offline "win32")
                       Sample.win_tools) eq_refl)
      as (_ & _ & _ & Hname & Hzip).
    exact (conj Hname Hzip).
  - destruct (proj1 (proj2 (platform_selects_sources (Sample.offline "darwin")
                              Sample.tools)) eq_refl)
      as (_ & _ & _ & Hname & Hzip).
    exact (conj Hname Hzip).
  - destruct (proj2 (proj2 (platform_selects_sources (Sample.offline "linux")
                              Sample.tools)) eq_refl)
      as (_ & _ & _ & Hname & _ & Htar).
    exact (conj Hname Htar).
Defined.

(** ** Entries of the filesystem *)

Lemma path_exists_insert (f : gmap string node) (k p : string) (n : node) :
  path_exists f p = true -> path_exists (<[k := n]> f) p = true.
Proof.
  unfold path_exists. intros H.
  destruct (decide (k = p)) as [-> | Hne].
  - rewrite lookup_insert_eq. reflexivity.
  - rewrite lookup_insert_ne by exact Hne. exact H.
Qed.

Lemma path_exists_insert_eq (f : gmap string node) (k : string) (n : node) :
  path_exists (<[k := n]> f) k = true.
Proof. unfold path_exists. rewrite lookup_insert_eq. reflexivity. Qed.

Lemma path_exists_delete_ne (f : gmap string node) (k p : string) :
  k <> p -> path_exists (delete k f) p = path_exists f p.
Proof.
  intros Hne. unfold path_exists. rewrite lookup_delete_ne by exact Hne.
  reflexivity.
Qed.

(** ** Idempotence of provisioning *)

(** The run on a provisioned tools directory, in full. *)
Lemma run_when_provisioned (E : env) (self : SetupWorker.t) (w : world) :
  path_exists (fs w) (SetupWorker.yt_dlp_path E self) = true ->
  path_exists (fs w) (SetupWorker.ffmpeg_path_in_tools E self) = true ->
  path_exists (fs w) (SetupWorker.ffprobe_path_in_tools E self) = true ->
  SetupWorker.run E self w
  = (MkWorld
       (if path_exists (fs w) (SetupWorker.tools_dir self) then fs w
        else <[SetupWorker.tools_dir self := Dir]> (fs w))
       (trace w ++
        ((if path_exists (fs w) (SetupWorker.tools_dir self) then []
          else [update_status ("Created tools directory: "
                               +:+ SetupWorker.tools_dir self)])
         ++ [ update_status (SetupWorker.yt_dlp_filename E
                             +:+ " already exists.");
              update_status "ffmpeg and ffprobe already exist.";
              setup_finished true "Tool setup completed successfully!" ])),
     Ok tt).
Proof.
  intros Hyt Hffmpeg Hffprobe.
  unfold SetupWorker.run, catch, SetupWorker.run_body.
  unfold bind at 1. unfold SetupWorker.ensure_tools_dir.
  unfold bind at 1. unfold get_fs at 1.
  destruct (path_exists (fs w) (SetupWorker.tools_dir self)) eqn:Htools;
    cbn [negb].
  - unfold ret at 1.
    unfold bind at 1. unfold SetupWorker.provide_yt_dlp.
    unfold bind at 1. unfold get_fs at 1. rewrite Hyt. cbn [negb].
    unfold emit at 1.
    unfold bind at 1. unfold SetupWorker.provide_ffmpeg.
    unfold bind at 1. unfold get_fs at 1. cbn [fs].
    rewrite Hffmpeg, Hffprobe. cbn [negb orb].
    unfold emit. cbn. rewrite <- !app_assoc. reflexivity.
  - unfold makedirs. unfold bind at 1. unfold bind at 1. unfold get_fs at 1.
    unfold path_exists in Htools.
    destruct (fs w !! SetupWorker.tools_dir self) eqn:Hlook;
      [ discriminate | ].
    unfold put_fs at 1. unfold emit at 1. cbn [fs trace].
    unfold bind at 1. unfold SetupWorker.provide_yt_dlp.
    unfold bind at 1. unfold get_fs at 1. cbn [fs].
    rewrite (path_exists_insert _ _ _ Dir Hyt). cbn [negb].
    unfold emit at 1.
    unfold bind at 1. unfold SetupWorker.provide_ffmpeg.
    unfold bind at 1. unfold get_fs at 1. cbn [fs].
    rewrite (path_exists_insert _ _ _ Dir Hffmpeg),
      (path_exists_insert _ _ _ Dir Hffprobe). cbn [negb orb].
    unfold emit. cbn. rewrite <- !app_assoc. reflexivity.
Qed.

(** C4.  When the downloader and both transcoder files already exist at
    their paths in the tools directory, a run makes no HTTP request: all it
    emits is the status [... already exists.] for the downloader, the
    status [... already exist.] for the transcoder pair, and the success
    outcome (after the note that the tools directory was created, where
    the filesystem did not list that directory itself). *)
Theorem provisioning_is_idempotent (E : env) (self : SetupWorker.t) (w : world) :
  path_exists (fs w) (SetupWorker.yt_dlp_path E self) = true ->
  path_exists (fs w) (SetupWorker.ffmpeg_path_in_tools E self) = true ->
  path_exists (fs w) (SetupWorker.ffprobe_path_in_tools E self) = true ->
  exists events,
    trace (fst (SetupWorker.run E self w)) = (trace w ++ events)%list
    /\ snd (SetupWorker.run E self w) = Ok tt
    /\ (forall u, ~ In (requests_get u) events)
    /\ events
       = ((if path_exists (fs w) (SetupWorker.tools_dir self) then []
           else [update_status ("Created tools directory: "
                                +:+ SetupWorker.tools_dir self)])
          ++ [ update_status (SetupWorker.yt_dlp_filename E
                              +:+ " already exists.");
               update_status "ffmpeg and ffprobe already exist.";
               setup_finished true "Tool setup completed successfully!" ])%list.
Proof.
  intros Hyt Hffmpeg Hffprobe.
  rewrite (run_when_provisioned E self w Hyt Hffmpeg Hffprobe). cbn [fst snd trace].
  eexists. split; [ reflexivity | ]. split; [ reflexivity | ].
  split; [ | reflexivity ].
  intros u Hin. apply in_app_or in Hin as [Hin | Hin].
  - destruct (path_exists (fs w) (SetupWorker.tools_dir self));
      [ destruct Hin | destruct Hin as [H | []]; discriminate H ].
  - destruct Hin as [H | [H | [H | []]]]; discriminate H.
Qed.

Lemma provisioning_is_idempotent_witness :
  exists events,
    trace (fst (SetupWorker.run (Sample.offline "linux") Sample.tools
                  Sample.provisioned))
    = (trace Sample.provisioned ++ events)%list
    /\ snd (SetupWorker.run (Sample.offline "linux") Sample.tools
              Sample.provisioned) = Ok tt
    /\ (forall u, ~ In (requests_get u) events)
    /\ events
       = ((if path_exists (fs Sample.provisioned)
                (SetupWorker.tools_dir Sample.tools) then []
           else [update_status ("Created tools directory: "
                                +:+ SetupWorker.tools_dir Sample.tools)])
          ++ [ update_status (SetupWorker.yt_dlp_filename (Sample.offline "linux")
                              +:+ " already exists.");
               update_status "ffmpeg and ffprobe already exist.";
               setup_finished true "Tool setup completed successfully!" ])%list.
Proof.
  apply (provisioning_is_idempotent (Sample.offline "linux") Sample.tools
           Sample.provisioned); vm_compute; reflexivity.
Defined.

(** ** The root of the extracted content *)

(** C5.  When the archive has been unpacked and the extraction directory
    is listed, [_extract_to_temp_dir] returns: the path of the single
    entry, when the directory has exactly one entry and that entry is a
    directory; the extraction directory itself otherwise, that is when its
    single entry is not a directory or when it has no or several entries. *)
Theorem extraction_root_resolution
    (E : env) (archive_path temp_extract_path : string) (w w1 : world) :
  SetupWorker.unpack_archive E archive_path temp_extract_path w = (w1, Ok tt) ->
  isdir (fs w1) temp_extract_path = true ->
  exists root,
    SetupWorker._extract_to_temp_dir E archive_path temp_extract_path w
    = (w1, Ok root)
    /\ (forall x,
          dir_entries E (fs w1) temp_extract_path = [x] ->
          isdir (fs w1) (OsPath.join (sys_platform E) temp_extract_path x) = true ->
          root = OsPath.join (sys_platform E) temp_extract_path x)
    /\ (forall x,
          dir_entries E (fs w1) temp_extract_path = [x] ->
          isdir (fs w1) (OsPath.join (sys_platform E) temp_extract_path x) = false ->
          root = temp_extract_path)
    /\ (length (dir_entries E (fs w1) temp_extract_path) <> 1%nat ->
        root = temp_extract_path).
Proof.
  intros Hunpack Hdir.
  exists (SetupWorker.extracted_root E (fs w1) temp_extract_path
            (dir_entries E (fs w1) temp_extract_path)).
  split.
  - unfold SetupWorker._extract_to_temp_dir. unfold bind at 1.
    rewrite Hunpack. unfold listdir, bind, get_fs.
    unfold isdir in Hdir.
    destruct (fs w1 !! temp_extract_path) as [[? ? |] |];
      try discriminate.
    destruct w1. reflexivity.
  - unfold SetupWorker.extracted_root. repeat split.
    + intros x -> Hx. simpl. rewrite Hx. reflexivity.
    + intros x -> Hx. simpl. rewrite Hx. reflexivity.
    + intros Hlen. destruct (Nat.eqb_spec
        (length (dir_entries E (fs w1) temp_extract_path)) 1);
        [ contradiction | reflexivity ].
Qed.

Lemma extraction_root_resolution_witness :
  snd (SetupWorker._extract_to_temp_dir (Sample.linux_with Sample.nested_build)
         "/app/tools/ffmpeg-release-amd64-static.tar.xz"
         "/app/tools/ffmpeg_temp_extract" Sample.downloaded)
  = Ok "/app/tools/ffmpeg_temp_extract/ffmpeg-7.0-amd64-static"
  /\ snd (SetupWorker._extract_to_temp_dir (Sample.linux_with Sample.flat_build)
            "/app/tools/ffmpeg-release-amd64-static.tar.xz"
            "/app/tools/ffmpeg_temp_extract" Sample.downloaded)
     = Ok "/app/tools/ffmpeg_temp_extract".
Proof.
  split.
  - destruct (extraction_root_resolution
                (Sample.linux_with Sample.nested_build)
                "/app/tools/ffmpeg-release-amd64-static.tar.xz"
                "/app/tools/ffmpeg_temp_extract" Sample.downloaded
                (fst (SetupWorker.unpack_archive
                        (Sample.linux_with Sample.nested_build)
                        "/app/tools/ffmpeg-release-amd64-static.tar.xz"
                        "/app/tools/ffmpeg_temp_extract" Sample.downloaded)))
      as (root & Hrun & Hsingle & _).
    + vm_compute. reflexivity.
    + vm_compute. reflexivity.
    + rewrite Hrun. simpl. f_equal.
      apply (Hsingle "ffmpeg-7.0-amd64-static"); vm_compute; reflexivity.
  - destruct (extraction_root_resolution
                (Sample.linux_with Sample.flat_build)
                "/app/tools/ffmpeg-release-amd64-static.tar.xz"
                "/app/tools/ffmpeg_temp_extract" Sample.downloaded
                (fst (SetupWorker.unpack_archive
                        (Sample.linux_with Sample.flat_build)
                        "/app/tools/ffmpeg-release-amd64-static.tar.xz"
                        "/app/tools/ffmpeg_temp_extract" Sample.downloaded)))
      as (root & Hrun & _ & _ & Hmany).
    + vm_compute. reflexivity.
    + vm_compute. reflexivity.
    + rewrite Hrun. simpl. f_equal. apply Hmany. vm_compute. discriminate.
Defined.

(** ** Sequencing *)

Lemma bind_ok {A B} (c : M A) (k : A -> M B) (w w1 : world) (a : A) :
  c w = (w1, Ok a) -> bind c k w = k a w1.
Proof. intros H. unfold bind. rewrite H. reflexivity. Qed.

Lemma bind_raise {A B} (c : M A) (k : A -> M B) (w w1 : world) (e : exn) :
  c w = (w1, Raise e) -> bind c k w = (w1, Raise e).
Proof. intros H. unfold bind. rewrite H. reflexivity. Qed.

Lemma bind_ok_inv {A B} (c : M A) (k : A -> M B) (w w2 : world) (b : B) :
  bind c k w = (w2, Ok b) ->
  exists w1 a, c w = (w1, Ok a) /\ k a w1 = (w2, Ok b).
Proof.
  unfold bind. destruct (c w) as [w1 [a | e]]; intros H.
  - exists w1, a. split; [ reflexivity | exact H ].
  - discriminate H.
Qed.

Lemma bind_emit {A} (c : M A) (ev : event) (w : world) :
  bind c (fun _ => emit ev) w =
  match c w with
  | (w1, Ok _) => (after_event w1 ev, Ok tt)
  | (w1, Raise e) => (w1, Raise e)
  end.
Proof. unfold bind. destruct (c w) as [w1 [a | e]]; reflexivity. Qed.

(** ** Trees of the filesystem *)

Section Trees.

Variable E : env.

Lemma below_prefix (d p : string) :
  below E d p = true -> String.prefix d p = true.
Proof.
  unfold below. intros H. apply andb_prop in H as [H _].
  exact (prefix_trans _ _ _ (prefix_join_empty (sys_platform E) d) H).
Qed.

Lemma without_tree_outside (d p : string) (f : gmap string node) :
  String.prefix d p = false -> without_tree E d f !! p = f !! p.
Proof.
  intros Hout. unfold without_tree.
  assert (Hkeep : forall n : node,
             Is_true (negb (String.eqb (fst (p, n)) d)
                      && negb (below E d (fst (p, n))))).
  { intros n. simpl.
    destruct (String.eqb_spec p d) as [-> | _].
    - rewrite prefix_refl in Hout. discriminate.
    - destruct (below E d p) eqn:Hb; [ | exact I ].
      rewrite (below_prefix _ _ Hb) in Hout. discriminate. }
  destruct (f !! p) as [n |] eqn:Hp.
  - apply map_lookup_filter_Some_2; [ exact Hp | apply Hkeep ].
  - apply map_lookup_filter_None_2. left. exact Hp.
Qed.

Lemma without_tree_self (d : string) (f : gmap string node) :
  without_tree E d f !! d = None.
Proof.
  unfold without_tree. apply map_lookup_filter_None_2. right.
  intros n _. simpl. rewrite String.eqb_refl. exact id.
Qed.


Lemma without_tree_subset (d p : string) (f : gmap string node) (n : node) :
  without_tree E d f !! p = Some n -> f !! p = Some n.
Proof. unfold without_tree. apply map_lookup_filter_Some_1_1. Qed.

End Trees.

(** ** The steps of the provisioner *)

Section Provisioner.

Variable E : env.
Variable self : SetupWorker.t.

Lemma archive_filename_relative :
  OsPath.starts_with_sep (sys_platform E) (SetupWorker.ffmpeg_archive_filename E)
  = false.
Proof.
  unfold SetupWorker.ffmpeg_archive_filename.
  destruct (String.eqb (sys_platform E) "win32");
    [ | destruct (String.eqb (sys_platform E) "darwin") ];
    apply letter_not_sep; reflexivity.
Qed.

(** The archive is stored beside the scratch directory, not in it. *)
Lemma archive_outside_scratch :
  String.prefix (SetupWorker.temp_extract_dir E self)
                (SetupWorker.temp_archive_path E self) = false.
Proof.
  unfold SetupWorker.temp_extract_dir, SetupWorker.temp_archive_path.
  rewrite (join_relative _ _ "ffmpeg_temp_extract")
    by (apply letter_not_sep; reflexivity).
  rewrite (join_relative _ _ (SetupWorker.ffmpeg_archive_filename E))
    by apply archive_filename_relative.
  rewrite prefix_append_cancel.
  unfold SetupWorker.ffmpeg_archive_filename.
  destruct (String.eqb (sys_platform E) "win32");
    [ | destruct (String.eqb (sys_platform E) "darwin") ]; reflexivity.
Qed.



Lemma fresh_scratch_self (t : string) (f : gmap string node) :
  fresh_scratch E t f !! t = Some Dir.
Proof.
  unfold fresh_scratch. destruct (path_exists f t); apply lookup_insert_eq.
Qed.


(** The first two steps of [unpack_archive], when the scratch path is not
    a regular file. *)
Lemma unpack_archive_steps (a t : string) (w : world) :
  isfile (fs w) t = false ->
  SetupWorker.unpack_archive E a t w =
  (if Py.endswith a ".zip" then
     extractall E BadZipFile (zip_content E) a t
   else if Py.endswith a ".tar.xz" then
     extractall E ReadError (tar_xz_content E) a t
   else
     raise (MkExn ValueError
              "Unsupported archive format. Only .zip and .tar.xz are supported."))
    (MkWorld (fresh_scratch E t (fs w)) (trace w)).
Proof.
  intros Hfile. unfold SetupWorker.unpack_archive, fresh_scratch.
  unfold bind at 1. unfold get_fs at 1.
  unfold isfile in Hfile. unfold path_exists.
  destruct (fs w !! t) as [[data mode |] |] eqn:Ht; [ discriminate | | ].
  - unfold bind at 1. unfold rmtree at 1. unfold bind at 1.
    unfold get_fs at 1. rewrite Ht. unfold put_fs at 1. cbn [fs trace].
    unfold bind at 1. unfold makedirs at 1. unfold bind at 1.
    unfold get_fs at 1. cbn [fs]. rewrite without_tree_self.
    unfold put_fs at 1. cbn [fs trace]. reflexivity.
  - unfold bind at 1. unfold ret at 1.
    unfold bind at 1. unfold makedirs at 1. unfold bind at 1.
    unfold get_fs at 1. rewrite Ht.
    unfold put_fs at 1. destruct w. reflexivity.
Qed.

End Provisioner.

(** ** Failures of the provisioner *)

Section Failures.

Variable E : env.
Variable self : SetupWorker.t.

(** A request the server refuses is a [RequestException] that names the
    tool and the URL. *)
Lemma download_http_error (url destination tool_name msg : string) (w : world) :
  http E url = HttpError msg ->
  SetupWorker._download_file E url destination tool_name w
  = (after_event w (requests_get url),
     Raise (MkExn RequestException
                  ("Failed to download " +:+ tool_name +:+ " from " +:+ url
                   +:+ ": " +:+ msg))).
Proof.
  intros Hhttp. unfold SetupWorker._download_file, catch.
  unfold bind at 1. unfold emit at 1. rewrite Hhttp. unfold raise at 1.
  cbn [exc_class exc_msg].
  destruct (decide (RequestException = RequestException)); [ | contradiction ].
  reflexivity.
Qed.

(** An exception that leaves the [try] block becomes the failure outcome
    of its class. *)
Lemma run_failure (w w1 : world) (e : exn) :
  SetupWorker.run_body E self w = (w1, Raise e) ->
  SetupWorker.run E self w
  = (after_event w1 (setup_finished false (setup_failure_message e)), Ok tt).
Proof.
  intros Hbody. unfold SetupWorker.run, catch. rewrite Hbody.
  unfold SetupWorker.run_handler, setup_failure_message.
  destruct (decide (exc_class e = RequestException)) as [-> | Hn1];
    [ reflexivity | ].
  destruct (decide (exc_class e = BadZipFile \/ exc_class e = ReadError))
    as [[-> | ->] | Hn2]; [ reflexivity | reflexivity | ].
  destruct (exc_class e); try reflexivity; try contradiction;
    exfalso; apply Hn2; auto.
Qed.



(** The third block, when a tool of the pair is missing. *)
Lemma provide_ffmpeg_missing (w2 : world) :
  negb (path_exists (fs w2) (SetupWorker.ffmpeg_path_in_tools E self))
  || negb (path_exists (fs w2) (SetupWorker.ffprobe_path_in_tools E self))
  = true ->
  SetupWorker.provide_ffmpeg E self w2
  = (SetupWorker.fetch_archive E self ;; SetupWorker.install_ffmpeg E self) w2.
Proof.
  intros Hmiss. unfold SetupWorker.provide_ffmpeg.
  unfold bind at 1. unfold get_fs at 1. rewrite Hmiss. reflexivity.
Qed.

End Failures.

Section Classification.

Variable E : env.
Variable self : SetupWorker.t.




End Classification.


(** ** What outlives the steps of the installation *)

Lemma keeps_fs_keeps_path {A} (p : string) (c : M A) :
  keeps_fs c -> keeps_path p c.
Proof.
  intros Hc w w' r Hrun Hp. specialize (Hc w). rewrite Hrun in Hc.
  simpl in Hc. rewrite Hc. exact Hp.
Qed.

Lemma keeps_path_bind {A B} (p : string) (c : M A) (k : A -> M B) :
  keeps_path p c -> (forall a, keeps_path p (k a)) -> keeps_path p (bind c k).
Proof.
  intros Hc Hk w w' r Hrun Hp. unfold bind in Hrun.
  destruct (c w) as [w1 [a | e]] eqn:Hcw.
  - exact (Hk a w1 w' r Hrun (Hc w w1 _ Hcw Hp)).
  - injection Hrun as <- <-. exact (Hc w w1 _ Hcw Hp).
Qed.

(** Sequencing when the continuation relies on a property of the value. *)
Lemma keeps_path_bind_value {A B} (p : string) (Q : A -> Prop)
    (c : M A) (k : A -> M B) :
  keeps_path p c ->
  (forall w w1 a, c w = (w1, Ok a) -> Q a) ->
  (forall a, Q a -> keeps_path p (k a)) ->
  keeps_path p (bind c k).
Proof.
  intros Hc HQ Hk w w' r Hrun Hp. unfold bind in Hrun.
  destruct (c w) as [w1 [a | e]] eqn:Hcw.
  - exact (Hk a (HQ _ _ _ Hcw) w1 w' r Hrun (Hc w w1 _ Hcw Hp)).
  - injection Hrun as <- <-. exact (Hc w w1 _ Hcw Hp).
Qed.

Lemma keeps_path_get_fs (p : string) : keeps_path p get_fs.
Proof. intros w w' r [= <- <-] Hp. exact Hp. Qed.

Lemma keeps_path_emit (p : string) (ev : event) : keeps_path p (emit ev).
Proof. apply keeps_fs_keeps_path, keeps_fs_emit. Qed.

Lemma keeps_path_ret {A} (p : string) (a : A) : keeps_path p (ret a).
Proof. apply keeps_fs_keeps_path, keeps_fs_ret. Qed.

Lemma keeps_path_raise {A} (p : string) (e : exn) : keeps_path p (@raise A e).
Proof. apply keeps_fs_keeps_path, keeps_fs_raise. Qed.

Lemma keeps_path_lift {A} (p : string) (r : result A) : keeps_path p (lift r).
Proof. apply keeps_fs_keeps_path, keeps_fs_lift. Qed.

Lemma keeps_path_makedirs (p d : string) : keeps_path p (makedirs d).
Proof.
  intros w w' r Hrun Hp. unfold makedirs, bind, get_fs, put_fs, raise in Hrun.
  destruct (fs w !! d); injection Hrun as <- <-; simpl.
  - exact Hp.
  - apply path_exists_insert. exact Hp.
Qed.

Lemma keeps_path_chmod (p q : string) : keeps_path p (chmod_executable q).
Proof.
  intros w w' r Hrun Hp.
  unfold chmod_executable, bind, get_fs, put_fs, raise, ret in Hrun.
  destruct (fs w !! q) as [[data mode |] |]; injection Hrun as <- <-; simpl;
    try exact Hp.
  apply path_exists_insert. exact Hp.
Qed.

Section Keeps.

Variable E : env.

Lemma keeps_path_rmtree (p d : string) :
  String.prefix d p = false -> keeps_path p (rmtree E d).
Proof.
  intros Hout w w' r Hrun Hp. unfold rmtree, bind, get_fs, put_fs, raise in Hrun.
  destruct (fs w !! d) as [[data mode |] |]; injection Hrun as <- <-; simpl;
    try exact Hp.
  unfold path_exists in *. rewrite without_tree_outside by exact Hout.
  exact Hp.
Qed.

Lemma keeps_path_move (p src dst : string) :
  src <> p -> keeps_path p (move E src dst).
Proof.
  intros Hne w w' r Hrun Hp. unfold move, bind, get_fs, put_fs, raise in Hrun.
  destruct (isdir (fs w) dst && path_exists (fs w) _).
  - injection Hrun as <- <-. exact Hp.
  - destruct (fs w !! src); injection Hrun as <- <-; simpl; try exact Hp.
    apply path_exists_insert. rewrite path_exists_delete_ne by exact Hne.
    exact Hp.
Qed.

Lemma path_exists_place (f : gmap string node) (dir p : string)
    (names : list string) (n : node) :
  path_exists f p = true -> path_exists (place E f dir names n) p = true.
Proof.
  revert f dir. induction names as [| x rest IH]; intros f dir Hp; simpl.
  - exact Hp.
  - destruct rest as [| y rest'].
    + apply path_exists_insert. exact Hp.
    + apply IH. apply path_exists_insert. exact Hp.
Qed.

Lemma path_exists_place_all (f : gmap string node) (dir p : string)
    (entries : list (list string * node)) :
  path_exists f p = true -> path_exists (place_all E dir entries f) p = true.
Proof.
  unfold place_all. revert f.
  induction entries as [| en rest IH]; intros f Hp; simpl.
  - exact Hp.
  - apply IH. apply path_exists_place. exact Hp.
Qed.

Lemma keeps_path_extractall (p : string) (cls : exc_type)
    (content : string -> unpacked) (a t : string) :
  keeps_path p (extractall E cls content a t).
Proof.
  intros w w' r Hrun Hp.
  unfold extractall, bind, get_fs, put_fs, raise in Hrun.
  destruct (fs w !! a) as [[data mode |] |]; try (injection Hrun as <- <-; exact Hp).
  destruct (content data); injection Hrun as <- <-; simpl;
    apply path_exists_place_all; exact Hp.
Qed.

Lemma keeps_path_listdir (p d : string) : keeps_path p (listdir E d).
Proof.
  intros w w' r Hrun Hp. unfold listdir, bind, get_fs, raise, ret in Hrun.
  destruct (fs w !! d) as [[data mode |] |]; injection Hrun as <- <-; exact Hp.
Qed.

Lemma keeps_path_unpack_archive (p a t : string) :
  String.prefix t p = false ->
  keeps_path p (SetupWorker.unpack_archive E a t).
Proof.
  intros Hout. unfold SetupWorker.unpack_archive.
  apply keeps_path_bind; [ apply keeps_path_get_fs | intros f ].
  apply keeps_path_bind.
  - destruct (path_exists f t);
      [ apply keeps_path_rmtree; exact Hout | apply keeps_path_ret ].
  - intros _. apply keeps_path_bind; [ apply keeps_path_makedirs | intros _ ].
    destruct (Py.endswith a ".zip"); [ apply keeps_path_extractall | ].
    destruct (Py.endswith a ".tar.xz");
      [ apply keeps_path_extractall | apply keeps_path_raise ].
Qed.

Lemma has_sep_starts (x : string) :
  has_sep E x = false -> OsPath.starts_with_sep (sys_platform E) x = false.
Proof.
  destruct x as [| c x]; [ reflexivity | ]. simpl.
  intros H. apply orb_false_elim in H as [H _]. exact H.
Qed.

(** The root [_extract_to_temp_dir] returns lies in the scratch
    directory. *)
Lemma extracted_root_prefix (f : gmap string node) (t : string) :
  String.prefix t (SetupWorker.extracted_root E f t (dir_entries E f t)) = true.
Proof.
  unfold SetupWorker.extracted_root.
  destruct (dir_entries E f t) as [| x [| y rest]] eqn:Hentries; simpl;
    try apply prefix_refl.
  destruct (isdir f (OsPath.join (sys_platform E) t x));
    [ | apply prefix_refl ].
  apply prefix_join. apply has_sep_starts.
  assert (Hin : x ∈ dir_entries E f t)
    by (rewrite Hentries; apply list_elem_of_singleton; reflexivity).
  unfold dir_entries in Hin. apply list_elem_of_omap in Hin as (k & _ & Hk).
  unfold child_name in Hk. destruct (below E t k); [ | discriminate ].
  destruct (has_sep E _) eqn:Hsep; [ discriminate | ].
  injection Hk as <-. exact Hsep.
Qed.

Lemma extract_returns_in_scratch (a t root : string) (w w1 : world) :
  SetupWorker._extract_to_temp_dir E a t w = (w1, Ok root) ->
  String.prefix t root = true.
Proof.
  unfold SetupWorker._extract_to_temp_dir. intros Hrun.
  apply bind_ok_inv in Hrun as (wa & [] & _ & Hrun).
  apply bind_ok_inv in Hrun as (wb & contents & Hlist & Hrun).
  unfold bind, get_fs, ret in Hrun. injection Hrun as <- <-.
  unfold listdir, bind, get_fs, raise, ret in Hlist.
  destruct (fs wa !! t) as [[data mode |] |]; try discriminate.
  injection Hlist as <- <-. apply extracted_root_prefix.
Qed.

Lemma keeps_path_extract (p a t : string) :
  String.prefix t p = false ->
  keeps_path p (SetupWorker._extract_to_temp_dir E a t).
Proof.
  intros Hout. unfold SetupWorker._extract_to_temp_dir.
  apply keeps_path_bind;
    [ apply keeps_path_unpack_archive; exact Hout | intros _ ].
  apply keeps_path_bind; [ apply keeps_path_listdir | intros contents ].
  apply keeps_path_bind; [ apply keeps_path_get_fs | intros f ].
  apply keeps_path_ret.
Qed.

(** What [find_executable] returns lies in one of the searched
    directories. *)
Lemma find_executable_prefix (f : gmap string node) (name x : string)
    (path_list : list string) :
  OsPath.starts_with_sep (sys_platform E) name = false ->
  OsPath.starts_with_sep (sys_platform E) (name +:+ ".exe") = false ->
  find_executable E f name path_list = Some x ->
  exists d, In d path_list /\ String.prefix d x = true.
Proof.
  intros Hname Hexe. induction path_list as [| d rest IH]; simpl.
  - discriminate.
  - destruct (isfile f _ && access_X_OK E f _).
    + intros [= <-]. exists d. split; [ left; reflexivity | ].
      apply prefix_join. exact Hname.
    + destruct (String.eqb (sys_platform E) "win32" && isfile f _
                && access_X_OK E f _).
      * intros [= <-]. exists d. split; [ left; reflexivity | ].
        apply prefix_join. exact Hexe.
      * intros H. destruct (IH H) as (d' & Hin & Hp).
        exists d'. split; [ right; exact Hin | exact Hp ].
Qed.

End Keeps.

Section Archive.

Variable E : env.
Variable self : SetupWorker.t.

Let archive : string := SetupWorker.temp_archive_path E self.
Let scratch : string := SetupWorker.temp_extract_dir E self.

Lemma found_is_not_archive (f : gmap string node) (name root x : string) :
  Py.in_range 97 122 (match name with String c _ => c | _ => "000"%char end)
  = true ->
  String.prefix scratch root = true ->
  find_executable E f name [root; OsPath.join (sys_platform E) root "bin"]
  = Some x ->
  x <> archive.
Proof.
  intros Hletter Hroot Hfind.
  assert (Hrel : OsPath.starts_with_sep (sys_platform E) name = false
                 /\ OsPath.starts_with_sep (sys_platform E) (name +:+ ".exe")
                    = false).
  { destruct name as [| c name]; [ discriminate | ].
    split; apply letter_not_sep; exact Hletter. }
  destruct Hrel as [Hname Hexe].
  destruct (find_executable_prefix E f name x _ Hname Hexe Hfind)
    as (d & Hin & Hp).
  assert (Hd : String.prefix scratch d = true).
  { destruct Hin as [<- | [<- | []]]; [ exact Hroot | ].
    apply (prefix_trans _ _ _ Hroot). apply prefix_join.
    apply letter_not_sep. reflexivity. }
  intros ->. pose proof (prefix_trans _ _ _ Hd Hp) as Hbad.
  unfold scratch, archive in Hbad.
  rewrite archive_outside_scratch in Hbad. discriminate.
Qed.

Lemma keeps_archive_locate_and_move (root : string) :
  String.prefix scratch root = true ->
  keeps_path archive (SetupWorker.locate_and_move E self root).
Proof.
  intros Hroot. unfold SetupWorker.locate_and_move.
  apply keeps_path_bind; [ apply keeps_path_get_fs | intros f ].
  destruct (negb (truthy (find_executable E f SetupWorker.ffmpeg_name _))
            || negb (truthy (find_executable E f SetupWorker.ffprobe_name _)));
    [ apply keeps_path_raise | ].
  destruct (find_executable E f SetupWorker.ffmpeg_name _)
    as [ffmpeg_found |] eqn:Hffmpeg; [ | apply keeps_path_ret ].
  destruct (find_executable E f SetupWorker.ffprobe_name _)
    as [ffprobe_found |] eqn:Hffprobe; [ | apply keeps_path_ret ].
  apply keeps_path_bind.
  { apply keeps_path_move.
    exact (found_is_not_archive f SetupWorker.ffmpeg_name root _ eq_refl Hroot
             Hffmpeg). }
  intros _. apply keeps_path_bind.
  { apply keeps_path_move.
    exact (found_is_not_archive f SetupWorker.ffprobe_name root _ eq_refl Hroot
             Hffprobe). }
  intros _. apply keeps_path_bind; [ | intros _; apply keeps_path_emit ].
  destruct (negb (String.eqb (sys_platform E) "win32"));
    [ | apply keeps_path_ret ].
  apply keeps_path_bind; [ apply keeps_path_chmod | intros _ ].
  apply keeps_path_chmod.
Qed.

(** The clean-up removes the archive when it succeeds and leaves it when
    it fails. *)
Lemma clean_up_archive (w w' : world) (r : result unit) :
  SetupWorker.clean_up E self w = (w', r) ->
  path_exists (fs w) archive = true ->
  match r with
  | Ok _ => path_exists (fs w') archive = false
  | Raise _ => path_exists (fs w') archive = true
  end.
Proof.
  unfold SetupWorker.clean_up. intros Hrun Hp.
  unfold bind at 1 in Hrun. unfold get_fs at 1 in Hrun.
  unfold bind at 1 in Hrun.
  match type of Hrun with
  | context [match ?c w with _ => _ end] =>
      assert (Hkeep : keeps_path archive c);
      [ | destruct (c w) as [w1 [[] | e]] eqn:Hfirst ]
  end.
  - destruct (path_exists (fs w) (SetupWorker.temp_extract_dir E self));
      [ | apply keeps_path_ret ].
    apply keeps_path_bind; [ | intros _; apply keeps_path_emit ].
    apply keeps_path_rmtree. apply archive_outside_scratch.
  - pose proof (Hkeep w w1 _ Hfirst Hp) as Hp1.
    unfold bind at 1 in Hrun. unfold remove at 1 in Hrun.
    unfold bind at 1 in Hrun. unfold get_fs at 1 in Hrun.
    fold archive in Hrun. unfold path_exists in Hp1.
    destruct (fs w1 !! archive) as [[data mode |] |] eqn:Hlook;
      try discriminate.
    + unfold put_fs, emit in Hrun. injection Hrun as <- <-. simpl.
      unfold path_exists. rewrite lookup_delete_eq. reflexivity.
    + unfold raise in Hrun. injection Hrun as <- <-.
      unfold path_exists. rewrite Hlook. reflexivity.
  - injection Hrun as <- <-. exact (Hkeep w w1 _ Hfirst Hp).
Qed.

(** A download that succeeds has written its destination. *)
Lemma download_writes_destination (url destination tool_name : string)
    (w w' : world) :
  SetupWorker._download_file E url destination tool_name w = (w', Ok tt) ->
  path_exists (fs w') destination = true.
Proof.
  unfold SetupWorker._download_file, catch. intros Hrun.
  match type of Hrun with
  | context [match ?c w with _ => _ end] =>
      destruct (c w) as [w1 [[] | e]] eqn:Hbody
  end.
  - injection Hrun as <-.
    apply bind_ok_inv in Hbody as (wa & [] & _ & Hbody).
    destruct (http E url) as [msg | content_length chunks broken];
      [ discriminate | ].
    apply bind_ok_inv in Hbody as (wb & total & _ & Hbody).
    apply bind_ok_inv in Hbody as (wc & [] & Hopen & Hbody).
    assert (Hc : path_exists (fs wc) destination = true).
    { unfold open_wb, bind, get_fs, put_fs, raise in Hopen.
      destruct (fs wb !! destination) as [[data mode |] |];
        try discriminate; injection Hopen as <-; simpl;
        apply path_exists_insert_eq. }
    assert (Hchunks : forall n, keeps_path destination
                        (SetupWorker.download_chunks destination tool_name
                           total chunks n)).
    { clear. induction chunks as [| chunk rest IH]; intros n; simpl.
      - apply keeps_path_ret.
      - destruct (String.eqb chunk EmptyString); [ apply IH | ].
        apply keeps_path_bind.
        + intros w w' r Hrun Hp.
          unfold write_chunk, bind, get_fs, put_fs, ret in Hrun.
          destruct (fs w !! destination) as [[data mode |] |];
            injection Hrun as <- <-; simpl; try exact Hp.
          apply path_exists_insert_eq.
        + intros _. apply keeps_path_bind; [ | intros _; apply IH ].
          destruct (0 <? total); [ | apply keeps_path_ret ].
          apply keeps_path_bind; [ apply keeps_path_lift | intros ? ].
          apply keeps_path_emit. }
    apply bind_ok_inv in Hbody as (wd & [] & Hdl & Hbody).
    pose proof (Hchunks 0 wc wd _ Hdl Hc) as Hd.
    apply bind_ok_inv in Hbody as (we & [] & Hbroken & Hbody).
    destruct broken; [ discriminate | ].
    unfold ret in Hbroken. injection Hbroken as <-.
    unfold emit in Hbody. injection Hbody as <-. exact Hd.
  - destruct (decide (exc_class e = RequestException)); discriminate.
Qed.

Lemma fetch_writes_archive (w2 w3 : world) :
  SetupWorker.fetch_archive E self w2 = (w3, Ok tt) ->
  path_exists (fs w3) archive = true.
Proof.
  unfold SetupWorker.fetch_archive. intros Hrun.
  apply bind_ok_inv in Hrun as (wa & [] & _ & Hrun).
  apply bind_ok_inv in Hrun as (wb & [] & Hdl & Hrun).
  unfold emit in Hrun. injection Hrun as <-. simpl.
  exact (download_writes_destination _ _ _ _ _ Hdl).
Qed.

(** The installation removes the archive exactly when it succeeds. *)
Lemma install_archive (w3 w4 : world) (r : result unit) :
  SetupWorker.install_ffmpeg E self w3 = (w4, r) ->
  path_exists (fs w3) archive = true ->
  match r with
  | Ok _ => path_exists (fs w4) archive = false
  | Raise _ => path_exists (fs w4) archive = true
  end.
Proof.
  unfold SetupWorker.install_ffmpeg. intros Hrun Hp.
  unfold bind at 1 in Hrun.
  destruct (SetupWorker._extract_to_temp_dir E _ _ w3)
    as [wa [root | e]] eqn:Hextract.
  - pose proof (keeps_path_extract E archive _ _
                  (archive_outside_scratch E self) w3 wa _ Hextract Hp) as Hpa.
    pose proof (extract_returns_in_scratch E _ _ _ _ _ Hextract) as Hroot.
    unfold bind at 1 in Hrun.
    destruct (SetupWorker.locate_and_move E self root wa)
      as [wb [[] | e]] eqn:Hmove.
    + pose proof (keeps_archive_locate_and_move root Hroot wa wb _ Hmove Hpa)
        as Hpb.
      exact (clean_up_archive wb w4 r Hrun Hpb).
    + injection Hrun as <- <-.
      exact (keeps_archive_locate_and_move root Hroot wa wb _ Hmove Hpa).
  - injection Hrun as <- <-.
    exact (keeps_path_extract E archive _ _
             (archive_outside_scratch E self) w3 wa _ Hextract Hp).
Qed.

End Archive.

(** ** The scratch directory and the archive *)




(** ** A connection that breaks while the body is read *)

(** When the header is well formed, the destination can be opened and the
    chunks received are written, a stream that then breaks is the same
    [RequestException] as a refused request: it too is reported as a
    network error by [run_failure]. *)
Lemma download_broken_stream (E : env)
    (url destination tool_name msg : string) (content_length : option string)
    (chunks : list string) (total_size : Z) (w wb wc : world) :
  http E url = HttpBody content_length chunks (Some msg) ->
  match content_length with
  | Some header => Py.int_of_string header
  | None => Ok 0
  end = Ok total_size ->
  open_wb destination (after_event w (requests_get url)) = (wb, Ok tt) ->
  SetupWorker.download_chunks destination tool_name total_size chunks 0 wb
  = (wc, Ok tt) ->
  SetupWorker._download_file E url destination tool_name w
  = (wc,
     Raise (MkExn RequestException
                  ("Failed to download " +:+ tool_name +:+ " from " +:+ url
                   +:+ ": " +:+ msg))).
Proof.
  intros Hhttp Hheader Hopen Hchunks.
  unfold SetupWorker._download_file, catch.
  unfold bind at 1. unfold emit at 1. rewrite Hhttp.
  unfold bind at 1. unfold lift at 1. rewrite Hheader.
  fold (after_event w (requests_get url)).
  rewrite (bind_ok _ _ _ _ _ Hopen), (bind_ok _ _ _ _ _ Hchunks).
  unfold bind at 1. unfold raise at 1. cbn [exc_class exc_msg].
  destruct (decide (RequestException = RequestException)); [ | contradiction ].
  reflexivity.
Qed.

(** * Further properties of the code *)

(** ** [find_executable] *)

Section FindExecutableFacts.

Variable E : env.

(** X1.  What [find_executable] returns is a regular file the process may
    execute, and it is the name joined to one of the given directories, or,
    on win32 only, the name with [.exe] joined to one of them. *)
Theorem find_executable_sound (f : gmap string node) (name p : string)
    (path_list : list string) :
  find_executable E f name path_list = Some p ->
  exists d,
    In d path_list
    /\ executable_file E f p = true
    /\ (p = OsPath.join (sys_platform E) d name
        \/ (sys_platform E = "win32"
            /\ p = OsPath.join (sys_platform E) d (name +:+ ".exe"))).
Proof.
  induction path_list as [| d rest IH]; simpl.
  - discriminate.
  - fold (executable_file E f (OsPath.join (sys_platform E) d name)).
    destruct (executable_file E f (OsPath.join (sys_platform E) d name))
      eqn:Hplain.
    + intros [= <-]. exists d. split; [ left; reflexivity | ].
      split; [ exact Hplain | left; reflexivity ].
    + destruct (String.eqb_spec (sys_platform E) "win32") as [Hwin | _];
        cbn [andb].
      * fold (executable_file E f
                (OsPath.join (sys_platform E) d (name +:+ ".exe"))).
        destruct (executable_file E f
                    (OsPath.join (sys_platform E) d (name +:+ ".exe")))
          eqn:Hexe.
        -- intros [= <-]. exists d. split; [ left; reflexivity | ].
           split; [ exact Hexe | right; split; [ exact Hwin | reflexivity ] ].
        -- intros H. destruct (IH H) as (d' & Hin & Hrest).
           exists d'. split; [ right; exact Hin | exact Hrest ].
      * intros H. destruct (IH H) as (d' & Hin & Hrest).
        exists d'. split; [ right; exact Hin | exact Hrest ].
Qed.

(** X2.  [find_executable] returns [None] exactly when no directory of the
    list holds an executable file of that name, nor, on win32, one of that
    name with [.exe]. *)
Theorem find_executable_none (f : gmap string node) (name : string)
    (path_list : list string) :
  find_executable E f name path_list = None <->
  (forall d,
      In d path_list ->
      executable_file E f (OsPath.join (sys_platform E) d name) = false
      /\ (sys_platform E = "win32" ->
          executable_file E f
            (OsPath.join (sys_platform E) d (name +:+ ".exe")) = false)).
Proof.
  induction path_list as [| d rest IH]; simpl.
  - split; [ intros _ d [] | reflexivity ].
  - fold (executable_file E f (OsPath.join (sys_platform E) d name)).
    destruct (executable_file E f (OsPath.join (sys_platform E) d name))
      eqn:Hplain.
    + split; [ discriminate | ].
      intros H. destruct (H d (or_introl eq_refl)) as [Hbad _].
      rewrite Hplain in Hbad. discriminate.
    + destruct (String.eqb_spec (sys_platform E) "win32") as [Hwin | Hnot];
        cbn [andb].
      * fold (executable_file E f
                (OsPath.join (sys_platform E) d (name +:+ ".exe"))).
        destruct (executable_file E f
                    (OsPath.join (sys_platform E) d (name +:+ ".exe")))
          eqn:Hexe.
        -- split; [ discriminate | ].
           intros H. destruct (H d (or_introl eq_refl)) as [_ Hbad].
           rewrite Hexe in Hbad. discriminate (Hbad Hwin).
        -- rewrite IH. split.
           ++ intros H d' [<- | Hin];
                [ split; [ exact Hplain | intros _; exact Hexe ] | exact (H d' Hin) ].
           ++ intros H d' Hin. exact (H d' (or_intror Hin)).
      * rewrite IH. split.
        -- intros H d' [<- | Hin];
             [ split; [ exact Hplain | intros Hwin; contradiction ]
             | exact (H d' Hin) ].
        -- intros H d' Hin. exact (H d' (or_intror Hin)).
Qed.

(** X3.  The directories are searched in order: on a list made of two
    parts, the result is what the first part gives, and what the second
    gives only when the first gives nothing. *)
Theorem find_executable_app (f : gmap string node) (name : string)
    (first rest : list string) :
  find_executable E f name (first ++ rest)%list =
  match find_executable E f name first with
  | Some p => Some p
  | None => find_executable E f name rest
  end.
Proof.
  induction first as [| d first IH]; simpl; [ reflexivity | ].
  destruct (isfile f _ && access_X_OK E f _); [ reflexivity | ].
  destruct (String.eqb (sys_platform E) "win32" && isfile f _
            && access_X_OK E f _); [ reflexivity | ].
  exact IH.
Qed.

End FindExecutableFacts.

Lemma find_executable_sound_witness :
  exists d,
    In d ["/opt/bin"; "/app/tools"]
    /\ executable_file (Sample.offline "linux") (fs Sample.provisioned)
         "/app/tools/ffmpeg" = true
    /\ ("/app/tools/ffmpeg"
        = OsPath.join (sys_platform (Sample.offline "linux")) d "ffmpeg"
        \/ (sys_platform (Sample.offline "linux") = "win32"
            /\ "/app/tools/ffmpeg"
               = OsPath.join (sys_platform (Sample.offline "linux")) d
                   ("ffmpeg" +:+ ".exe"))).
Proof.
  apply (find_executable_sound (Sample.offline "linux") (fs Sample.provisioned)
           "ffmpeg" "/app/tools/ffmpeg" ["/opt/bin"; "/app/tools"]).
  vm_compute. reflexivity.
Defined.

Lemma find_executable_none_witness :
  find_executable (Sample.offline "linux") (fs Sample.provisioned) "aria2c"
    ["/opt/bin"; "/app/tools"] = None.
Proof.
  apply (proj2 (find_executable_none (Sample.offline "linux")
                  (fs Sample.provisioned) "aria2c" ["/opt/bin"; "/app/tools"])).
  intros d [<- | [<- | []]]; (split; [ vm_compute; reflexivity | discriminate ]).
Defined.

(** ** The events a computation adds *)

Lemma emits_only_weaken {A} (P Q : event -> Prop) (c : M A) :
  (forall e, P e -> Q e) -> emits_only P c -> emits_only Q c.
Proof.
  intros HPQ Hc w w' r Hrun. destruct (Hc w w' r Hrun) as (evs & Htr & Hall).
  exists evs. split; [ exact Htr | ].
  eapply Forall_impl; [ exact Hall | exact HPQ ].
Qed.









Lemma emits_only_catch {A} (P : event -> Prop) (c : M A) (h : exn -> M A) :
  emits_only P c -> (forall e, emits_only P (h e)) -> emits_only P (catch c h).
Proof.
  intros Hc Hh w w' r Hrun. unfold catch in Hrun.
  destruct (c w) as [w1 [a | e]] eqn:Hcw.
  - injection Hrun as <- <-. exact (Hc w w1 _ Hcw).
  - destruct (Hc w w1 _ Hcw) as (evs1 & Htr1 & Hall1).
    destruct (Hh e w1 w' r Hrun) as (evs2 & Htr2 & Hall2).
    exists (evs1 ++ evs2)%list. split.
    + rewrite Htr2, Htr1, app_assoc. reflexivity.
    + apply Forall_app. split; assumption.
Qed.












(** ** The events of a download *)

(** The extractor adds at most one event, a progress value. *)
Lemma extract_progress_events (line : string) (w w' : world) (r : result unit) :
  DownloadWorker.extract_progress line w = (w', r) ->
  exists events,
    trace w' = (trace w ++ events)%list
    /\ (events = [] \/ exists v, events = [progress_event v]).
Proof.
  rewrite extract_progress_cases. intros Hrun.
  assert (Hnone : (w, r) = (w', r) ->
                  exists events, trace w' = (trace w ++ events)%list
                    /\ (events = [] \/ exists v, events = [progress_event v])).
  { intros [= <-]. exists []. split; [ rewrite app_nil_r; reflexivity | ].
    left. reflexivity. }
  destruct (Py.contains "%" line);
    [ | injection Hrun as <- <-; apply Hnone; reflexivity ].
  destruct (find percent_token (Py.split line)) as [part |];
    [ | injection Hrun as <- <-; apply Hnone; reflexivity ].
  destruct (DownloadWorker.progress_of_part part) as [v | e].
  - injection Hrun as <- <-. exists [progress_event v].
    split; [ reflexivity | right; exists v; reflexivity ].
  - destruct (decide (exc_class e = ValueError));
      injection Hrun as <- <-; apply Hnone; reflexivity.
Qed.

(** The only exception that leaves the extractor. *)
Lemma extract_progress_raises (line : string) (w w' : world) (e : exn) :
  DownloadWorker.extract_progress line w = (w', Raise e) ->
  e = MkExn OverflowError "cannot convert float infinity to integer".
Proof.
  rewrite extract_progress_cases. intros Hrun.
  destruct (Py.contains "%" line); [ | discriminate ].
  destruct (find percent_token (Py.split line)) as [part |]; [ | discriminate ].
  destruct (DownloadWorker.progress_of_part part) as [v | e'] eqn:Hpart;
    [ discriminate | ].
  destruct (decide (exc_class e' = ValueError)) as [Hv | Hv];
    [ discriminate | ].
  injection Hrun as _ <-.
  destruct (progress_of_part_raises part e' Hpart) as [Hc | He];
    [ contradiction | exact He ].
Qed.

Lemma forwarded_lines_app (a b : list event) :
  forwarded_lines (a ++ b) = (forwarded_lines a ++ forwarded_lines b)%list.
Proof. unfold forwarded_lines. apply omap_app. Qed.

(** The events of the reading loop: the lines, each followed by at most
    one progress value. *)
Lemma stream_output_events (lines : list string) (w w' : world)
    (r : result unit) :
  DownloadWorker.stream_output lines w = (w', r) ->
  exists events,
    trace w' = (trace w ++ events)%list
    /\ Forall (fun e => (exists s, e = update_progress s)
                        \/ (exists v, e = progress_event v)) events
    /\ match r with
       | Ok _ => forwarded_lines events = lines
       | Raise _ => exists rest, lines = (forwarded_lines events ++ rest)%list
       end.
Proof.
  revert w. induction lines as [| line rest IH]; intros w; simpl.
  - intros [= <- <-]. exists []. rewrite app_nil_r.
    split; [ reflexivity | split; [ constructor | reflexivity ] ].
  - unfold bind at 1. unfold emit at 1. unfold bind at 1.
    destruct (DownloadWorker.extract_progress line _) as [w1 [[] | e]] eqn:Hex;
      destruct (extract_progress_events _ _ _ _ Hex) as (evs1 & Htr1 & Hshape);
      cbn [trace] in Htr1.
    + intros Hrest. destruct (IH w1 Hrest) as (evs2 & Htr2 & Hall2 & Hfw).
      exists (update_progress line :: evs1 ++ evs2)%list.
      split; [ rewrite Htr2, Htr1, <- !app_assoc; reflexivity | ].
      split.
      * constructor; [ left; eexists; reflexivity | ].
        apply Forall_app. split; [ | exact Hall2 ].
        destruct Hshape as [-> | (v & ->)];
          [ constructor
          | constructor; [ right; exists v; reflexivity | constructor ] ].
      * assert (Hevs1 : forwarded_lines evs1 = [])
          by (destruct Hshape as [-> | (v & ->)]; reflexivity).
        change (update_progress line :: evs1 ++ evs2)%list
          with (([update_progress line] ++ evs1) ++ evs2)%list.
        rewrite !forwarded_lines_app, Hevs1. simpl.
        destruct r as [[] | e].
        -- rewrite Hfw. reflexivity.
        -- destruct Hfw as (rest' & ->). exists rest'. reflexivity.
    + intros [= <- <-].
      exists (update_progress line :: evs1)%list.
      split; [ rewrite Htr1, <- !app_assoc; reflexivity | ].
      split.
      * constructor; [ left; eexists; reflexivity | ].
        destruct Hshape as [-> | (v & ->)];
          [ constructor
          | constructor; [ right; exists v; reflexivity | constructor ] ].
      * assert (Hevs1 : forwarded_lines evs1 = [])
          by (destruct Hshape as [-> | (v & ->)]; reflexivity).
        exists rest.
        change (update_progress line :: evs1)%list
          with ([update_progress line] ++ evs1)%list.
        rewrite forwarded_lines_app, Hevs1. reflexivity.
Qed.

(** The only exception that leaves the reading loop. *)
Lemma stream_output_raises (lines : list string) (w w' : world) (e : exn) :
  DownloadWorker.stream_output lines w = (w', Raise e) ->
  e = MkExn OverflowError "cannot convert float infinity to integer".
Proof.
  revert w. induction lines as [| line rest IH]; intros w; simpl.
  - discriminate.
  - unfold bind at 1. unfold emit at 1. unfold bind at 1.
    destruct (DownloadWorker.extract_progress line _) as [w1 [[] | e1]] eqn:Hex.
    + apply IH.
    + intros [= _ <-]. exact (extract_progress_raises _ _ _ _ Hex).
Qed.

(** ** The outcomes of a download *)

Section DownloadOutcomes.

Variable E : env.
Variable self : DownloadWorker.t.

(** The events of [run] up to and including the call of [Popen]. *)
Let opening : list event :=
  [ update_progress ("Starting download from: "
                     +:+ DownloadWorker.url self +:+ nl);
    update_progress ("Saving to: " +:+ DownloadWorker.output_path self +:+ nl);
    update_progress_bar 0 "Downloading...";
    subprocess_Popen (DownloadWorker.command E self) ].

Lemma run_launch_error (e : exn) (w : world) :
  spawn E (DownloadWorker.command E self) = LaunchError e ->
  DownloadWorker.run E self w =
  (MkWorld (fs w)
     (trace w ++ opening ++
      [ download_finished false
          (if decide (exc_class e = FileNotFoundError)
           then DownloadWorker.not_found_message
           else "An unexpected error occurred: " +:+ exc_msg e) ]),
   Ok tt).
Proof.
  intros Hspawn. rewrite run_unfold.
  unfold catch, DownloadWorker.run_body, DownloadWorker.Popen.
  unfold bind at 1. unfold bind at 1. unfold emit at 1. simpl.
  rewrite Hspawn. unfold raise, DownloadWorker.run_handler.
  destruct (decide (exc_class e = FileNotFoundError));
    unfold emit; simpl; rewrite <- !app_assoc; reflexivity.
Qed.

Lemma run_interrupted (p : process) (w w2 : world) (e : exn) :
  spawn E (DownloadWorker.command E self) = Launched p ->
  DownloadWorker.stream_output (stdout p)
    (MkWorld (writes p (fs w)) (trace w ++ opening)) = (w2, Raise e) ->
  DownloadWorker.run E self w =
  (MkWorld (fs w2)
     (trace w2 ++
      [ download_finished false
          "An unexpected error occurred: cannot convert float infinity to integer" ]),
   Ok tt).
Proof.
  intros Hspawn Hstream. rewrite run_unfold.
  unfold catch, DownloadWorker.run_body, DownloadWorker.Popen.
  unfold bind at 1. unfold bind at 1. unfold emit at 1. simpl.
  rewrite Hspawn. unfold bind at 1. unfold get_fs. unfold bind at 1.
  unfold put_fs, ret. simpl. rewrite <- app_assoc. simpl.
  unfold bind at 1. unfold opening in Hstream. simpl in Hstream.
  rewrite Hstream.
  rewrite (stream_output_raises _ _ _ _ Hstream).
  reflexivity.
Qed.

(** All the ways a run with a started child can go. *)
Lemma run_launched_cases (p : process) (w : world) :
  spawn E (DownloadWorker.command E self) = Launched p ->
  exists reading,
    Forall (fun e => (exists s, e = update_progress s)
                     \/ (exists v, e = progress_event v)) reading
    /\ ((forwarded_lines reading = stdout p
         /\ DownloadWorker.run E self w
            = (MkWorld (writes p (fs w))
                 (trace w ++ (opening ++ reading ++ [process_wait]) ++
                  [ if returncode p =? 0
                    then download_finished true "Download completed successfully!"
                    else download_finished false
                           ("Download failed with error code: "
                            +:+ Py.str_of_int (returncode p)) ]),
               Ok tt))
        \/ ((exists rest, stdout p = (forwarded_lines reading ++ rest)%list)
            /\ DownloadWorker.run E self w
               = (MkWorld (writes p (fs w))
                    (trace w ++ (opening ++ reading) ++
                     [ download_finished false
                         "An unexpected error occurred: cannot convert float infinity to integer" ]),
                  Ok tt))).
Proof.
  intros Hspawn.
  destruct (DownloadWorker.stream_output (stdout p)
              (MkWorld (writes p (fs w)) (trace w ++ opening)))
    as [w2 r] eqn:Hstream.
  destruct (stream_output_events _ _ _ _ Hstream)
    as (reading & Htr & Hall & Hfw).
  pose proof (keeps_fs_stream_output (stdout p)
                (MkWorld (writes p (fs w)) (trace w ++ opening))) as Hfs.
  rewrite Hstream in Hfs. cbn [fst fs] in Hfs. cbn [trace] in Htr.
  exists reading. split; [ exact Hall | ].
  destruct r as [[] | e].
  - left. split; [ exact Hfw | ].
    rewrite (run_reports_exit_code E self p w w2 Hspawn Hstream).
    rewrite Hfs, Htr. f_equal. f_equal.
    rewrite <- !app_assoc. reflexivity.
  - right. split; [ exact Hfw | ].
    rewrite (run_interrupted p w w2 e Hspawn Hstream).
    rewrite Hfs, Htr. f_equal. f_equal.
    rewrite <- !app_assoc. reflexivity.
Qed.

Lemma reading_is_step (reading : list event) :
  Forall (fun e => (exists s, e = update_progress s)
                   \/ (exists v, e = progress_event v)) reading ->
  Forall download_step_event reading /\ ~ In process_wait reading.
Proof.
  induction 1 as [| e rest He _ [IH1 IH2]]; [ split; [ constructor | intros [] ] | ].
  split.
  - constructor; [ | exact IH1 ].
    destruct He as [(s & ->) | (v & ->)]; exact I.
  - intros [Heq | Hin]; [ | exact (IH2 Hin) ].
    destruct He as [(s & ->) | (v & ->)]; discriminate Heq.
Qed.

Lemma opening_is_step :
  Forall download_step_event opening /\ ~ In process_wait opening.
Proof.
  split; [ repeat constructor | ].
  intros [H | [H | [H | [H | []]]]]; discriminate H.
Qed.


(** X6.  Every run ends with exactly one outcome, which is its last event,
    and no exception leaves it.  Once the window has received the events of
    the run, its three controls are enabled again, the bar is at 100 after
    a success and at 0 after a failure, and the last dialog shows the
    message of the outcome. *)
Theorem run_ends_with_one_outcome (w : world) (g : YouTubeDownloaderApp.t) :
  exists events ok msg f,
    DownloadWorker.run E self w
    = (MkWorld f (trace w ++ events ++ [download_finished ok msg]), Ok tt)
    /\ Forall download_step_event events
    /\ (let g' := YouTubeDownloaderApp.deliver_all g
                    (events ++ [download_finished ok msg]) in
        YouTubeDownloaderApp.download_button_enabled g' = true
        /\ YouTubeDownloaderApp.url_input_enabled g' = true
        /\ YouTubeDownloaderApp.format_combo_enabled g' = true
        /\ YouTubeDownloaderApp.progress_bar_value g' = (if ok then 100 else 0)
        /\ last (YouTubeDownloaderApp.message_boxes g')
           = Some (if ok then "Download Complete" else "Download Failed", msg)).
Proof.
  assert (Hwindow : forall events ok msg,
             let g' := YouTubeDownloaderApp.deliver_all g
                         (events ++ [download_finished ok msg]) in
             YouTubeDownloaderApp.download_button_enabled g' = true
             /\ YouTubeDownloaderApp.url_input_enabled g' = true
             /\ YouTubeDownloaderApp.format_combo_enabled g' = true
             /\ YouTubeDownloaderApp.progress_bar_value g'
                = (if ok then 100 else 0)
             /\ last (YouTubeDownloaderApp.message_boxes g')
                = Some (if ok then "Download Complete" else "Download Failed",
                        msg)).
  { intros events ok msg. unfold YouTubeDownloaderApp.deliver_all.
    rewrite fold_left_app. cbn [fold_left YouTubeDownloaderApp.deliver].
    generalize (fold_left YouTubeDownloaderApp.deliver events g). intros g0.
    destruct ok; cbn; rewrite last_snoc; repeat split; reflexivity. }
  destruct opening_is_step as [Hopen _].
  destruct (spawn E (DownloadWorker.command E self)) as [p | e] eqn:Hspawn.
  - destruct (run_launched_cases p w Hspawn) as (reading & Hall & Hcases).
    destruct (reading_is_step reading Hall) as [Hstep _].
    destruct Hcases as [[_ Hrun] | [_ Hrun]].
    + destruct (returncode p =? 0);
        eexists (opening ++ reading ++ [process_wait])%list, _, _, _;
        (split; [ exact Hrun | ]);
        (split; [ | apply Hwindow ]);
        (apply Forall_app; split; [ exact Hopen | ]);
        (apply Forall_app; split; [ exact Hstep | repeat constructor ]).
    + eexists (opening ++ reading)%list, _, _, _.
      split; [ exact Hrun | ].
      split; [ apply Forall_app; split; assumption | apply Hwindow ].
  - eexists opening, _, _, _.
    split; [ exact (run_launch_error e w Hspawn) | ].
    split; [ exact Hopen | apply Hwindow ].
Qed.

End DownloadOutcomes.


(** ** Percentages without a decimal point *)







(** ** The bytes of a download *)

Lemma append_nil_l (s : string) : EmptyString +:+ s = s.
Proof. reflexivity. Qed.

Lemma concat_chunks_cons (chunk : string) (rest : list string) :
  concat_chunks (chunk :: rest) = chunk +:+ concat_chunks rest.
Proof. reflexivity. Qed.

(** The progress report inside the loop leaves the filesystem alone. *)
Lemma keeps_fs_chunk_progress (tool_name : string) (total n : Z) :
  keeps_fs
    (if 0 <? total then
       progress <- lift (result_bind (Py.true_divide (n * 100) total)
                                     Py.int_of_float) ;;
       emit (update_progress_bar progress
               ("Downloading " +:+ tool_name +:+ ": "
                +:+ Py.str_of_int progress +:+ "%"))
     else ret tt).
Proof.
  destruct (0 <? total); [ | apply keeps_fs_ret ].
  apply keeps_fs_bind; [ apply keeps_fs_lift | intros ?; apply keeps_fs_emit ].
Qed.

(** A loop that ends normally has appended every chunk to the file. *)
Lemma download_chunks_writes (destination tool_name : string) (total : Z)
    (chunks : list string) (n : Z) (data : string) (mode : Z) (w w' : world) :
  fs w !! destination = Some (File data mode) ->
  SetupWorker.download_chunks destination tool_name total chunks n w
  = (w', Ok tt) ->
  fs w' = <[destination := File (data +:+ concat_chunks chunks) mode]> (fs w).
Proof.
  revert n data w. induction chunks as [| chunk rest IH]; intros n data w Hlook.
  - simpl. intros [= <-]. unfold concat_chunks. simpl.
    rewrite append_nil_r. symmetry. apply insert_id. exact Hlook.
  - rewrite concat_chunks_cons. cbn [SetupWorker.download_chunks].
    destruct (String.eqb_spec chunk EmptyString) as [-> | _].
    + rewrite append_nil_l. apply IH. exact Hlook.
    + intros Hrun.
      apply bind_ok_inv in Hrun as (wa & [] & Hwrite & Hrun).
      apply bind_ok_inv in Hrun as (wb & [] & Hprog & Hrun).
      unfold write_chunk, bind, get_fs, put_fs in Hwrite.
      rewrite Hlook in Hwrite. injection Hwrite as <-.
      pose proof (keeps_fs_chunk_progress tool_name total
                    (n + Z.of_nat (String.length chunk))
                    (MkWorld (<[destination := File (data +:+ chunk) mode]> (fs w))
                             (trace w))) as Hfs.
      rewrite Hprog in Hfs. cbn [fst fs] in Hfs.
      rewrite (IH _ (data +:+ chunk) wb) with (2 := Hrun).
      * rewrite Hfs, insert_insert_eq, append_assoc. reflexivity.
      * rewrite Hfs. apply lookup_insert_eq.
Qed.


(** What [open] leaves at the destination: an empty file, with the mode
    of the file it replaces or 0o644. *)
Lemma open_wb_ok (p : string) (w w' : world) :
  open_wb p w = (w', Ok tt) ->
  let mode := match fs w !! p with Some (File _ mode) => mode | _ => 420 end in
  w' = MkWorld (<[p := File EmptyString mode]> (fs w)) (trace w).
Proof.
  unfold open_wb, bind, get_fs, put_fs, raise.
  destruct (fs w !! p) as [[data mode |] |]; intros [= <-]; reflexivity.
Qed.

(** The filesystem after a download that ends normally. *)
Lemma download_file_fs (E : env)
    (url destination tool_name : string) (content_length : option string)
    (chunks : list string) (broken : option string) (w w' : world) :
  http E url = HttpBody content_length chunks broken ->
  SetupWorker._download_file E url destination tool_name w = (w', Ok tt) ->
  broken = None
  /\ fs w' = <[destination :=
                 File (concat_chunks chunks)
                      (match fs w !! destination with
                       | Some (File _ mode) => mode
                       | _ => 420
                       end)]> (fs w).
Proof.
  intros Hhttp. unfold SetupWorker._download_file, catch. intros Hrun.
  match type of Hrun with
  | context [match ?c w with _ => _ end] =>
      destruct (c w) as [w1 [[] | e]] eqn:Hbody
  end.
  - injection Hrun as <-.
    apply bind_ok_inv in Hbody as (wa & [] & Hget & Hbody).
    unfold emit in Hget. injection Hget as <-.
    rewrite Hhttp in Hbody.
    apply bind_ok_inv in Hbody as (wb & total & Hlift & Hbody).
    assert (Hwb : wb = MkWorld (fs w) (trace w ++ [requests_get url])).
    { unfold lift in Hlift. injection Hlift as <- _. reflexivity. }
    subst wb.
    apply bind_ok_inv in Hbody as (wc & [] & Hopen & Hbody).
    apply open_wb_ok in Hopen. cbn [fs trace] in Hopen. subst wc.
    apply bind_ok_inv in Hbody as (wd & [] & Hdl & Hbody).
    apply download_chunks_writes
      with (data := EmptyString)
           (mode := match fs w !! destination with
                    | Some (File _ mode) => mode
                    | _ => 420
                    end) in Hdl; [ | apply lookup_insert_eq ].
    cbn [fs] in Hdl. rewrite insert_insert_eq, append_nil_l in Hdl.
    apply bind_ok_inv in Hbody as (we & [] & Hbroken & Hbody).
    destruct broken; [ discriminate | ].
    unfold ret in Hbroken. injection Hbroken as <-.
    unfold emit in Hbody. injection Hbody as <-.
    split; [ reflexivity | exact Hdl ].
  - destruct (decide (exc_class e = RequestException)); discriminate.
Qed.

(** X8.  A download that ends normally was not cut, and it leaves at the
    destination a file that holds the chunks received, in order, and
    nothing else: what the file held before is gone, while its mode is
    kept (a new file gets 0o644).  No other path is touched. *)
Theorem download_stores_the_bytes_received (E : env)
    (url destination tool_name : string) (content_length : option string)
    (chunks : list string) (broken : option string) (w w' : world) :
  http E url = HttpBody content_length chunks broken ->
  SetupWorker._download_file E url destination tool_name w = (w', Ok tt) ->
  broken = None
  /\ fs w' = <[destination :=
                 File (concat_chunks chunks)
                      (match fs w !! destination with
                       | Some (File _ mode) => mode
                       | _ => 420
                       end)]> (fs w).
Proof.
  exact (download_file_fs E url destination tool_name content_length chunks
           broken w w').
Qed.

Lemma download_stores_the_bytes_witness :
  @None string = None
  /\ fs (fst (SetupWorker._download_file (Sample.linux_with Sample.flat_build)
                "https://example.org/yt-dlp" "/app/tools/yt-dlp" "yt-dlp"
                Sample.with_downloader))
     = <["/app/tools/yt-dlp" := File "abcd" 493]> (fs Sample.with_downloader).
Proof.
  apply (download_stores_the_bytes_received
           (Sample.linux_with Sample.flat_build)
           "https://example.org/yt-dlp" "/app/tools/yt-dlp" "yt-dlp"
           (Some "4") ["ab"; "cd"] None Sample.with_downloader
           (fst (SetupWorker._download_file (Sample.linux_with Sample.flat_build)
                   "https://example.org/yt-dlp" "/app/tools/yt-dlp" "yt-dlp"
                   Sample.with_downloader))).
  - reflexivity.
  - vm_compute. reflexivity.
Defined.



(** ** A header that is not a number *)

Lemma int_of_string_raises (s : string) (e : exn) :
  Py.int_of_string s = Raise e -> exc_class e = ValueError.
Proof.
  unfold Py.int_of_string.
  destruct (Py.split_sign _) as [neg body].
  destruct (Py.int_magnitude body); intros [= <-]. reflexivity.
Qed.

Lemma join_longer (platform a b : string) :
  OsPath.starts_with_sep platform b = false ->
  b <> EmptyString ->
  OsPath.join platform a b <> a.
Proof.
  intros Hrel Hb Heq.
  pose proof (f_equal String.length Heq) as Hlen.
  rewrite (join_relative platform a b Hrel), length_append in Hlen.
  pose proof (prefix_length _ _ (prefix_join_empty platform a)) as Hle.
  destruct b as [| c b]; [ contradiction | ]. simpl in Hlen. lia.
Qed.

Lemma yt_dlp_filename_relative (E : env) :
  OsPath.starts_with_sep (sys_platform E) (SetupWorker.yt_dlp_filename E) = false
  /\ SetupWorker.yt_dlp_filename E <> EmptyString.
Proof.
  unfold SetupWorker.yt_dlp_filename.
  destruct (String.eqb (sys_platform E) "win32");
    (split; [ apply letter_not_sep; reflexivity | discriminate ]).
Qed.

(** The first block of [run], in full. *)
Lemma ensure_tools_dir_run (self : SetupWorker.t) (w : world) :
  SetupWorker.ensure_tools_dir self w
  = (MkWorld
       (if path_exists (fs w) (SetupWorker.tools_dir self) then fs w
        else <[SetupWorker.tools_dir self := Dir]> (fs w))
       (trace w ++
        (if path_exists (fs w) (SetupWorker.tools_dir self) then []
         else [update_status ("Created tools directory: "
                              +:+ SetupWorker.tools_dir self)])),
     Ok tt).
Proof.
  unfold SetupWorker.ensure_tools_dir.
  unfold bind at 1. unfold get_fs at 1.
  destruct (path_exists (fs w) (SetupWorker.tools_dir self)) eqn:Htools;
    cbn [negb].
  - unfold ret. rewrite app_nil_r. destruct w. reflexivity.
  - unfold makedirs. unfold bind at 1. unfold bind at 1. unfold get_fs at 1.
    unfold path_exists in Htools.
    destruct (fs w !! SetupWorker.tools_dir self); [ discriminate | ].
    unfold put_fs, emit. reflexivity.
Qed.

(** X10.  When yt-dlp is missing and the server's content-length header is
    not an integer literal, the run fails before any file is written: the
    [ValueError] of [int] is not wrapped as a failed download, so the
    outcome is the general failure, not the network error, and FFmpeg is
    not attempted. *)
Theorem malformed_length_fails_setup (E : env) (self : SetupWorker.t)
    (header : string) (chunks : list string) (broken : option string)
    (w : world) :
  path_exists (fs w) (SetupWorker.yt_dlp_path E self) = false ->
  http E (SetupWorker.yt_dlp_url E) = HttpBody (Some header) chunks broken ->
  (forall n, Py.int_of_string header <> Ok n) ->
  exists detail,
    SetupWorker.run E self w
    = (MkWorld
         (if path_exists (fs w) (SetupWorker.tools_dir self) then fs w
          else <[SetupWorker.tools_dir self := Dir]> (fs w))
         (trace w ++
          (if path_exists (fs w) (SetupWorker.tools_dir self) then []
           else [update_status ("Created tools directory: "
                                +:+ SetupWorker.tools_dir self)])
          ++ [ update_status ("Downloading " +:+ SetupWorker.yt_dlp_filename E
                              +:+ "...");
               requests_get (SetupWorker.yt_dlp_url E);
               setup_finished false
                 ("An error occurred during tool setup: " +:+ detail) ]),
       Ok tt).
Proof.
  intros Hmissing Hhttp Hbad.
  destruct (Py.int_of_string header) as [n | e] eqn:Hheader;
    [ exfalso; exact (Hbad n eq_refl) | clear Hbad ].
  exists (exc_msg e).
  pose proof (int_of_string_raises _ _ Hheader) as Hclass.
  assert (Hbody : SetupWorker.run_body E self w
                  = (MkWorld
                       (if path_exists (fs w) (SetupWorker.tools_dir self)
                        then fs w
                        else <[SetupWorker.tools_dir self := Dir]> (fs w))
                       ((trace w ++
                         (if path_exists (fs w) (SetupWorker.tools_dir self)
                          then []
                          else [update_status ("Created tools directory: "
                                               +:+ SetupWorker.tools_dir self)]))
                        ++ [ update_status ("Downloading "
                                            +:+ SetupWorker.yt_dlp_filename E
                                            +:+ "...");
                             requests_get (SetupWorker.yt_dlp_url E) ]),
                     Raise e)).
  { unfold SetupWorker.run_body.
    rewrite (bind_ok _ _ _ _ _ (ensure_tools_dir_run self w)).
    apply bind_raise.
    unfold SetupWorker.provide_yt_dlp.
    unfold bind at 1. unfold get_fs at 1. cbn [fs trace].
    assert (Hstill : path_exists
                       (if path_exists (fs w) (SetupWorker.tools_dir self)
                        then fs w
                        else <[SetupWorker.tools_dir self := Dir]> (fs w))
                       (SetupWorker.yt_dlp_path E self) = false).
    { destruct (path_exists (fs w) (SetupWorker.tools_dir self));
        [ exact Hmissing | ].
      unfold path_exists. rewrite lookup_insert_ne.
      - exact Hmissing.
      - intros Heq. symmetry in Heq. revert Heq.
        destruct (yt_dlp_filename_relative E) as [Hrel Hne].
        exact (join_longer _ _ _ Hrel Hne). }
    rewrite Hstill. cbn [negb].
    unfold bind at 1. unfold emit at 1. cbn [fs trace].
    apply bind_raise.
    unfold SetupWorker._download_file, catch.
    unfold bind at 1. unfold emit at 1. rewrite Hhttp.
    unfold bind at 1. unfold lift at 1. rewrite Hheader.
    cbn [fs trace].
    destruct (decide (exc_class e = RequestException)) as [Hbad | _];
      [ rewrite Hclass in Hbad; discriminate | ].
    unfold raise. rewrite <- !app_assoc. reflexivity. }
  rewrite (run_failure E self w _ e Hbody).
  unfold after_event, setup_failure_message. rewrite Hclass.
  cbn [fs trace]. rewrite <- !app_assoc. reflexivity.
Qed.

Lemma malformed_length_witness :
  exists detail,
    SetupWorker.run (Sample.served_by Sample.bad_length) Sample.tools
      Sample.start
    = (MkWorld (<["/app/tools" := Dir]> ∅)
         [ update_status "Created tools directory: /app/tools";
           update_status "Downloading yt-dlp...";
           requests_get
             "https://github.com/yt-dlp/yt-dlp/releases/latest/download/yt-dlp";
           setup_finished false
             ("An error occurred during tool setup: " +:+ detail) ],
       Ok tt).
Proof.
  apply (malformed_length_fails_setup (Sample.served_by Sample.bad_length)
           Sample.tools "4 bytes" ["ab"; "cd"] None Sample.start).
  - vm_compute. reflexivity.
  - reflexivity.
  - intros n. vm_compute. discriminate.
Defined.

(** ** An archive of another format *)

(** X11.  [_extract_to_temp_dir] looks at the suffix of the archive only
    after it has cleared the scratch directory and made it anew: for a
    path that ends in neither [.zip] nor [.tar.xz] it raises the
    [ValueError] and leaves an empty scratch directory, whatever was there
    before. *)
Theorem unsupported_archive_is_rejected_after_clearing (E : env)
    (archive_path temp_extract_path : string) (w : world) :
  Py.endswith archive_path ".zip" = false ->
  Py.endswith archive_path ".tar.xz" = false ->
  isfile (fs w) temp_extract_path = false ->
  SetupWorker._extract_to_temp_dir E archive_path temp_extract_path w
  = (MkWorld (fresh_scratch E temp_extract_path (fs w)) (trace w),
     Raise (MkExn ValueError
              "Unsupported archive format. Only .zip and .tar.xz are supported.")).
Proof.
  intros Hzip Htar Hfile. unfold SetupWorker._extract_to_temp_dir.
  apply bind_raise.
  rewrite (unpack_archive_steps E archive_path temp_extract_path w Hfile).
  rewrite Hzip, Htar. reflexivity.
Qed.

Lemma unsupported_archive_witness :
  SetupWorker._extract_to_temp_dir (Sample.offline "linux")
    "/app/tools/ffmpeg.7z" "/app/tools/ffmpeg_temp_extract"
    Sample.downloaded_stale
  = (MkWorld (fresh_scratch (Sample.offline "linux")
                "/app/tools/ffmpeg_temp_extract" (fs Sample.downloaded_stale))
             (trace Sample.downloaded_stale),
     Raise (MkExn ValueError
              "Unsupported archive format. Only .zip and .tar.xz are supported.")).
Proof.
  apply (unsupported_archive_is_rejected_after_clearing
           (Sample.offline "linux") "/app/tools/ffmpeg.7z"
           "/app/tools/ffmpeg_temp_extract" Sample.downloaded_stale);
    vm_compute; reflexivity.
Defined.

(** ** Starting a download *)

Lemma lstrip_empty (s : string) :
  Py.lstrip_with Py.isspace s = EmptyString <-> all_space s = true.
Proof.
  induction s as [| c s IH]; simpl; [ tauto | ].
  destruct (Py.isspace c); simpl; [ exact IH | ].
  split; discriminate.
Qed.

Lemma rstrip_empty (s : string) :
  Py.rstrip_with Py.isspace s = EmptyString <-> all_space s = true.
Proof.
  induction s as [| c s IH]; simpl; [ tauto | ].
  destruct (String.eqb_spec (Py.rstrip_with Py.isspace s) EmptyString)
    as [Hr | Hr]; simpl.
  - destruct (Py.isspace c); simpl.
    + split; [ intros _; apply IH; exact Hr | reflexivity ].
    + split; discriminate.
  - split; [ discriminate | ].
    intros H. apply andb_prop in H as [_ H]. apply IH in H. contradiction.
Qed.

Lemma all_space_lstrip (s : string) :
  all_space (Py.lstrip_with Py.isspace s) = all_space s.
Proof.
  induction s as [| c s IH]; simpl; [ reflexivity | ].
  destruct (Py.isspace c) eqn:Hc; simpl; [ exact IH | ].
  rewrite Hc. reflexivity.
Qed.

(** [strip] leaves nothing exactly of the strings of white space. *)
Lemma strip_empty (s : string) :
  Py.strip s = EmptyString <-> all_space s = true.
Proof.
  unfold Py.strip. rewrite rstrip_empty, all_space_lstrip. tauto.
Qed.

(** X12.  [start_download] creates a worker exactly when the URL field
    holds something besides white space.  For a blank field it only shows
    the warning: no directory is made, no widget is disabled.  Otherwise
    the worker gets the URL without the white space around it. *)
Theorem start_download_needs_a_url (g : YouTubeDownloaderApp.t) (w : world) :
  (all_space (YouTubeDownloaderApp.url_input_text g) = true ->
   YouTubeDownloaderApp.start_download g w
   = (w, Ok (YouTubeDownloaderApp.message_box "Empty Input"
               "Please enter a YouTube video URL." g, None)))
  /\ (all_space (YouTubeDownloaderApp.url_input_text g) = false ->
      exists w' g' job,
        YouTubeDownloaderApp.start_download g w = (w', Ok (g', Some job))
        /\ DownloadWorker.url job
           = Py.strip (YouTubeDownloaderApp.url_input_text g)
        /\ DownloadWorker.url job <> EmptyString).
Proof.
  unfold YouTubeDownloaderApp.start_download. split.
  - intros Hblank. apply strip_empty in Hblank. rewrite Hblank.
    reflexivity.
  - intros Hurl.
    destruct (String.eqb_spec
                (Py.strip (YouTubeDownloaderApp.url_input_text g)) EmptyString)
      as [Hempty | Hne].
    + apply strip_empty in Hempty. rewrite Hempty in Hurl. discriminate.
    + unfold bind at 1. unfold get_fs at 1.
      destruct (path_exists (fs w) "downloads") eqn:Hex; cbn [negb].
      * unfold bind, ret. eexists _, _, _.
        split; [ reflexivity | split; [ reflexivity | exact Hne ] ].
      * unfold makedirs, bind, get_fs, put_fs, ret.
        unfold path_exists in Hex.
        destruct (fs w !! "downloads"); [ discriminate | ].
        eexists _, _, _.
        split; [ reflexivity | split; [ reflexivity | exact Hne ] ].
Qed.

(** X13.  The command of a worker that [start_download] has created is
    fixed by the window: the two tools it holds, the folder [downloads],
    the URL of the field without the white space around it, and one of
    two presets, audio when the entry of the format box has [mp3] in any
    case, else the best video and audio.  The format is never passed to
    yt-dlp as typed. *)
Theorem started_download_uses_a_preset (E : env)
    (g g' : YouTubeDownloaderApp.t) (job : DownloadWorker.t) (w w' : world) :
  YouTubeDownloaderApp.start_download g w = (w', Ok (g', Some job)) ->
  DownloadWorker.command E job
  = ([ YouTubeDownloaderApp.yt_dlp_exec g;
       "--external-downloader"; "aria2c";
       "--external-downloader-args"; "-x 16 -s 16 -k 1M";
       "--ffmpeg-location"; YouTubeDownloaderApp.ffmpeg_exec g;
       "-o"; OsPath.join (sys_platform E) "downloads" "%(title)s.%(ext)s" ]
     ++ (if Py.has_substring "mp3"
              (Py.lower (YouTubeDownloaderApp.format_combo_text g))
         then ["-x"; "--audio-format"; "mp3"; "--audio-quality"; "0"]
         else ["-f"; DownloadWorker.best_selector])
     ++ [Py.strip (YouTubeDownloaderApp.url_input_text g)])%list.
Proof.
  unfold YouTubeDownloaderApp.start_download.
  destruct (String.eqb (Py.strip (YouTubeDownloaderApp.url_input_text g))
              EmptyString); [ discriminate | ].
  intros Hrun.
  apply bind_ok_inv in Hrun as (w1 & f & _ & Hrun).
  apply bind_ok_inv in Hrun as (w2 & g1 & Hdir & Hrun).
  unfold ret in Hrun. injection Hrun as _ _ <-.
  assert (Htools : YouTubeDownloaderApp.yt_dlp_exec g1
                   = YouTubeDownloaderApp.yt_dlp_exec g
                   /\ YouTubeDownloaderApp.ffmpeg_exec g1
                      = YouTubeDownloaderApp.ffmpeg_exec g).
  { destruct (negb (path_exists f "downloads")).
    - apply bind_ok_inv in Hdir as (w3 & [] & _ & Hdir).
      unfold ret in Hdir. injection Hdir as _ <-. split; reflexivity.
    - unfold ret in Hdir. injection Hdir as _ <-. split; reflexivity. }
  destruct Htools as [Hyt Hff].
  unfold DownloadWorker.command. cbn.
  rewrite Hyt, Hff.
  destruct (Py.has_substring "mp3"
              (Py.lower (YouTubeDownloaderApp.format_combo_text g)));
    reflexivity.
Qed.

(** X14.  A started download leaves the window with its three inputs
    disabled, the progress bar at 0 and a log of one line: the note that
    the folder was created is written before the log is cleared, so it is
    never shown. *)
Theorem started_download_resets_the_window
    (g g' : YouTubeDownloaderApp.t) (job : DownloadWorker.t) (w w' : world) :
  YouTubeDownloaderApp.start_download g w = (w', Ok (g', Some job)) ->
  YouTubeDownloaderApp.output_log g' = ["Starting video download process..."]
  /\ YouTubeDownloaderApp.download_button_enabled g' = false
  /\ YouTubeDownloaderApp.url_input_enabled g' = false
  /\ YouTubeDownloaderApp.format_combo_enabled g' = false
  /\ YouTubeDownloaderApp.progress_bar_value g' = 0
  /\ YouTubeDownloaderApp.progress_bar_format g' = "Downloading video..."
  /\ YouTubeDownloaderApp.message_boxes g' = YouTubeDownloaderApp.message_boxes g
  /\ trace w' = trace w.
Proof.
  unfold YouTubeDownloaderApp.start_download.
  destruct (String.eqb (Py.strip (YouTubeDownloaderApp.url_input_text g))
              EmptyString); [ discriminate | ].
  intros Hrun.
  apply bind_ok_inv in Hrun as (w1 & f & Hget & Hrun).
  unfold get_fs in Hget. injection Hget as <- <-.
  apply bind_ok_inv in Hrun as (w2 & g1 & Hdir & Hrun).
  unfold ret in Hrun. injection Hrun as <- <- _.
  assert (Hg1 : YouTubeDownloaderApp.message_boxes g1
                = YouTubeDownloaderApp.message_boxes g
                /\ trace w2 = trace w).
  { destruct (negb (path_exists (fs w) "downloads")).
    - apply bind_ok_inv in Hdir as (w3 & [] & Hmk & Hdir).
      unfold ret in Hdir. injection Hdir as <- <-.
      split; [ reflexivity | ].
      unfold makedirs, bind, get_fs, put_fs, raise in Hmk.
      destruct (fs w !! "downloads"); [ discriminate | ].
      injection Hmk as <-. reflexivity.
    - unfold ret in Hdir. injection Hdir as <- <-. split; reflexivity. }
  destruct Hg1 as [Hboxes Htrace].
  repeat (split; [ reflexivity | ]).
  split; [ exact Hboxes | exact Htrace ].
Qed.

Lemma start_download_needs_a_url_witness :
  YouTubeDownloaderApp.start_download Sample.blank_window Sample.start
  = (Sample.start,
     Ok (YouTubeDownloaderApp.message_box "Empty Input"
           "Please enter a YouTube video URL." Sample.blank_window, None)).
Proof.
  apply (proj1 (start_download_needs_a_url Sample.blank_window Sample.start)).
  vm_compute. reflexivity.
Defined.

Lemma started_download_uses_a_preset_witness :
  DownloadWorker.command Sample.silent_env Sample.job
  = ([ YouTubeDownloaderApp.yt_dlp_exec Sample.window;
       "--external-downloader"; "aria2c";
       "--external-downloader-args"; "-x 16 -s 16 -k 1M";
       "--ffmpeg-location"; YouTubeDownloaderApp.ffmpeg_exec Sample.window;
       "-o";
       OsPath.join (sys_platform Sample.silent_env) "downloads"
         "%(title)s.%(ext)s" ]
     ++ (if Py.has_substring "mp3"
              (Py.lower (YouTubeDownloaderApp.format_combo_text Sample.window))
         then ["-x"; "--audio-format"; "mp3"; "--audio-quality"; "0"]
         else ["-f"; DownloadWorker.best_selector])
     ++ [Py.strip (YouTubeDownloaderApp.url_input_text Sample.window)])%list.
Proof.
  eapply (started_download_uses_a_preset Sample.silent_env Sample.window _
            Sample.job Sample.start _).
  vm_compute. reflexivity.
Defined.

Lemma started_download_resets_witness :
  exists g' w',
    YouTubeDownloaderApp.start_download Sample.window Sample.start
    = (w', Ok (g', Some Sample.job))
    /\ YouTubeDownloaderApp.output_log g'
       = ["Starting video download process..."]
    /\ YouTubeDownloaderApp.download_button_enabled g' = false
    /\ YouTubeDownloaderApp.url_input_enabled g' = false
    /\ YouTubeDownloaderApp.format_combo_enabled g' = false
    /\ YouTubeDownloaderApp.progress_bar_value g' = 0
    /\ YouTubeDownloaderApp.progress_bar_format g' = "Downloading video..."
    /\ YouTubeDownloaderApp.message_boxes g'
       = YouTubeDownloaderApp.message_boxes Sample.window
    /\ trace w' = trace Sample.start.
Proof.
  assert (Hrun : YouTubeDownloaderApp.start_download Sample.window Sample.start
                 = (fst (YouTubeDownloaderApp.start_download Sample.window
                           Sample.start),
                    Ok (match snd (YouTubeDownloaderApp.start_download
                                     Sample.window Sample.start) with
                        | Ok (g', _) => g'
                        | Raise _ => Sample.window
                        end,
                        Some Sample.job)))
    by (vm_compute; reflexivity).
  eexists _, _. split; [ exact Hrun | ].
  exact (started_download_resets_the_window Sample.window _ Sample.job
           Sample.start _ Hrun).
Defined.

(** ** The window after the setup *)

Lemma append_nonempty (s t : string) :
  t <> EmptyString -> s +:+ t <> EmptyString.
Proof.
  intros Ht Heq. apply (f_equal String.length) in Heq.
  rewrite length_append in Heq. destruct t; [ contradiction | ].
  simpl in Heq. lia.
Qed.

Lemma join_nonempty (platform a b : string) :
  b <> EmptyString -> OsPath.join platform a b <> EmptyString.
Proof.
  intros Hb. unfold OsPath.join.
  destruct (OsPath.splitdrive platform a) as [drive path].
  destruct (OsPath.starts_with_sep platform b);
    [ apply append_nonempty; exact Hb | ].
  destruct (String.eqb path EmptyString || OsPath.ends_with_sep platform path);
    [ apply append_nonempty; exact Hb | ].
  apply append_nonempty, append_nonempty. exact Hb.
Qed.

(** In one directory, [find_executable] gives a true value exactly when the
    tool is found. *)
Lemma find_in_one_directory (E : env) (f : gmap string node)
    (dir name : string) :
  name <> EmptyString ->
  truthy (find_executable E f name [dir]) = tool_found E f dir name.
Proof.
  intros Hname. unfold tool_found, executable_file. simpl.
  destruct (isfile f (OsPath.join (sys_platform E) dir name)
            && access_X_OK E f (OsPath.join (sys_platform E) dir name)).
  - simpl. apply negb_true_iff, String.eqb_neq, join_nonempty. exact Hname.
  - rewrite <- andb_assoc. cbn [orb].
    destruct (String.eqb (sys_platform E) "win32"
              && (isfile f (OsPath.join (sys_platform E) dir (name +:+ ".exe"))
                  && access_X_OK E f
                       (OsPath.join (sys_platform E) dir (name +:+ ".exe"))));
      [ | reflexivity ].
    simpl. apply negb_true_iff, String.eqb_neq, join_nonempty.
    apply append_nonempty. discriminate.
Qed.

(** X15.  After a tool setup the three inputs of the window are enabled
    exactly when the worker reported success and both yt-dlp and ffmpeg are
    found as executable files of the tools directory; ffprobe is not
    looked for. *)
Theorem setup_enables_inputs_iff_tools_found (E : env) (tools_dir : string)
    (f : gmap string node) (success : bool) (message : string)
    (g : YouTubeDownloaderApp.t) (attrs : YouTubeDownloaderApp.tool_attrs) :
  let g' :=
    fst (YouTubeDownloaderApp.on_tool_setup_finished E tools_dir f success
           message
           (fst (YouTubeDownloaderApp.start_tool_setup tools_dir g), attrs)) in
  let ready :=
    success && tool_found E f tools_dir "yt-dlp"
    && tool_found E f tools_dir "ffmpeg" in
  YouTubeDownloaderApp.download_button_enabled g' = ready
  /\ YouTubeDownloaderApp.url_input_enabled g' = ready
  /\ YouTubeDownloaderApp.format_combo_enabled g' = ready
  /\ YouTubeDownloaderApp.progress_bar_value g' = (if ready then 100 else 0)
  /\ (ready = false ->
      exists title text,
        last (YouTubeDownloaderApp.message_boxes g') = Some (title, text)).
Proof.
  unfold YouTubeDownloaderApp.on_tool_setup_finished,
    YouTubeDownloaderApp.start_tool_setup.
  cbn [fst snd].
  rewrite !find_in_one_directory by discriminate.
  destruct success; cbn [andb].
  - destruct (tool_found E f tools_dir "yt-dlp"
              && tool_found E f tools_dir "ffmpeg"); cbn [fst].
    + repeat (split; [ reflexivity | ]). discriminate.
    + repeat (split; [ reflexivity | ]). intros _.
      eexists _, _. cbn. apply last_snoc.
  - cbn [fst]. repeat (split; [ reflexivity | ]). intros _.
    eexists _, _. cbn. apply last_snoc.
Qed.

(** X16.  The provisioner takes a tool for present when its path exists;
    the window asks for an executable file.  So on a tools directory that
    holds the three paths, of which yt-dlp or ffmpeg is not an executable
    file, the run reports success without a request, and the window
    answers it with the error box [Setup Error] and stays disabled. *)
Theorem provisioned_tools_can_fail_the_check (E : env) (self : SetupWorker.t)
    (w : world) (g : YouTubeDownloaderApp.t)
    (attrs : YouTubeDownloaderApp.tool_attrs) :
  path_exists (fs w) (SetupWorker.tools_dir self) = true ->
  path_exists (fs w) (SetupWorker.yt_dlp_path E self) = true ->
  path_exists (fs w) (SetupWorker.ffmpeg_path_in_tools E self) = true ->
  path_exists (fs w) (SetupWorker.ffprobe_path_in_tools E self) = true ->
  tool_found E (fs w) (SetupWorker.tools_dir self) "yt-dlp"
  && tool_found E (fs w) (SetupWorker.tools_dir self) "ffmpeg" = false ->
  exists events,
    SetupWorker.run E self w
    = (MkWorld (fs w)
         (trace w ++ events ++
          [setup_finished true "Tool setup completed successfully!"]),
       Ok tt)
    /\ requests events = []
    /\ (let g' :=
          fst (YouTubeDownloaderApp.deliver_setup_all E
                 (SetupWorker.tools_dir self) (fs w)
                 (fst (YouTubeDownloaderApp.start_tool_setup
                         (SetupWorker.tools_dir self) g), attrs)
                 (events ++
                  [setup_finished true "Tool setup completed successfully!"])) in
        YouTubeDownloaderApp.download_button_enabled g' = false
        /\ YouTubeDownloaderApp.url_input_enabled g' = false
        /\ YouTubeDownloaderApp.format_combo_enabled g' = false
        /\ YouTubeDownloaderApp.progress_bar_format g' = "Setup Failed!"
        /\ last (YouTubeDownloaderApp.message_boxes g')
           = Some ("Setup Error",
                   "Required tools not found after setup. Please check logs.")).
Proof.
  intros Hdir Hyt Hffmpeg Hffprobe Hnot.
  exists [ update_status (SetupWorker.yt_dlp_filename E +:+ " already exists.");
           update_status "ffmpeg and ffprobe already exist." ].
  split; [ | split; [ reflexivity | ] ].
  - rewrite (run_when_provisioned E self w Hyt Hffmpeg Hffprobe), Hdir.
    reflexivity.
  - unfold YouTubeDownloaderApp.deliver_setup_all,
      YouTubeDownloaderApp.start_tool_setup.
    cbn [fst snd app fold_left YouTubeDownloaderApp.deliver_setup].
    unfold YouTubeDownloaderApp.on_tool_setup_finished.
    rewrite !find_in_one_directory by discriminate.
    rewrite Hnot. cbn [fst].
    repeat (split; [ reflexivity | ]). cbn. apply last_snoc.
Qed.

Lemma provisioned_tools_can_fail_witness :
  exists events,
    SetupWorker.run (Sample.offline "linux") Sample.tools Sample.unusable
    = (MkWorld (fs Sample.unusable)
         (trace Sample.unusable ++ events ++
          [setup_finished true "Tool setup completed successfully!"]),
       Ok tt)
    /\ requests events = []
    /\ (let g' :=
          fst (YouTubeDownloaderApp.deliver_setup_all (Sample.offline "linux")
                 (SetupWorker.tools_dir Sample.tools) (fs Sample.unusable)
                 (fst (YouTubeDownloaderApp.start_tool_setup
                         (SetupWorker.tools_dir Sample.tools) Sample.window),
                  (None, None))
                 (events ++
                  [setup_finished true "Tool setup completed successfully!"])) in
        YouTubeDownloaderApp.download_button_enabled g' = false
        /\ YouTubeDownloaderApp.url_input_enabled g' = false
        /\ YouTubeDownloaderApp.format_combo_enabled g' = false
        /\ YouTubeDownloaderApp.progress_bar_format g' = "Setup Failed!"
        /\ last (YouTubeDownloaderApp.message_boxes g')
           = Some ("Setup Error",
                   "Required tools not found after setup. Please check logs.")).
Proof.
  apply (provisioned_tools_can_fail_the_check (Sample.offline "linux")
           Sample.tools Sample.unusable Sample.window (None, None));
    vm_compute; reflexivity.
Defined.

(** ** What a tool setup leaves in place *)

Lemma keeps_path_catch {A} (p : string) (c : M A) (h : exn -> M A) :
  keeps_path p c -> (forall e, keeps_path p (h e)) ->
  keeps_path p (catch c h).
Proof.
  intros Hc Hh w w' r Hrun Hp. unfold catch in Hrun.
  destruct (c w) as [w1 [a | e]] eqn:Hcw.
  - injection Hrun as <- <-. exact (Hc w w1 _ Hcw Hp).
  - exact (Hh e w1 w' r Hrun (Hc w w1 _ Hcw Hp)).
Qed.

Lemma keeps_path_open_wb (p q : string) : keeps_path p (open_wb q).
Proof.
  intros w w' r Hrun Hp. unfold open_wb, bind, get_fs, put_fs, raise in Hrun.
  destruct (fs w !! q) as [[data mode |] |]; injection Hrun as <- <-; simpl;
    try exact Hp; apply path_exists_insert; exact Hp.
Qed.

Lemma keeps_path_write_chunk (p q chunk : string) :
  keeps_path p (write_chunk q chunk).
Proof.
  intros w w' r Hrun Hp. unfold write_chunk, bind, get_fs, put_fs, ret in Hrun.
  destruct (fs w !! q) as [[data mode |] |]; injection Hrun as <- <-; simpl;
    try exact Hp; apply path_exists_insert; exact Hp.
Qed.

Lemma keeps_path_remove (p q : string) : q <> p -> keeps_path p (remove q).
Proof.
  intros Hne w w' r Hrun Hp. unfold remove, bind, get_fs, put_fs, raise in Hrun.
  destruct (fs w !! q) as [[data mode |] |]; injection Hrun as <- <-; simpl;
    try exact Hp.
  rewrite path_exists_delete_ne by exact Hne. exact Hp.
Qed.

Lemma keeps_path_download_chunks (p destination tool_name : string)
    (total : Z) (chunks : list string) (n : Z) :
  keeps_path p
    (SetupWorker.download_chunks destination tool_name total chunks n).
Proof.
  revert n. induction chunks as [| chunk rest IH]; intros n; simpl.
  - apply keeps_path_ret.
  - destruct (String.eqb chunk EmptyString); [ apply IH | ].
    apply keeps_path_bind; [ apply keeps_path_write_chunk | intros _ ].
    apply keeps_path_bind; [ | intros _; apply IH ].
    apply keeps_fs_keeps_path, keeps_fs_chunk_progress.
Qed.

(** A download removes nothing. *)
Lemma keeps_path_download_file (E : env) (p url destination tool_name : string) :
  keeps_path p (SetupWorker._download_file E url destination tool_name).
Proof.
  unfold SetupWorker._download_file. apply keeps_path_catch.
  - apply keeps_path_bind; [ apply keeps_path_emit | intros _ ].
    destruct (http E url) as [msg | content_length chunks broken];
      [ apply keeps_path_raise | ].
    apply keeps_path_bind; [ apply keeps_path_lift | intros total ].
    apply keeps_path_bind; [ apply keeps_path_open_wb | intros _ ].
    apply keeps_path_bind; [ apply keeps_path_download_chunks | intros _ ].
    apply keeps_path_bind; [ | intros _; apply keeps_path_emit ].
    destruct broken; [ apply keeps_path_raise | apply keeps_path_ret ].
  - intros e. destruct (decide (exc_class e = RequestException));
      apply keeps_path_raise.
Qed.

Section Outside.

Variable E : env.
Variable self : SetupWorker.t.

Let archive : string := SetupWorker.temp_archive_path E self.
Let scratch : string := SetupWorker.temp_extract_dir E self.

(** What [find_executable] finds below the extracted root lies in the
    scratch directory. *)
Lemma found_in_scratch (f : gmap string node) (name root x : string) :
  Py.in_range 97 122 (match name with String c _ => c | _ => "000"%char end)
  = true ->
  String.prefix scratch root = true ->
  find_executable E f name [root; OsPath.join (sys_platform E) root "bin"]
  = Some x ->
  String.prefix scratch x = true.
Proof.
  intros Hletter Hroot Hfind.
  assert (Hrel : OsPath.starts_with_sep (sys_platform E) name = false
                 /\ OsPath.starts_with_sep (sys_platform E) (name +:+ ".exe")
                    = false).
  { destruct name as [| c name]; [ discriminate | ].
    split; apply letter_not_sep; exact Hletter. }
  destruct Hrel as [Hname Hexe].
  destruct (find_executable_prefix E f name x _ Hname Hexe Hfind)
    as (d & Hin & Hp).
  assert (Hd : String.prefix scratch d = true).
  { destruct Hin as [<- | [<- | []]]; [ exact Hroot | ].
    apply (prefix_trans _ _ _ Hroot). apply prefix_join.
    apply letter_not_sep. reflexivity. }
  exact (prefix_trans _ _ _ Hd Hp).
Qed.

Lemma outside_is_not_inside (p x : string) :
  String.prefix scratch p = false -> String.prefix scratch x = true -> x <> p.
Proof. intros Hp Hx ->. rewrite Hx in Hp. discriminate. Qed.

Variable p : string.
Hypothesis Houtside : String.prefix scratch p = false.

Lemma keeps_outside_locate_and_move (root : string) :
  String.prefix scratch root = true ->
  keeps_path p (SetupWorker.locate_and_move E self root).
Proof.
  intros Hroot. unfold SetupWorker.locate_and_move.
  apply keeps_path_bind; [ apply keeps_path_get_fs | intros f ].
  destruct (negb (truthy (find_executable E f SetupWorker.ffmpeg_name _))
            || negb (truthy (find_executable E f SetupWorker.ffprobe_name _)));
    [ apply keeps_path_raise | ].
  destruct (find_executable E f SetupWorker.ffmpeg_name _)
    as [ffmpeg_found |] eqn:Hffmpeg; [ | apply keeps_path_ret ].
  destruct (find_executable E f SetupWorker.ffprobe_name _)
    as [ffprobe_found |] eqn:Hffprobe; [ | apply keeps_path_ret ].
  apply keeps_path_bind.
  { apply keeps_path_move. apply outside_is_not_inside; [ exact Houtside | ].
    exact (found_in_scratch f SetupWorker.ffmpeg_name root _ eq_refl Hroot
             Hffmpeg). }
  intros _. apply keeps_path_bind.
  { apply keeps_path_move. apply outside_is_not_inside; [ exact Houtside | ].
    exact (found_in_scratch f SetupWorker.ffprobe_name root _ eq_refl Hroot
             Hffprobe). }
  intros _. apply keeps_path_bind; [ | intros _; apply keeps_path_emit ].
  destruct (negb (String.eqb (sys_platform E) "win32"));
    [ | apply keeps_path_ret ].
  apply keeps_path_bind; [ apply keeps_path_chmod | intros _ ].
  apply keeps_path_chmod.
Qed.

Hypothesis Hnot_archive : p <> archive.

Lemma keeps_outside_clean_up : keeps_path p (SetupWorker.clean_up E self).
Proof.
  unfold SetupWorker.clean_up.
  apply keeps_path_bind; [ apply keeps_path_get_fs | intros f ].
  apply keeps_path_bind.
  - destruct (path_exists f (SetupWorker.temp_extract_dir E self));
      [ | apply keeps_path_ret ].
    apply keeps_path_bind; [ | intros _; apply keeps_path_emit ].
    apply keeps_path_rmtree. exact Houtside.
  - intros _. apply keeps_path_bind; [ | intros _; apply keeps_path_emit ].
    apply keeps_path_remove. intros Heq. apply Hnot_archive. symmetry.
    exact Heq.
Qed.

Lemma keeps_outside_install : keeps_path p (SetupWorker.install_ffmpeg E self).
Proof.
  unfold SetupWorker.install_ffmpeg.
  apply (keeps_path_bind_value p (fun root => String.prefix scratch root = true)).
  - apply keeps_path_extract. exact Houtside.
  - intros w w1 root Hrun. exact (extract_returns_in_scratch E _ _ _ _ _ Hrun).
  - intros root Hroot.
    apply keeps_path_bind;
      [ apply keeps_outside_locate_and_move; exact Hroot | intros _ ].
    apply keeps_outside_clean_up.
Qed.

Lemma keeps_outside_provide_ffmpeg :
  keeps_path p (SetupWorker.provide_ffmpeg E self).
Proof.
  unfold SetupWorker.provide_ffmpeg.
  apply keeps_path_bind; [ apply keeps_path_get_fs | intros f ].
  destruct (negb (path_exists f _) || negb (path_exists f _));
    [ | apply keeps_path_emit ].
  apply keeps_path_bind; [ | intros _; apply keeps_outside_install ].
  unfold SetupWorker.fetch_archive.
  apply keeps_path_bind; [ apply keeps_path_emit | intros _ ].
  apply keeps_path_bind; [ apply keeps_path_download_file | intros _ ].
  apply keeps_path_emit.
Qed.

Lemma keeps_path_provide_yt_dlp (q : string) :
  keeps_path q (SetupWorker.provide_yt_dlp E self).
Proof.
  unfold SetupWorker.provide_yt_dlp.
  apply keeps_path_bind; [ apply keeps_path_get_fs | intros f ].
  destruct (negb (path_exists f _)); [ | apply keeps_path_emit ].
  apply keeps_path_bind; [ apply keeps_path_emit | intros _ ].
  apply keeps_path_bind; [ apply keeps_path_download_file | intros _ ].
  apply keeps_path_bind; [ | intros _; apply keeps_path_emit ].
  destruct (negb (String.eqb (sys_platform E) "win32"));
    [ apply keeps_path_chmod | apply keeps_path_ret ].
Qed.



End Outside.



(** ** What a successful setup has installed *)

Lemma join_prefix_cancel (platform a b c : string) :
  OsPath.starts_with_sep platform b = false ->
  OsPath.starts_with_sep platform c = false ->
  String.prefix (OsPath.join platform a b) (OsPath.join platform a c)
  = String.prefix b c.
Proof.
  intros Hb Hc.
  rewrite (join_relative platform a b Hb), (join_relative platform a c Hc).
  apply prefix_append_cancel.
Qed.

Lemma join_differs (platform a b c : string) :
  OsPath.starts_with_sep platform b = false ->
  OsPath.starts_with_sep platform c = false ->
  String.prefix b c = false ->
  OsPath.join platform a b <> OsPath.join platform a c.
Proof.
  intros Hb Hc Hbc Heq.
  pose proof (join_prefix_cancel platform a b c Hb Hc) as H.
  rewrite Heq, prefix_refl, Hbc in H. discriminate.
Qed.

Section Installed.

Variable E : env.
Variable self : SetupWorker.t.

Let archive : string := SetupWorker.temp_archive_path E self.
Let scratch : string := SetupWorker.temp_extract_dir E self.

(** The three tools have their place beside the scratch directory and the
    archive. *)
Lemma tools_outside_scratch :
  String.prefix scratch (SetupWorker.yt_dlp_path E self) = false
  /\ String.prefix scratch (SetupWorker.ffmpeg_path_in_tools E self) = false
  /\ String.prefix scratch (SetupWorker.ffprobe_path_in_tools E self) = false.
Proof.
  unfold scratch, SetupWorker.temp_extract_dir, SetupWorker.yt_dlp_path,
    SetupWorker.ffmpeg_path_in_tools, SetupWorker.ffprobe_path_in_tools.
  split; [ | split ].
  - rewrite join_prefix_cancel;
      [ | apply letter_not_sep; reflexivity
        | apply (yt_dlp_filename_relative E) ].
    unfold SetupWorker.yt_dlp_filename.
    destruct (String.eqb (sys_platform E) "win32"); reflexivity.
  - rewrite join_prefix_cancel by (apply letter_not_sep; reflexivity).
    reflexivity.
  - rewrite join_prefix_cancel by (apply letter_not_sep; reflexivity).
    reflexivity.
Qed.

Lemma tools_are_not_the_archive :
  SetupWorker.yt_dlp_path E self <> archive
  /\ SetupWorker.ffmpeg_path_in_tools E self <> archive
  /\ SetupWorker.ffprobe_path_in_tools E self <> archive.
Proof.
  unfold archive, SetupWorker.temp_archive_path, SetupWorker.yt_dlp_path,
    SetupWorker.ffmpeg_path_in_tools, SetupWorker.ffprobe_path_in_tools.
  pose proof (archive_filename_relative E) as Hrel.
  split; [ | split ].
  - apply join_differs;
      [ apply (yt_dlp_filename_relative E) | exact Hrel | ].
    unfold SetupWorker.yt_dlp_filename, SetupWorker.ffmpeg_archive_filename.
    destruct (String.eqb (sys_platform E) "win32");
      [ | destruct (String.eqb (sys_platform E) "darwin") ]; reflexivity.
  - intros Heq. symmetry in Heq. revert Heq.
    apply join_differs;
      [ exact Hrel | apply letter_not_sep; reflexivity | ].
    unfold SetupWorker.ffmpeg_archive_filename.
    destruct (String.eqb (sys_platform E) "win32");
      [ | destruct (String.eqb (sys_platform E) "darwin") ]; reflexivity.
  - apply join_differs;
      [ apply letter_not_sep; reflexivity | exact Hrel | ].
    unfold SetupWorker.ffmpeg_archive_filename.
    destruct (String.eqb (sys_platform E) "win32");
      [ | destruct (String.eqb (sys_platform E) "darwin") ]; reflexivity.
Qed.

(** A move that succeeds leaves an entry at its destination. *)
Lemma move_creates (src dst : string) (w w' : world) :
  src <> dst ->
  move E src dst w = (w', Ok tt) ->
  path_exists (fs w') dst = true.
Proof.
  intros Hne. unfold move, bind, get_fs, put_fs, raise.
  destruct (isdir (fs w) dst) eqn:Hdir; cbn [andb].
  - destruct (path_exists (fs w) _); [ discriminate | ].
    destruct (fs w !! src); [ | discriminate ].
    intros [= <-]. cbn [fs]. apply path_exists_insert.
    rewrite path_exists_delete_ne by exact Hne.
    unfold isdir in Hdir. unfold path_exists.
    destruct (fs w !! dst); [ reflexivity | discriminate ].
  - destruct (fs w !! src); [ | discriminate ].
    intros [= <-]. cbn [fs]. apply path_exists_insert_eq.
Qed.

Lemma locate_and_move_installs (root : string) (w w' : world) :
  String.prefix scratch root = true ->
  SetupWorker.locate_and_move E self root w = (w', Ok tt) ->
  path_exists (fs w') (SetupWorker.ffmpeg_path_in_tools E self) = true
  /\ path_exists (fs w') (SetupWorker.ffprobe_path_in_tools E self) = true.
Proof.
  intros Hroot. unfold SetupWorker.locate_and_move.
  unfold bind at 1. unfold get_fs at 1.
  destruct (find_executable E (fs w) SetupWorker.ffmpeg_name _)
    as [ffmpeg_found |] eqn:Hffmpeg; [ | discriminate ].
  destruct (find_executable E (fs w) SetupWorker.ffprobe_name _)
    as [ffprobe_found |] eqn:Hffprobe;
    [ | destruct (negb (truthy (Some ffmpeg_found))); discriminate ].
  destruct (negb (truthy (Some ffmpeg_found))
            || negb (truthy (Some ffprobe_found))); [ discriminate | ].
  pose proof tools_outside_scratch as (_ & Hout1 & Hout2).
  pose proof (found_in_scratch E self (fs w) SetupWorker.ffmpeg_name root _
                eq_refl Hroot Hffmpeg) as Hin1.
  pose proof (found_in_scratch E self (fs w) SetupWorker.ffprobe_name root _
                eq_refl Hroot Hffprobe) as Hin2.
  intros Hrun.
  apply bind_ok_inv in Hrun as (w1 & [] & Hmove1 & Hrun).
  apply bind_ok_inv in Hrun as (w2 & [] & Hmove2 & Hrun).
  apply bind_ok_inv in Hrun as (w3 & [] & Hchmod & Hrun).
  unfold emit in Hrun. injection Hrun as <-. cbn [fs].
  pose proof (move_creates _ _ _ _
                (outside_is_not_inside E self _ _ Hout1 Hin1) Hmove1) as H1.
  pose proof (keeps_path_move E _ _ _
                (outside_is_not_inside E self _ _ Hout1 Hin2)
                w1 w2 _ Hmove2 H1) as H1'.
  pose proof (move_creates _ _ _ _
                (outside_is_not_inside E self _ _ Hout2 Hin2) Hmove2) as H2.
  assert (Hkeep : forall q,
             keeps_path q
               (if negb (String.eqb (sys_platform E) "win32")
                then chmod_executable (SetupWorker.ffmpeg_path_in_tools E self) ;;
                     chmod_executable (SetupWorker.ffprobe_path_in_tools E self)
                else ret tt)).
  { intros q. destruct (negb (String.eqb (sys_platform E) "win32"));
      [ | apply keeps_path_ret ].
    apply keeps_path_bind; [ apply keeps_path_chmod | intros _ ].
    apply keeps_path_chmod. }
  split; [ exact (Hkeep _ w2 w3 _ Hchmod H1')
         | exact (Hkeep _ w2 w3 _ Hchmod H2) ].
Qed.

Lemma provide_ffmpeg_installs (w w' : world) :
  SetupWorker.provide_ffmpeg E self w = (w', Ok tt) ->
  path_exists (fs w') (SetupWorker.ffmpeg_path_in_tools E self) = true
  /\ path_exists (fs w') (SetupWorker.ffprobe_path_in_tools E self) = true.
Proof.
  unfold SetupWorker.provide_ffmpeg.
  unfold bind at 1. unfold get_fs at 1.
  destruct (path_exists (fs w) (SetupWorker.ffmpeg_path_in_tools E self))
    eqn:H1;
    destruct (path_exists (fs w) (SetupWorker.ffprobe_path_in_tools E self))
      eqn:H2; cbn [negb orb];
    try (unfold emit; intros [= <-]; cbn [fs]; split; assumption).
  all: intros Hrun;
    apply bind_ok_inv in Hrun as (w1 & [] & _ & Hrun);
    unfold SetupWorker.install_ffmpeg in Hrun;
    apply bind_ok_inv in Hrun as (w2 & root & Hextract & Hrun);
    apply bind_ok_inv in Hrun as (w3 & [] & Hmove & Hclean);
    pose proof (extract_returns_in_scratch E _ _ _ _ _ Hextract) as Hroot;
    destruct (locate_and_move_installs root w2 w3 Hroot Hmove) as [Ha Hb];
    pose proof tools_outside_scratch as (_ & Hout1 & Hout2);
    pose proof tools_are_not_the_archive as (_ & Hna1 & Hna2);
    split;
    [ exact (keeps_outside_clean_up E self _ Hout1 Hna1 w3 w' _ Hclean Ha)
    | exact (keeps_outside_clean_up E self _ Hout2 Hna2 w3 w' _ Hclean Hb) ].
Qed.

Lemma provide_yt_dlp_installs (w w' : world) :
  SetupWorker.provide_yt_dlp E self w = (w', Ok tt) ->
  path_exists (fs w') (SetupWorker.yt_dlp_path E self) = true.
Proof.
  unfold SetupWorker.provide_yt_dlp.
  unfold bind at 1. unfold get_fs at 1.
  destruct (path_exists (fs w) (SetupWorker.yt_dlp_path E self)) eqn:Hyt;
    cbn [negb].
  - unfold emit. intros [= <-]. exact Hyt.
  - intros Hrun.
    apply bind_ok_inv in Hrun as (w1 & [] & _ & Hrun).
    apply bind_ok_inv in Hrun as (w2 & [] & Hdl & Hrun).
    apply bind_ok_inv in Hrun as (w3 & [] & Hchmod & Hrun).
    unfold emit in Hrun. injection Hrun as <-. cbn [fs].
    pose proof (download_writes_destination E _ _ _ _ _ Hdl) as Hp.
    destruct (negb (String.eqb (sys_platform E) "win32")).
    + exact (keeps_path_chmod _ _ w2 w3 _ Hchmod Hp).
    + unfold ret in Hchmod. injection Hchmod as <-. exact Hp.
Qed.

(** A run whose last event is the success went through its [try] block. *)
Lemma run_success_inv (w w' : world) (r : result unit) (message : string) :
  SetupWorker.run E self w = (w', r) ->
  last (trace w') = Some (setup_finished true message) ->
  exists w1, SetupWorker.run_body E self w = (w1, Ok tt) /\ fs w' = fs w1.
Proof.
  intros Hrun Hlast.
  destruct (SetupWorker.run_body E self w) as [w1 [[] | e]] eqn:Hbody.
  - exists w1. split; [ reflexivity | ].
    unfold SetupWorker.run, catch in Hrun. rewrite Hbody in Hrun.
    injection Hrun as <- _. reflexivity.
  - rewrite (run_failure E self w w1 e Hbody) in Hrun.
    injection Hrun as <- _. unfold after_event in Hlast. cbn [trace] in Hlast.
    rewrite last_snoc in Hlast. discriminate.
Qed.

End Installed.

(** The three paths after a run that reports success. *)
Lemma run_success_installs (E : env) (self : SetupWorker.t)
    (w w' : world) (r : result unit) (message : string) :
  SetupWorker.run E self w = (w', r) ->
  last (trace w') = Some (setup_finished true message) ->
  path_exists (fs w') (SetupWorker.yt_dlp_path E self) = true
  /\ path_exists (fs w') (SetupWorker.ffmpeg_path_in_tools E self) = true
  /\ path_exists (fs w') (SetupWorker.ffprobe_path_in_tools E self) = true.
Proof.
  intros Hrun Hlast.
  destruct (run_success_inv E self w w' r message Hrun Hlast)
    as (w1 & Hbody & ->).
  unfold SetupWorker.run_body in Hbody.
  apply bind_ok_inv in Hbody as (wa & [] & _ & Hbody).
  apply bind_ok_inv in Hbody as (wb & [] & Hyt & Hbody).
  apply bind_ok_inv in Hbody as (wc & [] & Hffmpeg & Hbody).
  unfold emit in Hbody. injection Hbody as <-. cbn [fs].
  pose proof (provide_yt_dlp_installs E self wa wb Hyt) as Hp.
  destruct (provide_ffmpeg_installs E self wb wc Hffmpeg) as [Ha Hb].
  destruct (tools_outside_scratch E self) as (Hout & _ & _).
  destruct (tools_are_not_the_archive E self) as (Hna & _ & _).
  split; [ | split; [ exact Ha | exact Hb ] ].
  exact (keeps_outside_provide_ffmpeg E self _ Hout Hna wb wc _ Hffmpeg Hp).
Qed.

(** ** The requests of a tool setup *)








Section SetupEvents.

Variable E : env.
Variable self : SetupWorker.t.





End SetupEvents.


(** ** What an installation of FFmpeg leaves behind *)

Lemma chmod_frame (p q : string) (w w' : world) (r : result unit) :
  chmod_executable p w = (w', r) -> q <> p -> fs w' !! q = fs w !! q.
Proof.
  unfold chmod_executable, bind, get_fs, put_fs, raise, ret.
  intros Hrun Hne.
  destruct (fs w !! p) as [[data mode |] |]; injection Hrun as <- _;
    try reflexivity.
  cbn [fs]. apply lookup_insert_ne. intros Heq. apply Hne. symmetry.
  exact Heq.
Qed.

Section Leftovers.

Variable E : env.
Variable self : SetupWorker.t.

Let archive : string := SetupWorker.temp_archive_path E self.
Let scratch : string := SetupWorker.temp_extract_dir E self.

(** The second block of [run] touches the path of yt-dlp only. *)
Lemma provide_yt_dlp_frame (q : string) (w w' : world) :
  SetupWorker.provide_yt_dlp E self w = (w', Ok tt) ->
  q <> SetupWorker.yt_dlp_path E self ->
  fs w' !! q = fs w !! q.
Proof.
  unfold SetupWorker.provide_yt_dlp.
  unfold bind at 1. unfold get_fs at 1.
  destruct (path_exists (fs w) (SetupWorker.yt_dlp_path E self)); cbn [negb].
  - unfold emit. intros [= <-] _. reflexivity.
  - intros Hrun Hne.
    apply bind_ok_inv in Hrun as (w1 & [] & Hemit & Hrun).
    unfold emit in Hemit. injection Hemit as <-.
    apply bind_ok_inv in Hrun as (w2 & [] & Hdl & Hrun).
    apply bind_ok_inv in Hrun as (w3 & [] & Hchmod & Hrun).
    unfold emit in Hrun. injection Hrun as <-. cbn [fs].
    destruct (http E (SetupWorker.yt_dlp_url E))
      as [msg | content_length chunks broken] eqn:Hhttp.
    + rewrite (download_http_error E _ _ _ _ (MkWorld _ _) Hhttp) in Hdl.
      discriminate.
    + destruct (download_file_fs E _ _ _ _ _ _ _ _ Hhttp Hdl) as [_ Hfs].
      cbn [fs] in Hfs.
      assert (H3 : fs w3 !! q = fs w2 !! q).
      { destruct (negb (String.eqb (sys_platform E) "win32")).
        - exact (chmod_frame _ _ _ _ _ Hchmod Hne).
        - unfold ret in Hchmod. injection Hchmod as <-. reflexivity. }
      rewrite H3, Hfs. apply lookup_insert_ne.
      intros Heq. apply Hne. symmetry. exact Heq.
Qed.

(** A clean-up that succeeds leaves no scratch directory. *)
Lemma clean_up_scratch (w w' : world) :
  SetupWorker.clean_up E self w = (w', Ok tt) ->
  path_exists (fs w') scratch = false.
Proof.
  unfold SetupWorker.clean_up. intros Hrun.
  apply bind_ok_inv in Hrun as (w0 & f & Hget & Hrun).
  unfold get_fs in Hget. injection Hget as <- <-.
  apply bind_ok_inv in Hrun as (w1 & [] & Hfirst & Hrun).
  apply bind_ok_inv in Hrun as (w2 & [] & Hremove & Hrun).
  unfold emit in Hrun. injection Hrun as <-. cbn [fs].
  assert (H1 : path_exists (fs w1) scratch = false).
  { fold scratch in Hfirst.
    destruct (path_exists (fs w) scratch) eqn:Hex.
    - apply bind_ok_inv in Hfirst as (wa & [] & Hrm & Hfirst).
      unfold emit in Hfirst. injection Hfirst as <-. cbn [fs].
      unfold rmtree, bind, get_fs, put_fs, raise in Hrm.
      destruct (fs w !! scratch) as [[data mode |] |]; try discriminate.
      injection Hrm as <-. cbn [fs]. unfold path_exists.
      rewrite without_tree_self. reflexivity.
    - unfold ret in Hfirst. injection Hfirst as <-. exact Hex. }
  unfold remove, bind, get_fs, put_fs, raise in Hremove.
  destruct (fs w1 !! SetupWorker.temp_archive_path E self)
    as [[data mode |] |]; try discriminate.
  injection Hremove as <-. cbn [fs].
  rewrite path_exists_delete_ne; [ exact H1 | ].
  intros Heq. pose proof (archive_outside_scratch E self) as Hout.
  rewrite Heq in Hout. unfold scratch in Hout.
  rewrite prefix_refl in Hout. discriminate.
Qed.

Lemma tools_differ :
  SetupWorker.ffmpeg_path_in_tools E self <> SetupWorker.yt_dlp_path E self
  /\ SetupWorker.ffprobe_path_in_tools E self <> SetupWorker.yt_dlp_path E self
  /\ SetupWorker.ffmpeg_path_in_tools E self <> SetupWorker.tools_dir self
  /\ SetupWorker.ffprobe_path_in_tools E self <> SetupWorker.tools_dir self.
Proof.
  unfold SetupWorker.ffmpeg_path_in_tools, SetupWorker.ffprobe_path_in_tools,
    SetupWorker.yt_dlp_path.
  destruct (yt_dlp_filename_relative E) as [Hrel _].
  split; [ | split; [ | split ] ].
  - apply join_differs; [ apply letter_not_sep; reflexivity | exact Hrel | ].
    unfold SetupWorker.yt_dlp_filename.
    destruct (String.eqb (sys_platform E) "win32"); reflexivity.
  - apply join_differs; [ apply letter_not_sep; reflexivity | exact Hrel | ].
    unfold SetupWorker.yt_dlp_filename.
    destruct (String.eqb (sys_platform E) "win32"); reflexivity.
  - apply join_longer; [ apply letter_not_sep; reflexivity | discriminate ].
  - apply join_longer; [ apply letter_not_sep; reflexivity | discriminate ].
Qed.

(** The first two blocks of [run] leave a path other than the tools
    directory and yt-dlp as it is. *)
Lemma before_ffmpeg_frame (q : string) (w wb : world) :
  (SetupWorker.ensure_tools_dir self ;; SetupWorker.provide_yt_dlp E self) w
  = (wb, Ok tt) ->
  q <> SetupWorker.tools_dir self ->
  q <> SetupWorker.yt_dlp_path E self ->
  path_exists (fs wb) q = path_exists (fs w) q.
Proof.
  intros Hrun Hq1 Hq2.
  rewrite (bind_ok _ _ _ _ _ (ensure_tools_dir_run self w)) in Hrun.
  unfold path_exists.
  rewrite (provide_yt_dlp_frame q _ _ Hrun Hq2). cbn [fs].
  destruct (path_exists (fs w) (SetupWorker.tools_dir self));
    [ reflexivity | ].
  rewrite lookup_insert_ne; [ reflexivity | ].
  intros Heq. apply Hq1. symmetry. exact Heq.
Qed.

End Leftovers.

(** X20.  A tool setup that finds ffmpeg or ffprobe missing and reports
    success has cleaned up after itself: neither the downloaded archive
    nor the scratch directory is left. *)
Theorem successful_installation_leaves_no_leftovers (E : env)
    (self : SetupWorker.t) (w w' : world) (r : result unit)
    (message : string) :
  SetupWorker.run E self w = (w', r) ->
  last (trace w') = Some (setup_finished true message) ->
  path_exists (fs w) (SetupWorker.ffmpeg_path_in_tools E self) = false
  \/ path_exists (fs w) (SetupWorker.ffprobe_path_in_tools E self) = false ->
  path_exists (fs w') (SetupWorker.temp_archive_path E self) = false
  /\ path_exists (fs w') (SetupWorker.temp_extract_dir E self) = false.
Proof.
  intros Hrun Hlast Hmissing.
  destruct (run_success_inv E self w w' r message Hrun Hlast)
    as (w1 & Hbody & ->).
  unfold SetupWorker.run_body in Hbody.
  apply bind_ok_inv in Hbody as (wa & [] & Hens & Hbody).
  apply bind_ok_inv in Hbody as (wb & [] & Hyt & Hbody).
  apply bind_ok_inv in Hbody as (wc & [] & Hffmpeg & Hbody).
  unfold emit in Hbody. injection Hbody as <-. cbn [fs].
  assert (Hpre : (SetupWorker.ensure_tools_dir self ;;
                  SetupWorker.provide_yt_dlp E self) w = (wb, Ok tt)).
  { rewrite (bind_ok _ _ _ _ _ Hens). exact Hyt. }
  destruct (tools_differ E self) as (Hd1 & Hd2 & Hd3 & Hd4).
  pose proof (before_ffmpeg_frame E self _ w wb Hpre Hd3 Hd1) as Hsame1.
  pose proof (before_ffmpeg_frame E self _ w wb Hpre Hd4 Hd2) as Hsame2.
  assert (Hmiss : negb (path_exists (fs wb)
                          (SetupWorker.ffmpeg_path_in_tools E self))
                  || negb (path_exists (fs wb)
                             (SetupWorker.ffprobe_path_in_tools E self))
                  = true).
  { rewrite Hsame1, Hsame2.
    destruct Hmissing as [-> | ->]; [ reflexivity | apply orb_true_r ]. }
  rewrite (provide_ffmpeg_missing E self wb Hmiss) in Hffmpeg.
  apply bind_ok_inv in Hffmpeg as (w3 & [] & Hfetch & Hinstall).
  split.
  - exact (install_archive E self w3 wc _ Hinstall
             (fetch_writes_archive E self wb w3 Hfetch)).
  - unfold SetupWorker.install_ffmpeg in Hinstall.
    apply bind_ok_inv in Hinstall as (w4 & root & _ & Hinstall).
    apply bind_ok_inv in Hinstall as (w5 & [] & _ & Hclean).
    exact (clean_up_scratch E self w5 wc Hclean).
Qed.

Lemma successful_installation_witness :
  path_exists
    (fs (fst (SetupWorker.run (Sample.linux_with Sample.nested_build)
                Sample.tools Sample.downloaded_stale)))
    (SetupWorker.temp_archive_path (Sample.linux_with Sample.nested_build)
       Sample.tools) = false
  /\ path_exists
       (fs (fst (SetupWorker.run (Sample.linux_with Sample.nested_build)
                   Sample.tools Sample.downloaded_stale)))
       (SetupWorker.temp_extract_dir (Sample.linux_with Sample.nested_build)
          Sample.tools) = false.
Proof.
  apply (successful_installation_leaves_no_leftovers
           (Sample.linux_with Sample.nested_build) Sample.tools
           Sample.downloaded_stale
           (fst (SetupWorker.run (Sample.linux_with Sample.nested_build)
                   Sample.tools Sample.downloaded_stale))
           (snd (SetupWorker.run (Sample.linux_with Sample.nested_build)
                   Sample.tools Sample.downloaded_stale))
           "Tool setup completed successfully!").
  - apply surjective_pairing.
  - vm_compute. reflexivity.
  - left. vm_compute. reflexivity.
Defined.

(** ** A setup after a successful setup *)

Lemma join_not_prefix (platform a b : string) :
  OsPath.starts_with_sep platform b = false ->
  b <> EmptyString ->
  String.prefix (OsPath.join platform a b) a = false.
Proof.
  intros Hrel Hb.
  destruct (String.prefix (OsPath.join platform a b) a) eqn:Hp;
    [ | reflexivity ].
  exfalso. apply (join_longer platform a b Hrel Hb).
  apply prefix_antisym; [ | exact Hp ].
  apply prefix_join. exact Hrel.
Qed.

(** A run that reports success leaves the tools directory in place. *)
Lemma run_success_keeps_tools_dir (E : env) (self : SetupWorker.t)
    (w w' : world) (r : result unit) (message : string) :
  SetupWorker.run E self w = (w', r) ->
  last (trace w') = Some (setup_finished true message) ->
  path_exists (fs w') (SetupWorker.tools_dir self) = true.
Proof.
  intros Hrun Hlast.
  destruct (run_success_inv E self w w' r message Hrun Hlast)
    as (w1 & Hbody & ->).
  unfold SetupWorker.run_body in Hbody.
  rewrite (bind_ok _ _ _ _ _ (ensure_tools_dir_run self w)) in Hbody.
  apply bind_ok_inv in Hbody as (wb & [] & Hyt & Hbody).
  apply bind_ok_inv in Hbody as (wc & [] & Hffmpeg & Hbody).
  unfold emit in Hbody. injection Hbody as <-. cbn [fs].
  assert (Ha : path_exists
                 (if path_exists (fs w) (SetupWorker.tools_dir self) then fs w
                  else <[SetupWorker.tools_dir self := Dir]> (fs w))
                 (SetupWorker.tools_dir self) = true).
  { destruct (path_exists (fs w) (SetupWorker.tools_dir self)) eqn:Hex;
      [ exact Hex | apply path_exists_insert_eq ]. }
  pose proof (keeps_path_provide_yt_dlp E self _ _ wb _ Hyt Ha) as Hb.
  refine (keeps_outside_provide_ffmpeg E self _ _ _ wb wc _ Hffmpeg Hb).
  - apply join_not_prefix; [ apply letter_not_sep; reflexivity | discriminate ].
  - intros Heq. symmetry in Heq. revert Heq.
    apply join_longer; [ apply archive_filename_relative | ].
    unfold SetupWorker.ffmpeg_archive_filename.
    destruct (String.eqb (sys_platform E) "win32");
      [ | destruct (String.eqb (sys_platform E) "darwin") ]; discriminate.
Qed.

(** X21.  A tool setup that follows a setup that reported success finds
    everything in place: it makes no request, changes nothing in the
    filesystem, emits the two status lines that say so and reports
    success again. *)
Theorem setup_after_success_changes_nothing (E : env) (self : SetupWorker.t)
    (w w' : world) (r : result unit) (message : string) :
  SetupWorker.run E self w = (w', r) ->
  last (trace w') = Some (setup_finished true message) ->
  SetupWorker.run E self w'
  = (MkWorld (fs w')
       (trace w' ++
        [ update_status (SetupWorker.yt_dlp_filename E +:+ " already exists.");
          update_status "ffmpeg and ffprobe already exist.";
          setup_finished true "Tool setup completed successfully!" ]),
     Ok tt).
Proof.
  intros Hrun Hlast.
  destruct (run_success_installs E self w w' r message Hrun Hlast)
    as (Hyt & Hffmpeg & Hffprobe).
  rewrite (run_when_provisioned E self w' Hyt Hffmpeg Hffprobe).
  rewrite (run_success_keeps_tools_dir E self w w' r message Hrun Hlast).
  reflexivity.
Qed.

Lemma setup_after_success_witness :
  SetupWorker.run (Sample.linux_with Sample.nested_build) Sample.tools
    (fst (SetupWorker.run (Sample.linux_with Sample.nested_build)
            Sample.tools Sample.start))
  = (MkWorld
       (fs (fst (SetupWorker.run (Sample.linux_with Sample.nested_build)
                   Sample.tools Sample.start)))
       (trace (fst (SetupWorker.run (Sample.linux_with Sample.nested_build)
                      Sample.tools Sample.start)) ++
        [ update_status
            (SetupWorker.yt_dlp_filename (Sample.linux_with Sample.nested_build)
             +:+ " already exists.");
          update_status "ffmpeg and ffprobe already exist.";
          setup_finished true "Tool setup completed successfully!" ]),
     Ok tt).
Proof.
  apply (setup_after_success_changes_nothing
           (Sample.linux_with Sample.nested_build) Sample.tools Sample.start
           (fst (SetupWorker.run (Sample.linux_with Sample.nested_build)
                   Sample.tools Sample.start))
           (snd (SetupWorker.run (Sample.linux_with Sample.nested_build)
                   Sample.tools Sample.start))
           "Tool setup completed successfully!").
  - apply surjective_pairing.
  - vm_compute. reflexivity.
Defined.

(** ** What a successful setup has provided *)

(** X18.  A tool setup that reports success leaves the tools directory and
    an entry at each of the three paths it provides: yt-dlp, ffmpeg and
    ffprobe in the tools directory. *)
Theorem successful_setup_leaves_the_tools (E : env) (self : SetupWorker.t)
    (w w' : world) (r : result unit) (message : string) :
  SetupWorker.run E self w = (w', r) ->
  last (trace w') = Some (setup_finished true message) ->
  path_exists (fs w') (SetupWorker.tools_dir self) = true
  /\ path_exists (fs w') (SetupWorker.yt_dlp_path E self) = true
  /\ path_exists (fs w') (SetupWorker.ffmpeg_path_in_tools E self) = true
  /\ path_exists (fs w') (SetupWorker.ffprobe_path_in_tools E self) = true.
Proof.
  intros Hrun Hlast. split.
  - exact (run_success_keeps_tools_dir E self w w' r message Hrun Hlast).
  - exact (run_success_installs E self w w' r message Hrun Hlast).
Qed.

Lemma successful_setup_witness :
  path_exists
    (fs (fst (SetupWorker.run (Sample.linux_with Sample.nested_build)
                Sample.tools Sample.start)))
    (SetupWorker.tools_dir Sample.tools) = true
  /\ path_exists
       (fs (fst (SetupWorker.run (Sample.linux_with Sample.nested_build)
                   Sample.tools Sample.start)))
       (SetupWorker.yt_dlp_path (Sample.linux_with Sample.nested_build)
          Sample.tools) = true
  /\ path_exists
       (fs (fst (SetupWorker.run (Sample.linux_with Sample.nested_build)
                   Sample.tools Sample.start)))
       (SetupWorker.ffmpeg_path_in_tools (Sample.linux_with Sample.nested_build)
          Sample.tools) = true
  /\ path_exists
       (fs (fst (SetupWorker.run (Sample.linux_with Sample.nested_build)
                   Sample.tools Sample.start)))
       (SetupWorker.ffprobe_path_in_tools
          (Sample.linux_with Sample.nested_build) Sample.tools) = true.
Proof.
  apply (successful_setup_leaves_the_tools
           (Sample.linux_with Sample.nested_build) Sample.tools Sample.start
           (fst (SetupWorker.run (Sample.linux_with Sample.nested_build)
                   Sample.tools Sample.start))
           (snd (SetupWorker.run (Sample.linux_with Sample.nested_build)
                   Sample.tools Sample.start))
           "Tool setup completed successfully!").
  - apply surjective_pairing.
  - vm_compute. reflexivity.
Defined.

(** ** The range of the progress bar *)




